(** * MongoDBLibrary.mongoquery: the query-translation layer

    A shallow embedding of the pure parts of [MongoQuery]
    (src/MongoDBLibrary/mongoquery.py):

    - [pythonish_to_json_dict]                      (lines 12-33)
    - the [return__id] conversion and the [data]
      dictionary of
      [retrieve_mongodb_records_with_desired_fields] (lines 326-353)
    - the [_id] handling and the result rendering of
      [_retrieve_mongodb_records]                    (lines 359-383)
    - what the other keywords do with their arguments before and after
      they call the driver: [insert_mongodb_record], [save_mongodb_records],
      [update_many_mongodb_records], [retrieve_all_mongodb_records],
      [retrieve_some_mongodb_records],
      [retrieve_and_update_one_mongodb_record], [remove_mongodb_records],
      [aggregate_mongodb_records] and
      [get_mongodb_collection_count_with_condition]  (lines 141-285, 385-457)

    Conventions.

    - Python [str] values are Rocq [string]s read as sequences of ASCII
      code points.  Text with a code point above 127 is outside the model.
    - Python objects are the inductive [pyobj]; a [dict] is the list of its
      items in insertion order, with Python's rule for assignment to an
      existing key (the position and the key object stay, the value
      changes).
    - A call either returns, raises, or falls outside the modelled fragment
      of Python ([Unmodelled]): floating point literals, non-ASCII text and
      the rarer parts of the expression grammar.  Nothing is claimed about
      [Unmodelled] runs.  CPython's resource limits (recursion depth, length
      of integer literals) are not modelled.
    - An exception of a library carries its class and a message.  The class
      is CPython's; the message is indicative (CPython's own names source
      positions and object addresses).
    - The database driver is a parameter: a cursor is the list of the
      documents it yields. *)

From Stdlib Require Import ZArith List Bool Ascii String Lia.
From Stdlib Require Import Numbers.DecimalString.
From Stdlib Require DecimalPos DecimalFacts.
Import ListNotations.

Set Warnings "-register-all".

Local Open Scope list_scope.
Local Open Scope string_scope.

(** ** Characters and the [str] methods the code calls *)

Module Str.

Definition code (c : ascii) : nat := nat_of_ascii c.

Definition between (lo hi : nat) (c : ascii) : bool :=
  (lo <=? code c)%nat && (code c <=? hi)%nat.

Definition is_digit (c : ascii) : bool := between 48 57 c.
Definition is_upper (c : ascii) : bool := between 65 90 c.
Definition is_lower (c : ascii) : bool := between 97 122 c.
Definition is_alpha (c : ascii) : bool := is_upper c || is_lower c.

(** [\w] of the [re] module, on ASCII text. *)
Definition is_word (c : ascii) : bool :=
  is_alpha c || is_digit c || Ascii.eqb c "_".

Definition lower_char (c : ascii) : ascii :=
  if is_upper c then ascii_of_nat (code c + 32) else c.

Fixpoint all_chars (p : ascii -> bool) (s : string) : bool :=
  match s with
  | EmptyString => true
  | String c s' => p c && all_chars p s'
  end.

Fixpoint map_chars (f : ascii -> ascii) (s : string) : string :=
  match s with
  | EmptyString => EmptyString
  | String c s' => String (f c) (map_chars f s')
  end.

Definition is_empty (s : string) : bool :=
  match s with EmptyString => true | _ => false end.

(** The characters of the model: ASCII, the NUL character apart where
    source text is read. *)
Definition is_ascii (c : ascii) : bool := (code c <? 128)%nat.

(** [c in s] for a character [c]. *)
Fixpoint has_char (c : ascii) (s : string) : bool :=
  match s with
  | EmptyString => false
  | String x s' => Ascii.eqb x c || has_char c s'
  end.

(** [s.isdigit()]: at least one character, all of them digits. *)
Definition isdigit (s : string) : bool :=
  negb (is_empty s) && all_chars is_digit s.

(** [s.lower()] *)
Definition lower (s : string) : string := map_chars lower_char s.

(** [s.replace(old, '')] for a one-character [old]. *)
Fixpoint remove_char (old : ascii) (s : string) : string :=
  match s with
  | EmptyString => EmptyString
  | String c s' =>
      if Ascii.eqb c old then remove_char old s'
      else String c (remove_char old s')
  end.

(** [s.split(sep)] for a one-character [sep]: never the empty list,
    [''.split(',') == ['']]. *)
Fixpoint split (sep : ascii) (s : string) : list string :=
  match s with
  | EmptyString => [EmptyString]
  | String c s' =>
      if Ascii.eqb c sep then EmptyString :: split sep s'
      else match split sep s' with
           | [] => [String c EmptyString]
           | w :: ws => String c w :: ws
           end
  end.

(** [sep.join(parts)] *)
Fixpoint join (sep : string) (parts : list string) : string :=
  match parts with
  | [] => EmptyString
  | [p] => p
  | p :: ps => p ++ sep ++ join sep ps
  end.

(** [s.strip()] on ASCII text: the whitespace characters are space and
    the control characters 9 to 13 and 28 to 31. *)
Definition is_space (c : ascii) : bool :=
  Ascii.eqb c " " || between 9 13 c || between 28 31 c.

Fixpoint lstrip (s : string) : string :=
  match s with
  | EmptyString => EmptyString
  | String c s' => if is_space c then lstrip s' else s
  end.

Fixpoint rstrip (s : string) : string :=
  match s with
  | EmptyString => EmptyString
  | String c s' =>
      match rstrip s' with
      | EmptyString => if is_space c then EmptyString else String c EmptyString
      | r => String c r
      end
  end.

Definition strip (s : string) : string := rstrip (lstrip s).

(** [sub in s] for strings. *)
Fixpoint contains (sub s : string) : bool :=
  String.prefix sub s ||
  match s with
  | EmptyString => false
  | String _ s' => contains sub s'
  end.

(** The double quote character, and a way to write it inside examples:
    [dq "{`k`: 1}"] is the text [{"k": 1}]. *)
Definition dquote : ascii := ascii_of_nat 34.
Definition backtick : ascii := ascii_of_nat 96.
Definition dq (s : string) : string :=
  map_chars (fun c => if Ascii.eqb c backtick then dquote else c) s.

End Str.

(** ** Exceptions and outcomes *)

Inductive exn : Type :=
| SyntaxError (msg : string)
| ValueError (msg : string)
| TypeError (msg : string)
| AttributeError (msg : string)
| KeyError (msg : string)
| JSONDecodeError (msg : string)
| InvalidId (msg : string)
| Exception (msg : string).

(** [str(e)] *)
Definition exn_str (e : exn) : string :=
  match e with
  | SyntaxError m | ValueError m | TypeError m | AttributeError m
  | KeyError m | JSONDecodeError m | InvalidId m | Exception m => m
  end.

Inductive outcome (A : Type) : Type :=
| Return (a : A)
| Raise (e : exn)
| Unmodelled.

Arguments Return {A} a.
Arguments Raise {A} e.
Arguments Unmodelled {A}.

Definition bind {A B : Type} (m : outcome A) (k : A -> outcome B) : outcome B :=
  match m with
  | Return a => k a
  | Raise e => Raise e
  | Unmodelled => Unmodelled
  end.

(** [try: body  except Exception as e: handler(e)] *)
Definition try_except {A : Type} (body : outcome A) (handler : exn -> outcome A)
  : outcome A :=
  match body with
  | Return a => Return a
  | Raise e => handler e
  | Unmodelled => Unmodelled
  end.

Declare Scope outcome_scope.
Delimit Scope outcome_scope with outcome.
Notation "x <- m ;; k" := (bind m (fun x => k))
  (at level 61, m at next level, right associativity) : outcome_scope.
Local Open Scope outcome_scope.

(** ** Python objects *)

(** The store's native identifier ([bson.objectid.ObjectId]), as the spec's
    data model has it: an opaque wrapper around a 24-hex-character token. *)
Record DocumentId : Type := mkDocumentId { token : string }.

Inductive pyobj : Type :=
| PyNone
| PyBool (b : bool)
| PyInt (n : Z)
| PyStr (s : string)
| PyBytes (s : string)
| PyList (elts : list pyobj)
| PyTuple (elts : list pyobj)
| PySet (elts : list pyobj)
| PyDict (items : list (pyobj * pyobj))
| PyObjectId (oid : DocumentId).

Module Py.

(** [type(o).__name__] *)
Definition type_name (o : pyobj) : string :=
  match o with
  | PyNone => "NoneType"
  | PyBool _ => "bool"
  | PyInt _ => "int"
  | PyStr _ => "str"
  | PyBytes _ => "bytes"
  | PyList _ => "list"
  | PyTuple _ => "tuple"
  | PySet _ => "set"
  | PyDict _ => "dict"
  | PyObjectId _ => "ObjectId"
  end.

(** [a == b].  [bool] is a subclass of [int]: [True == 1]. *)
Fixpoint eq (a b : pyobj) {struct a} : bool :=
  match a, b with
  | PyNone, PyNone => true
  | PyBool x, PyBool y => Bool.eqb x y
  | PyBool x, PyInt n => Z.eqb (Z.b2z x) n
  | PyInt m, PyBool y => Z.eqb m (Z.b2z y)
  | PyInt m, PyInt n => Z.eqb m n
  | PyStr s, PyStr t => String.eqb s t
  | PyBytes s, PyBytes t => String.eqb s t
  | PyList l, PyList l' | PyTuple l, PyTuple l' =>
      (fix seq_eq (l l' : list pyobj) {struct l} : bool :=
         match l, l' with
         | [], [] => true
         | x :: r, y :: r' => eq x y && seq_eq r r'
         | _, _ => false
         end) l l'
  | PySet l, PySet l' =>
      Nat.eqb (List.length l) (List.length l') &&
      (fix included (l : list pyobj) {struct l} : bool :=
         match l with
         | [] => true
         | x :: r => existsb (fun y => eq x y) l' && included r
         end) l
  | PyDict d, PyDict d' =>
      Nat.eqb (List.length d) (List.length d') &&
      (fix included (d : list (pyobj * pyobj)) {struct d} : bool :=
         match d with
         | [] => true
         | (k, v) :: r =>
             existsb (fun kv' => eq k (fst kv') && eq v (snd kv')) d'
             && included r
         end) d
  | PyObjectId x, PyObjectId y => String.eqb (token x) (token y)
  | _, _ => false
  end.

(** Whether [hash(o)] succeeds. *)
Fixpoint hashable (o : pyobj) : bool :=
  match o with
  | PyList _ | PySet _ | PyDict _ => false
  | PyTuple l =>
      (fix all (l : list pyobj) : bool :=
         match l with
         | [] => true
         | x :: r => hashable x && all r
         end) l
  | _ => true
  end.

(** [bool(o)] *)
Definition truthy (o : pyobj) : bool :=
  match o with
  | PyNone => false
  | PyBool b => b
  | PyInt n => negb (Z.eqb n 0)
  | PyStr s | PyBytes s => negb (Str.is_empty s)
  | PyList l | PyTuple l | PySet l =>
      match l with [] => false | _ => true end
  | PyDict d => match d with [] => false | _ => true end
  | PyObjectId _ => true
  end.

(** *** Dictionaries: items in insertion order *)

Definition dict : Type := list (pyobj * pyobj).

(** [d[k] = v] *)
Fixpoint setitem (d : dict) (k v : pyobj) : dict :=
  match d with
  | [] => [(k, v)]
  | (k', v') :: d' =>
      if eq k' k then (k', v) :: d' else (k', v') :: setitem d' k v
  end.

(** [d.get(k)] *)
Fixpoint get (d : dict) (k : pyobj) : option pyobj :=
  match d with
  | [] => None
  | (k', v') :: d' => if eq k' k then Some v' else get d' k
  end.

(** [k in d] *)
Definition contains (d : dict) (k : pyobj) : bool :=
  match get d k with Some _ => true | None => false end.

Definition keys (d : dict) : list pyobj := map fst d.

(** [set.add] *)
Definition set_add (s : list pyobj) (x : pyobj) : list pyobj :=
  if existsb (fun y => eq y x) s then s else (s ++ [x])%list.

(** *** [repr] *)

Definition hex_digit (n : nat) : ascii :=
  if (n <? 10)%nat then ascii_of_nat (48 + n) else ascii_of_nat (87 + n).

(** [str(n)] for an [int] *)
Definition int_str (n : Z) : string := NilZero.string_of_int (Z.to_int n).

Fixpoint repr_chars (quote : ascii) (s : string) : string :=
  match s with
  | EmptyString => EmptyString
  | String c s' =>
      let n := Str.code c in
      (if Ascii.eqb c quote || Ascii.eqb c "\" then String "\" (String c EmptyString)
       else if (n =? 9)%nat then "\t"
       else if (n =? 10)%nat then "\n"
       else if (n =? 13)%nat then "\r"
       else if (n <? 32)%nat || (126 <? n)%nat then
         String "\" (String "x" (String (hex_digit (n / 16))
                                   (String (hex_digit (n mod 16)) EmptyString)))
       else String c EmptyString)
      ++ repr_chars quote s'
  end.

(** [repr(s)] for a [str]: single quotes, unless the text has a single
    quote and no double quote. *)
Definition repr_str (s : string) : string :=
  let quote :=
    if Str.has_char "'" s && negb (Str.has_char Str.dquote s)
    then Str.dquote else "'"%char in
  String quote (repr_chars quote s) ++ String quote EmptyString.

Fixpoint repr (o : pyobj) : string :=
  let seq :=
    fix seq (l : list pyobj) : list string :=
      match l with
      | [] => []
      | x :: r => repr x :: seq r
      end in
  match o with
  | PyNone => "None"
  | PyBool true => "True"
  | PyBool false => "False"
  | PyInt n => int_str n
  | PyStr s => repr_str s
  | PyBytes s => "b" ++ repr_str s
  | PyList l => "[" ++ Str.join ", " (seq l) ++ "]"
  | PyTuple [x] => "(" ++ repr x ++ ",)"
  | PyTuple l => "(" ++ Str.join ", " (seq l) ++ ")"
  | PySet [] => "set()"
  | PySet l => "{" ++ Str.join ", " (seq l) ++ "}"
  | PyDict d =>
      "{" ++ Str.join ", "
               ((fix items (d : list (pyobj * pyobj)) : list string :=
                   match d with
                   | [] => []
                   | (k, v) :: r => (repr k ++ ": " ++ repr v) :: items r
                   end) d) ++ "}"
  | PyObjectId oid => "ObjectId('" ++ token oid ++ "')"
  end.

(** [str(d.items())]: the text [dict_items([(k, v), ...])]. *)
Definition items_str (d : dict) : string :=
  "dict_items(["
  ++ Str.join ", " (map (fun kv => "(" ++ repr (fst kv) ++ ", " ++ repr (snd kv) ++ ")") d)
  ++ "])".

End Py.

Module PyOps.

(** [str(o)]: the text itself for a [str], [repr] otherwise. *)
Definition str (o : pyobj) : string :=
  match o with
  | PyStr s => s
  | _ => Py.repr o
  end.

Definition no_attribute (o : pyobj) (name : string) : exn :=
  AttributeError ("'" ++ Py.type_name o ++ "' object has no attribute '" ++ name ++ "'").

(** [o.isdigit()] *)
Definition isdigit (o : pyobj) : outcome bool :=
  match o with
  | PyStr s | PyBytes s => Return (Str.isdigit s)
  | _ => Raise (no_attribute o "isdigit")
  end.

(** [o.lower()] *)
Definition lower (o : pyobj) : outcome pyobj :=
  match o with
  | PyStr s => Return (PyStr (Str.lower s))
  | PyBytes s => Return (PyBytes (Str.lower s))
  | _ => Raise (no_attribute o "lower")
  end.

(** [k in o] *)
Definition contains (k o : pyobj) : outcome bool :=
  match o with
  | PyDict d =>
      if Py.hashable k then Return (Py.contains d k)
      else Raise (TypeError ("unhashable type: '" ++ Py.type_name k ++ "'"))
  | PyList l | PyTuple l => Return (existsb (fun x => Py.eq x k) l)
  | PySet l =>
      if Py.hashable k then Return (existsb (fun x => Py.eq x k) l)
      else Raise (TypeError ("unhashable type: '" ++ Py.type_name k ++ "'"))
  | PyStr s =>
      match k with
      | PyStr sub => Return (Str.contains sub s)
      | _ => Raise (TypeError ("'in <string>' requires string as left operand, not "
                               ++ Py.type_name k))
      end
  | PyNone | PyBool _ | PyInt _ =>
      Raise (TypeError ("argument of type '" ++ Py.type_name o ++ "' is not iterable"))
  | PyBytes _ | PyObjectId _ => Unmodelled
  end.

(** [o[k]] for a [str] key [k] *)
Definition getitem (o k : pyobj) : outcome pyobj :=
  match o with
  | PyDict d =>
      match Py.get d k with
      | Some v => Return v
      | None => Raise (KeyError (Py.repr k))
      end
  | PyList _ | PyTuple _ =>
      Raise (TypeError (Py.type_name o ++ " indices must be integers or slices, not "
                        ++ Py.type_name k))
  | PyStr _ => Raise (TypeError ("string indices must be integers, not '"
                                 ++ Py.type_name k ++ "'"))
  | _ => Unmodelled
  end.

(** [o[k] = v] *)
Definition setitem (o k v : pyobj) : outcome pyobj :=
  match o with
  | PyDict d => Return (PyDict (Py.setitem d k v))
  | _ => Unmodelled
  end.

End PyOps.

(** ** The identifier type of the store *)

Module Bson.

Definition is_hex (c : ascii) : bool :=
  Str.is_digit c || Str.between 97 102 c || Str.between 65 70 c.

(** A well-formed identifier token: exactly 24 hexadecimal characters. *)
Definition well_formed (s : string) : bool :=
  Nat.eqb (String.length s) 24 && Str.all_chars is_hex s.

(** Modelled from the spec: the constructor [ObjectId(...)] of
    [bson.objectid], which the repository imports and does not define.
    The spec's data model: a DocumentId wraps a 24-hex-character textual
    token, and construction fails on anything else.  The failure is the
    library's [InvalidId], the spec's IdentifierError carrying the value. *)
Definition ObjectId (v : pyobj) : outcome DocumentId :=
  match v with
  | PyStr s =>
      if well_formed s then Return (mkDocumentId s)
      else Raise (InvalidId (Py.repr v))
  | _ => Raise (InvalidId (Py.repr v))
  end.

End Bson.

(** ** [re.sub(r'\bWORD\b', repl, text, flags=re.IGNORECASE)] *)

Module Re.

(** One character of the pattern against one of the text, ignoring case. *)
Definition char_eq_ci (p c : ascii) : bool :=
  Ascii.eqb (Str.lower_char p) (Str.lower_char c).

(** The text after a match of the literal [word] at the start of [s]. *)
Fixpoint match_literal (word s : string) : option string :=
  match word, s with
  | EmptyString, _ => Some s
  | String p word', String c s' =>
      if char_eq_ci p c then match_literal word' s' else None
  | String _ _, EmptyString => None
  end.

Definition starts_with_word_char (s : string) : bool :=
  match s with
  | String c _ => Str.is_word c
  | EmptyString => false
  end.

(** [\bWORD\b] matches at the start of [s], the character before [s] being
    a word character or not ([prev_word]).  [WORD] starts and ends with a
    word character, so [\b] asks for a non-word character (or an end of the
    text) on either side. *)
Definition matches_at (word : string) (prev_word : bool) (s : string) : bool :=
  negb prev_word &&
  match match_literal word s with
  | Some rest => negb (starts_with_word_char rest)
  | None => false
  end.

(** The scan of [re.sub]: leftmost matches, not overlapping.  [skip] counts
    the characters of the current match still to be dropped. *)
Fixpoint sub_from (word repl : string) (prev_word : bool) (skip : nat) (s : string)
  : string :=
  match s with
  | EmptyString => EmptyString
  | String c s' =>
      match skip with
      | S k => sub_from word repl (Str.is_word c) k s'
      | O =>
          if matches_at word prev_word s
          then repl ++ sub_from word repl (Str.is_word c) (String.length word - 1) s'
          else String c (sub_from word repl (Str.is_word c) 0 s')
      end
  end.

Definition sub_word (word repl text : string) : string :=
  sub_from word repl false 0 text.

End Re.

(** ** [ast.literal_eval] *)

Module Ast.

Inductive token : Type :=
| TName (id : string)
| TInt (n : Z)
| TStr (s : string)
| TBytes (s : string)
| TOpen (c : ascii)
| TClose (c : ascii)
| TComma
| TColon
| TPlus
| TMinus.

(** *** The tokenizer *)

Fixpoint span (p : ascii -> bool) (s : string) : string * string :=
  match s with
  | EmptyString => (EmptyString, EmptyString)
  | String c s' =>
      if p c then let (a, b) := span p s' in (String c a, b)
      else (EmptyString, s)
  end.

Fixpoint int_of_digits (acc : Z) (s : string) : Z :=
  match s with
  | EmptyString => acc
  | String c s' => int_of_digits (10 * acc + Z.of_nat (Str.code c - 48)) s'
  end.

Definition hex_value (c : ascii) : option nat :=
  if Str.is_digit c then Some (Str.code c - 48)
  else if Str.between 97 102 c then Some (Str.code c - 87)
  else if Str.between 65 70 c then Some (Str.code c - 55)
  else None.

Definition is_octal (c : ascii) : bool := Str.between 48 55 c.

Definition is_quote (c : ascii) : bool :=
  Ascii.eqb c "'" || Ascii.eqb c Str.dquote.

Definition is_newline (c : ascii) : bool :=
  (Str.code c =? 10)%nat || (Str.code c =? 13)%nat.

(** Blanks between tokens: space and tab.  (A form feed is one too, but it
    also resets the indentation count of its line; it is left out.) *)
Definition is_blank (c : ascii) : bool :=
  (Str.code c =? 32)%nat || (Str.code c =? 9)%nat.

(** The state of the scan inside a string literal. *)
Inductive escape_state : Type :=
| Plain
| Backslash
| Hex (need acc : nat)
| Octal (more acc : nat).

(** A decoded character: code points above 127 leave the model. *)
Definition emit (n : nat) (r : outcome (string * string)) : outcome (string * string) :=
  if (127 <? n)%nat then Unmodelled
  else p <- r ;; Return (String (ascii_of_nat n) (fst p), snd p).

Definition emit2 (a b : ascii) (r : outcome (string * string))
  : outcome (string * string) :=
  p <- r ;; Return (String a (String b (fst p)), snd p).

Definition unterminated : exn := SyntaxError "unterminated string literal".

(** The body of a string literal opened by [quote], up to its closing
    quote: the decoded text and the rest of the source.  [raw] and [bytes_]
    are the literal's prefix. *)
Fixpoint scan_string (raw bytes_ : bool) (quote : ascii) (st : escape_state)
  (s : string) : outcome (string * string) :=
  match s with
  | EmptyString => Raise unterminated
  | String c s' =>
      let continue := fun st' => scan_string raw bytes_ quote st' s' in
      let plain :=
        if (Str.code c =? 0)%nat || (127 <? Str.code c)%nat then Unmodelled
        else if Ascii.eqb c quote then Return (EmptyString, s')
        else if is_newline c then Raise unterminated
        else if Ascii.eqb c "\" then continue Backslash
        else emit (Str.code c) (continue Plain) in
      match st with
      | Plain => plain
      | Backslash =>
          if (Str.code c =? 0)%nat || (127 <? Str.code c)%nat then Unmodelled
          else if is_newline c then Unmodelled
          else if raw then emit2 "\" c (continue Plain)
          else if Ascii.eqb c "\" || is_quote c then emit (Str.code c) (continue Plain)
          else if Ascii.eqb c "a" then emit 7 (continue Plain)
          else if Ascii.eqb c "b" then emit 8 (continue Plain)
          else if Ascii.eqb c "f" then emit 12 (continue Plain)
          else if Ascii.eqb c "n" then emit 10 (continue Plain)
          else if Ascii.eqb c "r" then emit 13 (continue Plain)
          else if Ascii.eqb c "t" then emit 9 (continue Plain)
          else if Ascii.eqb c "v" then emit 11 (continue Plain)
          else if is_octal c then continue (Octal 2 (Str.code c - 48))
          else if Ascii.eqb c "x" then continue (Hex 2 0)
          else if Ascii.eqb c "u" && negb bytes_ then continue (Hex 4 0)
          else if Ascii.eqb c "U" && negb bytes_ then continue (Hex 8 0)
          else if Ascii.eqb c "N" && negb bytes_ then Unmodelled
          else emit2 "\" c (continue Plain)
      | Hex need acc =>
          match hex_value c with
          | None => Raise (SyntaxError "truncated escape in string literal")
          | Some v =>
              match need with
              | 0 | 1 => emit (16 * acc + v) (continue Plain)
              | S need' => continue (Hex need' (16 * acc + v))
              end
          end
      | Octal more acc =>
          match more with
          | S more' =>
              if is_octal c then continue (Octal more' (8 * acc + (Str.code c - 48)))
              else emit acc plain
          | O => emit acc plain
          end
      end
  end.

(** What a name written right before a quote means: [(raw, bytes)] for a
    string prefix. *)
Definition string_prefix (id : string) : option (option (bool * bool)) :=
  let p := Str.lower id in
  if String.eqb p "u" then Some (Some (false, false))
  else if String.eqb p "r" then Some (Some (true, false))
  else if String.eqb p "b" then Some (Some (false, true))
  else if String.eqb p "br" || String.eqb p "rb" then Some (Some (true, true))
  else if String.eqb p "f" || String.eqb p "fr" || String.eqb p "rf" then Some None
  else None.

Definition closer_of (c : ascii) : ascii :=
  if Ascii.eqb c "(" then ")"%char
  else if Ascii.eqb c "[" then "]"%char
  else "}"%char.

Definition is_opener (c : ascii) : bool :=
  Ascii.eqb c "(" || Ascii.eqb c "[" || Ascii.eqb c "{".

Definition is_closer (c : ascii) : bool :=
  Ascii.eqb c ")" || Ascii.eqb c "]" || Ascii.eqb c "}".

Definition starts_with (p : ascii -> bool) (s : string) : bool :=
  match s with
  | String c _ => p c
  | EmptyString => false
  end.

Definition triple_quoted (quote : ascii) (s : string) : bool :=
  match s with
  | String a (String b _) => Ascii.eqb a quote && Ascii.eqb b quote
  | _ => false
  end.

Definition cons_token (t : token) (r : outcome (list token)) : outcome (list token) :=
  ts <- r ;; Return (t :: ts).

(** [open] is the stack of the brackets still open.  A line end inside
    brackets is a blank; a line end outside them ends the expression, and
    the model follows only when nothing but line ends come after it. *)
Fixpoint tokenize (fuel : nat) (open : list ascii) (s : string)
  : outcome (list token) :=
  match fuel with
  | O => Unmodelled
  | S fuel' =>
      match s with
      | EmptyString =>
          match open with
          | [] => Return []
          | c :: _ => Raise (SyntaxError ("'" ++ String c "' was never closed"))
          end
      | String c s' =>
          if is_blank c then tokenize fuel' open s'
          else if is_newline c then
            match open with
            | [] => if Str.all_chars is_newline s' then Return [] else Unmodelled
            | _ => tokenize fuel' open s'
            end
          else if is_quote c then
            if triple_quoted c s' then Unmodelled
            else p <- scan_string false false c Plain s' ;;
                 cons_token (TStr (fst p)) (tokenize fuel' open (snd p))
          else if Str.is_alpha c || Ascii.eqb c "_" then
            let (id, rest) := span Str.is_word s in
            match rest with
            | String q rest' =>
                if is_quote q then
                  match string_prefix id with
                  | Some (Some (raw, bytes_)) =>
                      if triple_quoted q rest' then Unmodelled
                      else p <- scan_string raw bytes_ q Plain rest' ;;
                           cons_token (if bytes_ then TBytes (fst p) else TStr (fst p))
                                      (tokenize fuel' open (snd p))
                  | Some None => Unmodelled
                  | None => cons_token (TName id) (tokenize fuel' open rest)
                  end
                else cons_token (TName id) (tokenize fuel' open rest)
            | EmptyString => cons_token (TName id) (tokenize fuel' open rest)
            end
          else if Str.is_digit c then
            let (ds, rest) := span Str.is_digit s in
            if starts_with (fun x => Str.is_word x || Ascii.eqb x ".") rest then Unmodelled
            else if Ascii.eqb c "0" && negb (Str.all_chars (Ascii.eqb "0") ds)
            then Raise (SyntaxError
                   "leading zeros in decimal integer literals are not permitted")
            else cons_token (TInt (int_of_digits 0 ds)) (tokenize fuel' open rest)
          else if is_opener c then
            cons_token (TOpen c) (tokenize fuel' (c :: open) s')
          else if is_closer c then
            match open with
            | [] => Raise (SyntaxError ("unmatched '" ++ String c "'"))
            | o :: open' =>
                if Ascii.eqb c (closer_of o)
                then cons_token (TClose c) (tokenize fuel' open' s')
                else Raise (SyntaxError
                       ("closing parenthesis '" ++ String c "' does not match "
                        ++ "opening parenthesis '" ++ String o "'"))
            end
          else if Ascii.eqb c "," then cons_token TComma (tokenize fuel' open s')
          else if Ascii.eqb c ":" then
            if starts_with (Ascii.eqb "=") s' then Unmodelled
            else cons_token TColon (tokenize fuel' open s')
          else if Ascii.eqb c "+" then
            if starts_with (Ascii.eqb "=") s' then Unmodelled
            else cons_token TPlus (tokenize fuel' open s')
          else if Ascii.eqb c "-" then
            if starts_with (fun x => Ascii.eqb x "=" || Ascii.eqb x ">") s' then Unmodelled
            else cons_token TMinus (tokenize fuel' open s')
          else Unmodelled
      end
  end.

(** *** The parser: [ast.parse(text, mode='eval')] on the fragment *)

Inductive unaryop : Type := UAdd | USub.

Inductive expr : Type :=
| Constant (value : pyobj)
| Name (id : string)
| UnaryOp (op : unaryop) (operand : expr)
| Tuple (elts : list expr)
| List_ (elts : list expr)
| Set_ (elts : list expr)
| Dict (entries : list (expr * expr)).

Definition keywords : list string :=
  ["and"; "as"; "assert"; "async"; "await"; "break"; "class"; "continue";
   "def"; "del"; "elif"; "else"; "except"; "finally"; "for"; "from";
   "global"; "if"; "import"; "in"; "is"; "lambda"; "nonlocal"; "not"; "or";
   "pass"; "raise"; "return"; "try"; "while"; "with"; "yield"].

Definition is_keyword (id : string) : bool := existsb (String.eqb id) keywords.

Definition invalid_syntax : exn := SyntaxError "invalid syntax".

(** The token after a complete expression, when it is neither a comma, a
    colon nor a closing bracket: a name, a number or a string cannot follow
    an expression; a keyword, an operator or an opening bracket may continue
    it in ways the fragment leaves out. *)
Definition after_expression {A : Type} (ts : list token) : outcome A :=
  match ts with
  | TName id :: _ => if is_keyword id then Unmodelled else Raise invalid_syntax
  | TInt _ :: _ | TStr _ :: _ | TBytes _ :: _ => Raise invalid_syntax
  | TColon :: _ | TComma :: _ | TClose _ :: _ => Raise invalid_syntax
  | [] => Raise invalid_syntax
  | TOpen _ :: _ | TPlus :: _ | TMinus :: _ => Unmodelled
  end.

(** Adjacent string literals are one constant. *)
Fixpoint more_strings (bytes_ : bool) (acc : string) (ts : list token)
  : outcome (string * list token) :=
  match ts with
  | TStr s :: r =>
      if bytes_ then Raise (SyntaxError "cannot mix bytes and nonbytes literals")
      else more_strings bytes_ (acc ++ s) r
  | TBytes s :: r =>
      if bytes_ then more_strings bytes_ (acc ++ s) r
      else Raise (SyntaxError "cannot mix bytes and nonbytes literals")
  | _ => Return (acc, ts)
  end.

(** [parse_expr]: one expression.  [parse_items]: the elements of a display
    after its opening bracket, up to the closing one; the flag tells whether
    a comma was read.  [parse_entries]: the [key: value] entries of a dict
    display after its first entry.  The tokenizer has matched the brackets,
    so a closing bracket is the right one. *)
Fixpoint parse_expr (fuel : nat) (ts : list token) {struct fuel}
  : outcome (expr * list token) :=
  match fuel with
  | O => Unmodelled
  | S fuel' =>
      match ts with
      | [] => Raise invalid_syntax
      | TPlus :: r =>
          p <- parse_expr fuel' r ;; Return (UnaryOp UAdd (fst p), snd p)
      | TMinus :: r =>
          p <- parse_expr fuel' r ;; Return (UnaryOp USub (fst p), snd p)
      | TName id :: r =>
          if String.eqb id "None" then Return (Constant PyNone, r)
          else if String.eqb id "True" then Return (Constant (PyBool true), r)
          else if String.eqb id "False" then Return (Constant (PyBool false), r)
          else if is_keyword id then Unmodelled
          else Return (Name id, r)
      | TInt n :: r => Return (Constant (PyInt n), r)
      | TStr s :: r =>
          p <- more_strings false s r ;; Return (Constant (PyStr (fst p)), snd p)
      | TBytes s :: r =>
          p <- more_strings true s r ;; Return (Constant (PyBytes (fst p)), snd p)
      | TOpen c :: r =>
          if Ascii.eqb c "(" then
            p <- parse_items fuel' r ;;
            match p with
            | ([e], false, r') => Return (e, r')
            | (es, _, r') => Return (Tuple es, r')
            end
          else if Ascii.eqb c "[" then
            p <- parse_items fuel' r ;;
            match p with (es, _, r') => Return (List_ es, r') end
          else
            match r with
            | TClose _ :: r' => Return (Dict [], r')
            | _ =>
                k <- parse_expr fuel' r ;;
                match snd k with
                | TColon :: r1 =>
                    v <- parse_expr fuel' r1 ;;
                    p <- parse_entries fuel' (snd v) ;;
                    Return (Dict ((fst k, fst v) :: fst p), snd p)
                | TComma :: r1 =>
                    p <- parse_items fuel' r1 ;;
                    match p with (es, _, r') => Return (Set_ (fst k :: es), r') end
                | TClose _ :: r1 => Return (Set_ [fst k], r1)
                | other => after_expression other
                end
            end
      | TClose _ :: _ | TComma :: _ | TColon :: _ => Raise invalid_syntax
      end
  end

with parse_items (fuel : nat) (ts : list token) {struct fuel}
  : outcome (list expr * bool * list token) :=
  match fuel with
  | O => Unmodelled
  | S fuel' =>
      match ts with
      | TClose _ :: r => Return ([], false, r)
      | _ =>
          e <- parse_expr fuel' ts ;;
          match snd e with
          | TComma :: r =>
              p <- parse_items fuel' r ;;
              match p with (es, _, r') => Return (fst e :: es, true, r') end
          | TClose _ :: r => Return ([fst e], false, r)
          | other => after_expression other
          end
      end
  end

with parse_entries (fuel : nat) (ts : list token) {struct fuel}
  : outcome (list (expr * expr) * list token) :=
  match fuel with
  | O => Unmodelled
  | S fuel' =>
      match ts with
      | TClose _ :: r => Return ([], r)
      | TComma :: TClose _ :: r => Return ([], r)
      | TComma :: r =>
          k <- parse_expr fuel' r ;;
          match snd k with
          | TColon :: r1 =>
              v <- parse_expr fuel' r1 ;;
              p <- parse_entries fuel' (snd v) ;;
              Return ((fst k, fst v) :: fst p, snd p)
          | other => after_expression other
          end
      | other => after_expression other
      end
  end.

(** The whole text: one expression, or several separated by commas (a
    tuple without parentheses). *)
Fixpoint parse_top (fuel : nat) (ts : list token) : outcome (list expr * bool) :=
  match fuel with
  | O => Unmodelled
  | S fuel' =>
      e <- parse_expr (2 * List.length ts + 2) ts ;;
      match snd e with
      | [] => Return ([fst e], false)
      | [TComma] => Return ([fst e], true)
      | TComma :: r =>
          p <- parse_top fuel' r ;; Return (fst e :: fst p, true)
      | other => after_expression other
      end
  end.

Definition parse (text : string) : outcome expr :=
  if negb (Str.all_chars (fun c => negb (Str.code c =? 0)%nat && Str.is_ascii c) text)
  then Unmodelled
  else
    ts <- tokenize (String.length text + 1) [] text ;;
    p <- parse_top (List.length ts + 1) ts ;;
    match p with
    | ([e], false) => Return e
    | (es, _) => Return (Tuple es)
    end.

(** *** [literal_eval]: the conversion of the parsed expression *)

Definition malformed : exn := ValueError "malformed node or string".

Definition unhashable (o : pyobj) : exn :=
  TypeError ("unhashable type: '" ++ Py.type_name o ++ "'").

(** [_convert_num] *)
Definition convert_num (node : expr) : outcome pyobj :=
  match node with
  | Constant (PyInt n) => Return (PyInt n)
  | _ => Raise malformed
  end.

(** [_convert_signed_num] *)
Definition convert_signed_num (node : expr) : outcome pyobj :=
  match node with
  | UnaryOp op operand =>
      v <- convert_num operand ;;
      match op, v with
      | UAdd, PyInt n => Return (PyInt n)
      | USub, PyInt n => Return (PyInt (- n))
      | _, _ => Raise malformed
      end
  | _ => convert_num node
  end.

(** [_convert].  [tuple(map(...))] and [list(map(...))] convert the
    elements in turn; [set(map(...))] hashes each element as soon as it is
    converted; [dict(zip(map(...), map(...)))] converts a key, then its
    value, then hashes the key. *)
Fixpoint convert (node : expr) : outcome pyobj :=
  let seq :=
    fix seq (l : list expr) : outcome (list pyobj) :=
      match l with
      | [] => Return []
      | e :: r => v <- convert e ;; vs <- seq r ;; Return (v :: vs)
      end in
  match node with
  | Constant value => Return value
  | Tuple elts => vs <- seq elts ;; Return (PyTuple vs)
  | List_ elts => vs <- seq elts ;; Return (PyList vs)
  | Set_ elts =>
      s <- (fix build (acc : list pyobj) (l : list expr) : outcome (list pyobj) :=
              match l with
              | [] => Return acc
              | e :: r =>
                  v <- convert e ;;
                  if Py.hashable v then build (Py.set_add acc v) r
                  else Raise (unhashable v)
              end) [] elts ;;
      Return (PySet s)
  | Dict entries =>
      d <- (fix build (acc : Py.dict) (l : list (expr * expr)) : outcome Py.dict :=
              match l with
              | [] => Return acc
              | (k, v) :: r =>
                  kv <- convert k ;;
                  vv <- convert v ;;
                  if Py.hashable kv then build (Py.setitem acc kv vv) r
                  else Raise (unhashable kv)
              end) [] entries ;;
      Return (PyDict d)
  | _ => convert_signed_num node
  end.

(** [str.lstrip(" \t")] *)
Fixpoint lstrip_space_tab (s : string) : string :=
  match s with
  | String c s' =>
      if (Str.code c =? 32)%nat || (Str.code c =? 9)%nat then lstrip_space_tab s'
      else s
  | EmptyString => EmptyString
  end.

Definition literal_eval (node_or_string : string) : outcome pyobj :=
  node <- parse (lstrip_space_tab node_or_string) ;;
  convert node.

End Ast.

(** ** [json.dumps] and [json.loads], with their default settings *)

Module Json.

(** *** The encoder *)

Definition hex4 (n : nat) : string :=
  String (Py.hex_digit (n / 4096 mod 16))
    (String (Py.hex_digit (n / 256 mod 16))
       (String (Py.hex_digit (n / 16 mod 16))
          (String (Py.hex_digit (n mod 16)) EmptyString))).

(** [ensure_ascii]: everything outside space to tilde is escaped. *)
Fixpoint encode_chars (s : string) : string :=
  match s with
  | EmptyString => EmptyString
  | String c s' =>
      let n := Str.code c in
      (if Ascii.eqb c Str.dquote then String "\" (String Str.dquote EmptyString)
       else if Ascii.eqb c "\" then "\\"
       else if (n =? 10)%nat then "\n"
       else if (n =? 13)%nat then "\r"
       else if (n =? 9)%nat then "\t"
       else if (n =? 12)%nat then "\f"
       else if (n =? 8)%nat then "\b"
       else if (n <? 32)%nat || (126 <? n)%nat then "\u" ++ hex4 n
       else String c EmptyString)
      ++ encode_chars s'
  end.

Definition encode_str (s : string) : string :=
  String Str.dquote (encode_chars s) ++ String Str.dquote EmptyString.

Definition not_serializable (o : pyobj) : exn :=
  TypeError ("Object of type " ++ Py.type_name o ++ " is not JSON serializable").

(** The text of a dict key: [str] as it is, [bool], [None] and [int]
    through their JSON spelling, anything else refused. *)
Definition encode_key (k : pyobj) : outcome string :=
  match k with
  | PyStr s => Return (encode_str s)
  | PyBool true => Return (encode_str "true")
  | PyBool false => Return (encode_str "false")
  | PyNone => Return (encode_str "null")
  | PyInt n => Return (encode_str (Py.int_str n))
  | _ => Raise (TypeError ("keys must be str, int, float, bool or None, not "
                           ++ Py.type_name k))
  end.

Fixpoint dumps (obj : pyobj) : outcome string :=
  match obj with
  | PyNone => Return "null"
  | PyBool true => Return "true"
  | PyBool false => Return "false"
  | PyInt n => Return (Py.int_str n)
  | PyStr s => Return (encode_str s)
  | PyList l | PyTuple l =>
      parts <- (fix seq (l : list pyobj) : outcome (list string) :=
                  match l with
                  | [] => Return []
                  | x :: r => t <- dumps x ;; ts <- seq r ;; Return (t :: ts)
                  end) l ;;
      Return ("[" ++ Str.join ", " parts ++ "]")
  | PyDict d =>
      parts <- (fix seq (d : list (pyobj * pyobj)) : outcome (list string) :=
                  match d with
                  | [] => Return []
                  | (k, v) :: r =>
                      kt <- encode_key k ;;
                      vt <- dumps v ;;
                      ts <- seq r ;;
                      Return ((kt ++ ": " ++ vt) :: ts)
                  end) d ;;
      Return ("{" ++ Str.join ", " parts ++ "}")
  | PySet _ | PyBytes _ | PyObjectId _ => Raise (not_serializable obj)
  end.

(** *** The decoder *)

Definition decode_error (msg : string) : exn := JSONDecodeError msg.

(** JSON whitespace: space, tab, line feed, carriage return. *)
Definition is_ws (c : ascii) : bool :=
  (Str.code c =? 32)%nat || (Str.code c =? 9)%nat ||
  (Str.code c =? 10)%nat || (Str.code c =? 13)%nat.

Fixpoint skip_ws (s : string) : string :=
  match s with
  | String c s' => if is_ws c then skip_ws s' else s
  | EmptyString => EmptyString
  end.

Inductive string_state : Type :=
| InText
| AfterBackslash
| InUnicode (need acc : nat).

Definition emit (n : nat) (r : outcome (string * string)) : outcome (string * string) :=
  if (127 <? n)%nat then Unmodelled
  else p <- r ;; Return (String (ascii_of_nat n) (fst p), snd p).

(** [scanstring] in strict mode, after the opening quote. *)
Fixpoint scan_string (st : string_state) (s : string) : outcome (string * string) :=
  match s with
  | EmptyString => Raise (decode_error "Unterminated string starting at")
  | String c s' =>
      let n := Str.code c in
      match st with
      | InText =>
          if (127 <? n)%nat then Unmodelled
          else if Ascii.eqb c Str.dquote then Return (EmptyString, s')
          else if Ascii.eqb c "\" then scan_string AfterBackslash s'
          else if (n <? 32)%nat then Raise (decode_error "Invalid control character at")
          else emit n (scan_string InText s')
      | AfterBackslash =>
          if Ascii.eqb c Str.dquote || Ascii.eqb c "\" || Ascii.eqb c "/"
          then emit n (scan_string InText s')
          else if Ascii.eqb c "b" then emit 8 (scan_string InText s')
          else if Ascii.eqb c "f" then emit 12 (scan_string InText s')
          else if Ascii.eqb c "n" then emit 10 (scan_string InText s')
          else if Ascii.eqb c "r" then emit 13 (scan_string InText s')
          else if Ascii.eqb c "t" then emit 9 (scan_string InText s')
          else if Ascii.eqb c "u" then scan_string (InUnicode 4 0) s'
          else if (127 <? n)%nat then Unmodelled
          else Raise (decode_error "Invalid \\escape")
      | InUnicode need acc =>
          match Ast.hex_value c with
          | None => if (127 <? n)%nat then Unmodelled
                    else Raise (decode_error "Invalid \\uXXXX escape")
          | Some v =>
              match need with
              | 0 | 1 => emit (16 * acc + v) (scan_string InText s')
              | S need' => scan_string (InUnicode need' (16 * acc + v)) s'
              end
          end
      end
  end.

(** The integer part of [NUMBER_RE] (an optional minus sign, then a single
    zero or a non-zero digit and further digits), with the rest of the
    text. *)
Definition scan_int (s : string) : option (Z * string) :=
  let (neg, body) :=
    match s with
    | String "-" s' => (true, s')
    | _ => (false, s)
    end in
  match body with
  | String "0" rest => Some (0%Z, rest)
  | String c _ =>
      if Str.is_digit c then
        let (ds, rest) := Ast.span Str.is_digit body in
        let n := Ast.int_of_digits 0 ds in
        Some (if neg then (- n)%Z else n, rest)
      else None
  | EmptyString => None
  end.

Definition expecting_value : exn := decode_error "Expecting value".

(** [scan_once]: one value at the start of [s].  [parse_array] and
    [parse_object] read what follows the opening bracket. *)
Fixpoint scan_once (fuel : nat) (s : string) {struct fuel} : outcome (pyobj * string) :=
  match fuel with
  | O => Unmodelled
  | S fuel' =>
      match s with
      | EmptyString => Raise expecting_value
      | String c s' =>
          if Ascii.eqb c Str.dquote then
            p <- scan_string InText s' ;; Return (PyStr (fst p), snd p)
          else if Ascii.eqb c "{" then parse_object fuel' [] true (skip_ws s')
          else if Ascii.eqb c "[" then parse_array fuel' [] true (skip_ws s')
          else if String.prefix "null" s then Return (PyNone, String.substring 4 (String.length s - 4) s)
          else if String.prefix "true" s then Return (PyBool true, String.substring 4 (String.length s - 4) s)
          else if String.prefix "false" s then Return (PyBool false, String.substring 5 (String.length s - 5) s)
          else
            match scan_int s with
            | Some (n, rest) =>
                if Ast.starts_with (fun x => Ascii.eqb x "." || Ascii.eqb x "e" || Ascii.eqb x "E") rest
                then Unmodelled
                else Return (PyInt n, rest)
            | None =>
                if String.prefix "NaN" s || String.prefix "Infinity" s
                   || String.prefix "-Infinity" s || (127 <? Str.code c)%nat
                then Unmodelled
                else Raise expecting_value
            end
      end
  end

with parse_array (fuel : nat) (acc : list pyobj) (first : bool) (s : string)
  {struct fuel} : outcome (pyobj * string) :=
  match fuel with
  | O => Unmodelled
  | S fuel' =>
      match s with
      | String "]" rest =>
          if first then Return (PyList (List.rev acc), rest) else Raise expecting_value
      | _ =>
          v <- scan_once fuel' s ;;
          match skip_ws (snd v) with
          | String "," rest => parse_array fuel' (fst v :: acc) false (skip_ws rest)
          | String "]" rest => Return (PyList (List.rev (fst v :: acc)), rest)
          | _ => Raise (decode_error "Expecting ',' delimiter")
          end
      end
  end

with parse_object (fuel : nat) (acc : Py.dict) (first : bool) (s : string)
  {struct fuel} : outcome (pyobj * string) :=
  match fuel with
  | O => Unmodelled
  | S fuel' =>
      match s with
      | String "}" rest =>
          if first then Return (PyDict acc, rest)
          else Raise (decode_error "Expecting property name enclosed in double quotes")
      | String c s' =>
          if Ascii.eqb c Str.dquote then
            k <- scan_string InText s' ;;
            match skip_ws (snd k) with
            | String ":" r1 =>
                v <- scan_once fuel' (skip_ws r1) ;;
                let acc' := Py.setitem acc (PyStr (fst k)) (fst v) in
                match skip_ws (snd v) with
                | String "," r2 => parse_object fuel' acc' false (skip_ws r2)
                | String "}" r2 => Return (PyDict acc', r2)
                | _ => Raise (decode_error "Expecting ',' delimiter")
                end
            | _ => Raise (decode_error "Expecting ':' delimiter")
            end
          else Raise (decode_error "Expecting property name enclosed in double quotes")
      | EmptyString =>
          Raise (decode_error "Expecting property name enclosed in double quotes")
      end
  end.

Definition loads (s : string) : outcome pyobj :=
  p <- scan_once (2 * String.length s + 2) (skip_ws s) ;;
  match skip_ws (snd p) with
  | EmptyString => Return (fst p)
  | _ => Raise (decode_error "Extra data")
  end.

End Json.

(** ** [MongoQuery] *)

Module MongoQuery.

(** *** [pythonish_to_json_dict] (lines 12-33) *)

(** Lines 22-25: the three substitutions, in the order of the source. *)
Definition normalize_literals (text : string) : string :=
  let fixed := text in
  let fixed := Re.sub_word "false" "False" fixed in
  let fixed := Re.sub_word "true" "True" fixed in
  let fixed := Re.sub_word "null" "None" fixed in
  fixed.

(** The body of the [try] block (lines 29-31). *)
Definition parse_and_revalidate (fixed : string) : outcome pyobj :=
  obj <- Ast.literal_eval fixed ;;
  encoded <- Json.dumps obj ;;
  Json.loads encoded.

(** The exception of line 33. *)
Definition parse_error (e : exn) : exn :=
  Exception ("Error parsing pythonish to json dict: " ++ exn_str e).

Definition pythonish_to_json_dict (text : string) : outcome pyobj :=
  let fixed := normalize_literals text in
  try_except (parse_and_revalidate fixed) (fun e => Raise (parse_error e)).

(** *** The projection of
    [retrieve_mongodb_records_with_desired_fields] (lines 326-353) *)

(** Lines 326-337: a [str] made of digits is kept as it is, any other
    [str] becomes [False] when it reads [false] in any case and [True]
    otherwise; an object without [isdigit] (a [bool]) is kept. *)
Definition convert_return__id (return__id : pyobj) : outcome pyobj :=
  match
    (digits <- PyOps.isdigit return__id ;;
     if digits then Return return__id
     else
       lowered <- PyOps.lower return__id ;;
       if Py.eq lowered (PyStr "false") then Return (PyBool false)
       else Return (PyBool true))
  with
  | Raise (AttributeError _) => Return return__id
  | other => other
  end.

(** Line 343: [fields.replace(' ', '').split(',')]. *)
Definition field_items (fields : string) : list string :=
  Str.split "," (Str.remove_char " " fields).

(** Lines 340-353: the [data] handed to the driver as the projection. *)
Definition projection_data (fields : string) (return__id : pyobj) : outcome pyobj :=
  if negb (Str.is_empty fields) then
    let data : Py.dict := [] in
    let data :=
      fold_left (fun data item => Py.setitem data (PyStr item) (PyBool true))
                (field_items fields) data in
    if Py.truthy return__id then
      Return (PyDict (Py.setitem data (PyStr "_id") (PyBool true)))
    else if negb (Py.truthy return__id) then
      Return (PyDict (Py.setitem data (PyStr "_id") (PyBool false)))
    else
      Raise (Exception ("Not a boolean value for return__id: " ++ PyOps.str return__id))
  else Return (PyList []).

(** The spec's [build_projection]: lines 326-353 together. *)
Definition build_projection (fields : string) (return__id : pyobj) : outcome pyobj :=
  flag <- convert_return__id return__id ;;
  projection_data fields flag.

(** *** [_retrieve_mongodb_records] (lines 359-383) *)

(** Lines 364-366, the spec's [normalize_identifier]:
    [if '_id' in criteria: criteria['_id'] = ObjectId(criteria['_id'])].
    The same two lines stand in [insert_mongodb_record] (154-155). *)
Definition normalize_identifier (criteria : pyobj) : outcome pyobj :=
  present <- PyOps.contains (PyStr "_id") criteria ;;
  if present then
    value <- PyOps.getitem criteria (PyStr "_id") ;;
    oid <- Bson.ObjectId value ;;
    PyOps.setitem criteria (PyStr "_id") (PyObjectId oid)
  else Return criteria.

(** Lines 380-383: [response = '%s%s' % (response, d.items())] for each
    document of the cursor. *)
Definition raw_response (results : list Py.dict) : string :=
  fold_left (fun response d => response ++ Py.items_str d) results EmptyString.

(** Lines 377-383, the spec's [serialize]: the documents themselves when
    [returnDocuments] is true, one undelimited text otherwise. *)
Definition serialize (results : list Py.dict) (returnDocuments : pyobj) : pyobj :=
  if Py.truthy returnDocuments then PyList (map PyDict results)
  else PyStr (raw_response results).

(** The whole method.  [find criteria projection] is the driver's cursor:
    [coll.find(criteria, fields)], or [coll.find(criteria)] when [fields]
    is false. *)
Definition _retrieve_mongodb_records
  (find : pyobj -> option pyobj -> outcome (list Py.dict))
  (recordJSON : string) (fields : pyobj) (returnDocuments : pyobj) : outcome pyobj :=
  criteria <- pythonish_to_json_dict recordJSON ;;
  criteria <- normalize_identifier criteria ;;
  results <- (if Py.truthy fields then find criteria (Some fields)
              else find criteria None) ;;
  Return (serialize results returnDocuments).

Definition retrieve_mongodb_records_with_desired_fields
  (find : pyobj -> option pyobj -> outcome (list Py.dict))
  (recordJSON : string) (fields : string) (return__id : pyobj)
  (returnDocuments : pyobj) : outcome pyobj :=
  data <- build_projection fields return__id ;;
  _retrieve_mongodb_records find recordJSON data returnDocuments.

End MongoQuery.

(** ** The other keywords of [MongoQuery]

    The keywords that prepare a document from text before they call the
    driver.  Each takes the driver's operation as a parameter: the lookup
    of the collection (which fails the keyword when there is no
    connection) followed by the call on it. *)

Module Keywords.

(** [json.loads(o)] for any object [o]: a [str] is decoded; anything that
    is not text is refused with a [TypeError]. *)
Definition json_loads (o : pyobj) : outcome pyobj :=
  match o with
  | PyStr s => Json.loads s
  | PyBytes _ => Unmodelled
  | _ => Raise (TypeError ("the JSON object must be str, bytes or bytearray, not "
                           ++ Py.type_name o))
  end.

(** *** [dict(o)] *)

Definition chars (s : string) : list pyobj :=
  map (fun c => PyStr (String c EmptyString)) (list_ascii_of_string s).

(** One item of the argument of [dict], read as a sequence. *)
Definition item_sequence (item : pyobj) : outcome (list pyobj) :=
  match item with
  | PyList l | PyTuple l | PySet l => Return l
  | PyStr s => Return (chars s)
  | PyDict d => Return (Py.keys d)
  | PyBytes _ => Unmodelled
  | PyNone | PyBool _ | PyInt _ | PyObjectId _ =>
      Raise (TypeError "cannot convert dictionary update sequence element to a sequence")
  end.

(** The items are read in turn: each must be a sequence of two elements,
    a hashable key and a value. *)
Fixpoint dict_update (acc : Py.dict) (items : list pyobj) : outcome Py.dict :=
  match items with
  | [] => Return acc
  | item :: rest =>
      elts <- item_sequence item ;;
      match elts with
      | [k; v] =>
          if Py.hashable k then dict_update (Py.setitem acc k v) rest
          else Raise (Ast.unhashable k)
      | _ => Raise (ValueError
                      "dictionary update sequence element has a length other than 2")
      end
  end.

(** [dict(o)]: a copy of a [dict]; the pairs of any other iterable; a
    [TypeError] for what cannot be iterated. *)
Definition dict_ (o : pyobj) : outcome pyobj :=
  match o with
  | PyDict d => Return (PyDict d)
  | PyList l | PyTuple l | PySet l => d <- dict_update [] l ;; Return (PyDict d)
  | PyStr s => d <- dict_update [] (chars s) ;; Return (PyDict d)
  | PyBytes _ | PyObjectId _ => Unmodelled
  | PyNone | PyBool _ | PyInt _ =>
      Raise (TypeError ("'" ++ Py.type_name o ++ "' object is not iterable"))
  end.

(** *** [insert_mongodb_record] (lines 141-163) and
    [save_mongodb_records] (lines 165-195) *)

(** Lines 153-155, and 185-187: the record handed to the driver. *)
Definition record_of_json (recordJSON : string) : outcome pyobj :=
  decoded <- Json.loads recordJSON ;;
  recordJSON <- dict_ decoded ;;
  MongoQuery.normalize_identifier recordJSON.

Definition insert_mongodb_record (insert_one : pyobj -> outcome pyobj)
  (recordJSON : string) : outcome pyobj :=
  recordJSON <- record_of_json recordJSON ;;
  inserted_id <- insert_one recordJSON ;;
  Return inserted_id.

Definition save_mongodb_records (save : pyobj -> outcome pyobj)
  (recordJSON : string) : outcome pyobj :=
  recordJSON <- record_of_json recordJSON ;;
  allResults <- save recordJSON ;;
  Return allResults.

(** *** [update_many_mongodb_records] (lines 197-223)

    [update_many query update upsert] answers the matched and the modified
    count.  Line 213 reads [queryJSON['_id']], the text, not
    [query_json['_id']]. *)
Definition update_many_mongodb_records
  (update_many : pyobj -> pyobj -> pyobj -> outcome (Z * Z))
  (queryJSON updateJSON : string) (upsert : pyobj) : outcome pyobj :=
  query_json <- Json.loads queryJSON ;;
  update_json <- Json.loads updateJSON ;;
  present <- PyOps.contains (PyStr "_id") query_json ;;
  query_json <-
    (if present then
       value <- PyOps.getitem (PyStr queryJSON) (PyStr "_id") ;;
       oid <- Bson.ObjectId value ;;
       PyOps.setitem query_json (PyStr "_id") (PyObjectId oid)
     else Return query_json) ;;
  allResults <- update_many query_json update_json upsert ;;
  Return (PyInt (snd allResults)).

(** *** [retrieve_all_mongodb_records] (lines 225-236) and
    [retrieve_some_mongodb_records] (lines 238-251) *)

Definition retrieve_all_mongodb_records
  (find : pyobj -> option pyobj -> outcome (list Py.dict))
  (returnDocuments : pyobj) : outcome pyobj :=
  MongoQuery._retrieve_mongodb_records find "{}" (PyList []) returnDocuments.

Definition retrieve_some_mongodb_records
  (find : pyobj -> option pyobj -> outcome (list Py.dict))
  (recordJSON : string) (returnDocuments : pyobj) : outcome pyobj :=
  MongoQuery._retrieve_mongodb_records find recordJSON (PyList []) returnDocuments.

(** *** [retrieve_and_update_one_mongodb_record] (lines 253-285) *)

(** [pymongo.ReturnDocument] *)
Inductive ReturnDocument : Type := BEFORE | AFTER.

(** Line 270: [BEFORE if returnBeforeDocument is True else AFTER]. *)
Definition document_to_return (returnBeforeDocument : pyobj) : ReturnDocument :=
  match returnBeforeDocument with
  | PyBool true => BEFORE
  | _ => AFTER
  end.

Definition retrieve_and_update_one_mongodb_record
  (find_one_and_update : pyobj -> pyobj -> ReturnDocument -> outcome pyobj)
  (queryJSON updateJSON : string) (returnBeforeDocument : pyobj) : outcome pyobj :=
  decoded <- Json.loads queryJSON ;;
  record_json <- dict_ decoded ;;
  decoded <- Json.loads updateJSON ;;
  update_json <- dict_ decoded ;;
  let document := document_to_return returnBeforeDocument in
  record_json <- MongoQuery.normalize_identifier record_json ;;
  find_one_and_update record_json update_json document.

(** *** [remove_mongodb_records] (lines 385-416) *)

Definition remove_mongodb_records (delete_many : pyobj -> outcome pyobj)
  (recordJSON : string) : outcome pyobj :=
  recordJSON <- Json.loads recordJSON ;;
  recordJSON <- MongoQuery.normalize_identifier recordJSON ;;
  delete_many recordJSON.

(** *** [aggregate_mongodb_records] (lines 418-437) *)

Definition aggregate_mongodb_records (aggregate : pyobj -> outcome (list pyobj))
  (aggregate_cond : pyobj) : outcome pyobj :=
  let agg_cond := if Py.truthy aggregate_cond then aggregate_cond else PyList [] in
  agg_cond <- json_loads agg_cond ;;
  results <- aggregate agg_cond ;;
  Return (PyList results).

(** *** [get_mongodb_collection_count_with_condition] (lines 439-457) *)

Definition get_mongodb_collection_count_with_condition
  (count_documents : pyobj -> outcome Z) (conditionJSON : pyobj) : outcome pyobj :=
  decoded <- json_loads conditionJSON ;;
  criteria <- dict_ decoded ;;
  count <- count_documents criteria ;;
  Return (PyInt count).

End Keywords.

(** ** The spec's wording, for comparison with the code *)

Module Spec.

(** Spec 4.3: the field list is split at commas and the whitespace
    surrounding each path is stripped. *)
Definition field_paths (fields : string) : list string :=
  map Str.strip (Str.split "," fields).

(** Spec 4.3 and 8: every listed path set to include=true, in the order
    listed, and the identifier entry added after them. *)
Definition projection (paths : list string) (include_identifier : bool) : Py.dict :=
  (map (fun p => (PyStr p, PyBool true)) paths
   ++ [(PyStr "_id", PyBool include_identifier)])%list.

(** Spec 3: the result modes; [returnDocuments] is the flag that selects
    the structured one. *)
Definition Raw : pyobj := PyBool false.
Definition Structured : pyobj := PyBool true.

End Spec.

(** ** Notions used in the statements *)

(** The include value a [return__id] argument resolves to: the truth value
    of what lines 326-337 leave in [return__id]. *)
Definition resolved_flag (return__id : pyobj) : bool :=
  match MongoQuery.convert_return__id return__id with
  | Return r => Py.truthy r
  | _ => false
  end.

(** A list of keys without its repetitions, each key at the place of its
    first occurrence: the key order of a [dict] filled in that order. *)
Definition first_occurrences (l : list string) : list string :=
  fold_left (fun acc k => if existsb (String.eqb k) acc then acc else (acc ++ [k])%list)
            l [].

(** A dict whose keys are all [str]. *)
Definition str_keyed (d : list (string * pyobj)) : Py.dict :=
  map (fun kv => (PyStr (fst kv), snd kv)) d.

(** Assignment to a key of a [str]-keyed dict. *)
Fixpoint assign (d : list (string * pyobj)) (k : string) (v : pyobj)
  : list (string * pyobj) :=
  match d with
  | [] => [(k, v)]
  | (k', v') :: d' =>
      if String.eqb k' k then (k', v) :: d' else (k', v') :: assign d' k v
  end.

(** The last character of [s] is a word character. *)
Fixpoint ends_with_word_char (s : string) : bool :=
  match s with
  | EmptyString => false
  | String c EmptyString => Str.is_word c
  | String _ s' => ends_with_word_char s'
  end.

(** The first [n] characters of [s] are there and are word characters. *)
Fixpoint word_run (n : nat) (s : string) : bool :=
  match n, s with
  | O, _ => true
  | S n', String c s' => Str.is_word c && word_run n' s'
  | S _, EmptyString => false
  end.

(** Whether the text after a match of [word] at the start of [s] starts
    with a non-word character (or is empty). *)
Definition boundary_after (word s : string) : bool :=
  match Re.match_literal word s with
  | Some rest => negb (Re.starts_with_word_char rest)
  | None => false
  end.

(** The reserved tokens with their Python spelling (lines 23-25). *)
Definition reserved : list (string * string) :=
  [("false", "False"); ("true", "True"); ("null", "None")].

(** A [str] or a [bytes] object: what [json.loads] takes. *)
Definition is_text (o : pyobj) : bool :=
  match o with
  | PyStr _ | PyBytes _ => true
  | _ => false
  end.

(** A number, a boolean or [None]: what can be neither searched with [in]
    nor iterated. *)
Definition is_scalar (o : pyobj) : bool :=
  match o with
  | PyNone | PyBool _ | PyInt _ => true
  | _ => false
  end.

(** A JSON-safe value: [None], a [bool], an [int], an ASCII [str], a list
    of such values, or a dict from distinct ASCII [str] keys to such
    values. *)
Fixpoint json_safe (o : pyobj) : bool :=
  match o with
  | PyNone | PyBool _ | PyInt _ => true
  | PyStr s => Str.all_chars Str.is_ascii s
  | PyList l =>
      (fix all (l : list pyobj) : bool :=
         match l with
         | [] => true
         | x :: r => json_safe x && all r
         end) l
  | PyDict d =>
      (fix all (d : list (pyobj * pyobj)) : bool :=
         match d with
         | [] => true
         | (k, v) :: r =>
             match k with
             | PyStr s => Str.all_chars Str.is_ascii s
             | _ => false
             end
             && negb (Py.contains r k) && json_safe v && all r
         end) d
  | _ => false
  end.

(** The document a keyword hands to the driver for a decoded object [d]:
    [d] itself, or [d] with its "_id" replaced, in place, by the identifier
    built from it. *)
Definition with_identifier (d : Py.dict) : outcome pyobj :=
  match Py.get d (PyStr "_id") with
  | None => Return (PyDict d)
  | Some v =>
      oid <- Bson.ObjectId v ;;
      Return (PyDict (Py.setitem d (PyStr "_id") (PyObjectId oid)))
  end.

(** *** Notions for the JSON round trip *)

(** What may follow a value in an encoded text: nothing, a comma or a
    closing bracket. *)
Definition ends_value (rest : string) : bool :=
  match rest with
  | EmptyString => true
  | String c _ => Ascii.eqb c "," || Ascii.eqb c "]" || Ascii.eqb c "}"
  end.

(** How an encoded value starts: with a character that is neither
    whitespace nor the closing bracket of an array. *)
Definition starts_value (t : string) : bool :=
  match t with
  | EmptyString => false
  | String c _ => negb (Json.is_ws c) && negb (Ascii.eqb c "]")
  end.

(** A bound on the recursion of the decoder on the encoding of a value. *)
Fixpoint json_size (o : pyobj) : nat :=
  match o with
  | PyList l =>
      2 + (fix sum (l : list pyobj) : nat :=
             match l with
             | [] => 0
             | x :: r => S (json_size x + sum r)
             end) l
  | PyDict d =>
      2 + (fix sum (d : list (pyobj * pyobj)) : nat :=
             match d with
             | [] => 0
             | (_, v) :: r => S (json_size v + sum r)
             end) d
  | _ => 1
  end.

Definition sizes (l : list pyobj) : nat :=
  fold_right (fun x n => S (json_size x + n)) 0 l.

(** The inner loops of [Json.dumps]: the encoded elements of a list, the
    encoded entries of a dict. *)
Fixpoint dumps_all (l : list pyobj) : outcome (list string) :=
  match l with
  | [] => Return []
  | x :: r => t <- Json.dumps x ;; ts <- dumps_all r ;; Return (t :: ts)
  end.

Fixpoint dumps_entries (d : Py.dict) : outcome (list string) :=
  match d with
  | [] => Return []
  | (k, v) :: r =>
      kt <- Json.encode_key k ;;
      vt <- Json.dumps v ;;
      ts <- dumps_entries r ;;
      Return ((kt ++ ": " ++ vt) :: ts)
  end.

(** [v] has an encoding, and the decoder reads [v] back from it wherever
    the encoding stands in a text, given fuel for the size of [v]. *)
Definition decodes_back (v : pyobj) : Prop :=
  exists t,
    Json.dumps v = Return t
    /\ starts_value t = true
    /\ json_size v <= 2 * String.length t
    /\ forall fuel rest,
         json_size v <= fuel -> ends_value rest = true ->
         Json.scan_once fuel (t ++ rest) = Return (v, rest).

(** An entry of a JSON object: an ASCII [str] key and a value that decodes
    back. *)
Definition json_entry (kv : pyobj * pyobj) : Prop :=
  (exists k, fst kv = PyStr k /\ Str.all_chars Str.is_ascii k = true)
  /\ decodes_back (snd kv).

(** The entries of [d] assigned in turn to [acc], as the decoder does. *)
Definition assign_all (d acc : Py.dict) : Py.dict :=
  fold_left (fun a kv => Py.setitem a (fst kv) (snd kv)) d acc.

(** Which stage of [pythonish_to_json_dict] fails on [text], and how. *)
Inductive stage_fails (text : string) (e : exn) : Prop :=
| literal_fails :
    Ast.literal_eval (MongoQuery.normalize_literals text) = Raise e ->
    stage_fails text e
| encoding_fails (obj : pyobj) :
    Ast.literal_eval (MongoQuery.normalize_literals text) = Return obj ->
    Json.dumps obj = Raise e ->
    stage_fails text e
| decoding_fails (obj : pyobj) (encoded : string) :
    Ast.literal_eval (MongoQuery.normalize_literals text) = Return obj ->
    Json.dumps obj = Return encoded ->
    Json.loads encoded = Raise e ->
    stage_fails text e.

(** * Properties *)

(** ** Equality with a [str], dictionaries keyed by [str] *)

Lemma eq_str_left (s : string) (o : pyobj) :
  Py.eq (PyStr s) o = true -> o = PyStr s.
Proof.
  destruct o; simpl; try discriminate.
  intros H. apply String.eqb_eq in H. now subst.
Qed.

Lemma eq_str_right (o : pyobj) (s : string) :
  Py.eq o (PyStr s) = true -> o = PyStr s.
Proof.
  destruct o; simpl; try discriminate.
  intros H. apply String.eqb_eq in H. now subst.
Qed.

Lemma get_setitem_same (d : Py.dict) (s : string) (v : pyobj) :
  Py.get (Py.setitem d (PyStr s) v) (PyStr s) = Some v.
Proof.
  induction d as [| [k' v'] d IH]; simpl.
  - now rewrite String.eqb_refl.
  - destruct (Py.eq k' (PyStr s)) eqn:E; simpl; rewrite E; [reflexivity | exact IH].
Qed.

Lemma get_setitem_other (d : Py.dict) (s : string) (v k : pyobj) :
  k <> PyStr s -> Py.get (Py.setitem d (PyStr s) v) k = Py.get d k.
Proof.
  intros Hk. induction d as [| [k' v'] d IH]; cbn [Py.setitem Py.get].
  - destruct (Py.eq (PyStr s) k) eqn:E; [| reflexivity].
    apply eq_str_left in E. now elim Hk.
  - destruct (Py.eq k' (PyStr s)) eqn:E; cbn [Py.get].
    + apply eq_str_right in E. subst k'.
      destruct (Py.eq (PyStr s) k) eqn:E'; [| reflexivity].
      apply eq_str_left in E'. now elim Hk.
    + now rewrite IH.
Qed.

Lemma keys_setitem_present (d : Py.dict) (k v : pyobj) :
  Py.contains d k = true -> Py.keys (Py.setitem d k v) = Py.keys d.
Proof.
  unfold Py.contains, Py.keys.
  induction d as [| [k' v'] d IH]; simpl; [discriminate |].
  destruct (Py.eq k' k); simpl; [reflexivity |].
  intros H. now rewrite IH.
Qed.

(** ** The flag conversion *)

Lemma digit_is_not_f (c : ascii) :
  Str.is_digit c = true -> Ascii.eqb (Str.lower_char c) "f" = false.
Proof.
  destruct c as [[] [] [] [] [] [] [] []]; vm_compute; congruence.
Qed.

Lemma digits_do_not_read_false (s : string) :
  Str.isdigit s = true -> String.eqb (Str.lower s) "false" = false.
Proof.
  destruct s as [| c s]; [discriminate |].
  unfold Str.isdigit. simpl. intros H.
  apply andb_prop in H. destruct H as [H _].
  now rewrite (digit_is_not_f c H).
Qed.

Lemma convert_return__id_str (s : string) :
  MongoQuery.convert_return__id (PyStr s)
  = Return (if Str.isdigit s then PyStr s
            else PyBool (negb (String.eqb (Str.lower s) "false"))).
Proof.
  unfold MongoQuery.convert_return__id. simpl.
  destruct (Str.isdigit s); simpl; [reflexivity |].
  now destruct (String.eqb (Str.lower s) "false").
Qed.

Lemma convert_return__id_returns (o : pyobj) :
  exists r, MongoQuery.convert_return__id o = Return r.
Proof.
  destruct o; try (eexists; reflexivity).
  - eexists. apply convert_return__id_str.
  - unfold MongoQuery.convert_return__id. simpl.
    destruct (Str.isdigit s); simpl; eexists; reflexivity.
Qed.

Lemma resolved_flag_str (s : string) :
  resolved_flag (PyStr s) = negb (String.eqb (Str.lower s) "false").
Proof.
  unfold resolved_flag. rewrite convert_return__id_str.
  destruct (Str.isdigit s) eqn:D.
  - rewrite (digits_do_not_read_false s D). simpl.
    destruct s; [discriminate | reflexivity].
  - reflexivity.
Qed.

(** The listed paths, as the loop of line 343 leaves them in [data]. *)
Lemma projection_data_nonempty (fields : string) (r : pyobj) :
  fields <> EmptyString ->
  MongoQuery.projection_data fields r
  = Return (PyDict (Py.setitem
                      (fold_left (fun data item => Py.setitem data (PyStr item) (PyBool true))
                                 (MongoQuery.field_items fields) [])
                      (PyStr "_id") (PyBool (Py.truthy r)))).
Proof.
  intros H. unfold MongoQuery.projection_data.
  destruct fields; [now elim H |]. simpl Str.is_empty. simpl negb. cbv iota.
  destruct (Py.truthy r); reflexivity.
Qed.

Lemma build_projection_nonempty (fields : string) (flag : pyobj) :
  fields <> EmptyString ->
  MongoQuery.build_projection fields flag
  = Return (PyDict (Py.setitem
                      (fold_left (fun data item => Py.setitem data (PyStr item) (PyBool true))
                                 (MongoQuery.field_items fields) [])
                      (PyStr "_id") (PyBool (resolved_flag flag)))).
Proof.
  intros H. unfold MongoQuery.build_projection, resolved_flag.
  destruct (convert_return__id_returns flag) as [r Hr]. rewrite Hr. simpl.
  now apply projection_data_nonempty.
Qed.

(** C3. The identifier-inclusion flag: a boolean is used as it is; a string
    of decimal digits, "0" included, resolves to include=true; the string
    "false" in any letter case resolves to include=false; any other string
    resolves to include=true; the resolved value is the "_id" entry of the
    projection, so build_projection("firstName", "false") is
    firstName->true, _id->false. *)
Theorem C3_flag_coercion :
  (forall b : bool,
      MongoQuery.convert_return__id (PyBool b) = Return (PyBool b)
      /\ resolved_flag (PyBool b) = b)
  /\ (forall s, Str.isdigit s = true -> resolved_flag (PyStr s) = true)
  /\ resolved_flag (PyStr "0") = true
  /\ (forall s, Str.lower s = "false" -> resolved_flag (PyStr s) = false)
  /\ (forall s, Str.isdigit s = false -> Str.lower s <> "false" ->
                resolved_flag (PyStr s) = true)
  /\ (forall fields flag, fields <> EmptyString ->
        exists data,
          MongoQuery.build_projection fields flag = Return (PyDict data)
          /\ Py.get data (PyStr "_id") = Some (PyBool (resolved_flag flag)))
  /\ MongoQuery.build_projection "firstName" (PyStr "false")
     = Return (PyDict [(PyStr "firstName", PyBool true); (PyStr "_id", PyBool false)]).
Proof.
  split; [intros b; split; now destruct b |].
  split.
  { intros s D. rewrite resolved_flag_str.
    now rewrite (digits_do_not_read_false s D). }
  split; [reflexivity |].
  split.
  { intros s L. rewrite resolved_flag_str, L. reflexivity. }
  split.
  { intros s _ L. rewrite resolved_flag_str.
    destruct (String.eqb_spec (Str.lower s) "false"); [contradiction | reflexivity]. }
  split; [| reflexivity].
  intros fields flag H. eexists. split.
  - now apply build_projection_nonempty.
  - apply get_setitem_same.
Qed.

Lemma C3_flag_coercion_witness :
  resolved_flag (PyStr "2024") = true
  /\ resolved_flag (PyStr "FaLsE") = false
  /\ resolved_flag (PyStr "no") = true
  /\ exists data,
       MongoQuery.build_projection "firstName" (PyStr "False") = Return (PyDict data)
       /\ Py.get data (PyStr "_id") = Some (PyBool (resolved_flag (PyStr "False"))).
Proof.
  destruct C3_flag_coercion as (_ & Hdigit & _ & Hfalse & Hother & Hbuild & _).
  split; [apply (Hdigit "2024"); reflexivity |].
  split; [apply (Hfalse "FaLsE"); reflexivity |].
  split; [apply (Hother "no"); [reflexivity | discriminate] |].
  apply (Hbuild "firstName" (PyStr "False")). discriminate.
Defined.

(** C10. Whatever the flag, a boolean or a string, the conversion leaves a
    value that is true or false, so the third branch of lines 346-351 (the
    "Not a boolean value for return__id" exception) is never taken: a
    projection built from a non-empty field list is returned, not raised. *)
Theorem C10_projection_never_raises (fields : string) (flag : pyobj) :
  (exists b, flag = PyBool b) \/ (exists s, flag = PyStr s) ->
  fields <> EmptyString ->
  (exists r, MongoQuery.convert_return__id flag = Return r
             /\ (Py.truthy r = true \/ negb (Py.truthy r) = true))
  /\ (forall r e, MongoQuery.projection_data fields r <> Raise e)
  /\ (exists data, MongoQuery.build_projection fields flag = Return (PyDict data))
  /\ (forall e, MongoQuery.build_projection fields flag <> Raise e).
Proof.
  intros _ H.
  split.
  { destruct (convert_return__id_returns flag) as [r Hr].
    exists r. split; [exact Hr |].
    destruct (Py.truthy r); [now left | now right]. }
  split.
  { intros r e. rewrite (projection_data_nonempty fields r H). discriminate. }
  rewrite (build_projection_nonempty fields flag H).
  split; [eexists; reflexivity | discriminate].
Qed.

Lemma C10_projection_never_raises_witness :
  (exists r, MongoQuery.convert_return__id (PyStr "maybe") = Return r
             /\ (Py.truthy r = true \/ negb (Py.truthy r) = true))
  /\ (forall r e, MongoQuery.projection_data "a,b" r <> Raise e)
  /\ (exists data,
        MongoQuery.build_projection "a,b" (PyStr "maybe") = Return (PyDict data))
  /\ (forall e, MongoQuery.build_projection "a,b" (PyStr "maybe") <> Raise e).
Proof.
  apply (C10_projection_never_raises "a,b" (PyStr "maybe")).
  - right. now exists "maybe".
  - discriminate.
Defined.

(** ** The listed paths in the projection *)

Lemma setitem_str_keyed (d : list (string * pyobj)) (k : string) (v : pyobj) :
  Py.setitem (str_keyed d) (PyStr k) v = str_keyed (assign d k v).
Proof.
  induction d as [| [k' v'] d IH]; simpl; [reflexivity |].
  destruct (String.eqb k' k); simpl; [reflexivity | now rewrite IH].
Qed.

Lemma fold_setitem_str_keyed (items : list string) (d : list (string * pyobj)) :
  fold_left (fun data item => Py.setitem data (PyStr item) (PyBool true))
            items (str_keyed d)
  = str_keyed (fold_left (fun data item => assign data item (PyBool true)) items d).
Proof.
  revert d. induction items as [| i items IH]; intros d; simpl; [reflexivity |].
  now rewrite setitem_str_keyed, IH.
Qed.

Lemma keys_str_keyed (d : list (string * pyobj)) :
  Py.keys (str_keyed d) = map PyStr (map fst d).
Proof.
  unfold Py.keys, str_keyed. rewrite !map_map. reflexivity.
Qed.

Lemma keys_assign (d : list (string * pyobj)) (k : string) (v : pyobj) :
  map fst (assign d k v)
  = if existsb (String.eqb k) (map fst d) then map fst d else (map fst d ++ [k])%list.
Proof.
  induction d as [| [k' v'] d IH]; simpl; [reflexivity |].
  rewrite (String.eqb_sym k k').
  destruct (String.eqb k' k); simpl; [reflexivity |].
  rewrite IH. now destruct (existsb (String.eqb k) (map fst d)).
Qed.

Lemma keys_fold_assign (items : list string) (d : list (string * pyobj)) :
  map fst (fold_left (fun data item => assign data item (PyBool true)) items d)
  = fold_left (fun acc k => if existsb (String.eqb k) acc then acc else (acc ++ [k])%list)
              items (map fst d).
Proof.
  revert d. induction items as [| i items IH]; intros d; simpl; [reflexivity |].
  now rewrite IH, keys_assign.
Qed.

Lemma assign_new (d : list (string * pyobj)) (k : string) (v : pyobj) :
  ~ In k (map fst d) -> assign d k v = (d ++ [(k, v)])%list.
Proof.
  induction d as [| [k' v'] d IH]; simpl; intros H; [reflexivity |].
  destruct (String.eqb_spec k' k); [elim H; now left |].
  rewrite IH; [reflexivity | tauto].
Qed.

Lemma fold_assign_new (items : list string) (d : list (string * pyobj)) :
  NoDup items -> (forall k, In k items -> ~ In k (map fst d)) ->
  fold_left (fun data item => assign data item (PyBool true)) items d
  = (d ++ map (fun p => (p, PyBool true)) items)%list.
Proof.
  revert d. induction items as [| i items IH]; intros d Hnd Hnew; simpl.
  - now rewrite app_nil_r.
  - inversion Hnd as [| ? ? Hi Hnd']; subst.
    rewrite assign_new by (apply Hnew; now left).
    rewrite IH; [now rewrite <- app_assoc | exact Hnd' |].
    intros k Hk. rewrite map_app, in_app_iff. simpl.
    intros [Hin | [Heq | []]].
    + apply (Hnew k); [now right | exact Hin].
    + subst. contradiction.
Qed.

Lemma get_fold_setitem_other (items : list string) (d : Py.dict) (k : pyobj) :
  (forall i, In i items -> k <> PyStr i) ->
  Py.get (fold_left (fun data item => Py.setitem data (PyStr item) (PyBool true)) items d) k
  = Py.get d k.
Proof.
  revert d. induction items as [| i items IH]; intros d H; simpl; [reflexivity |].
  rewrite IH by (intros j Hj; apply H; now right).
  apply get_setitem_other. apply H. now left.
Qed.

Lemma get_fold_setitem_listed (items : list string) (d : Py.dict) (p : string) :
  In p items ->
  Py.get (fold_left (fun data item => Py.setitem data (PyStr item) (PyBool true)) items d)
         (PyStr p)
  = Some (PyBool true).
Proof.
  revert d. induction items as [| i items IH]; intros d H; simpl; [contradiction |].
  destruct (in_dec string_dec p items) as [Hin | Hout].
  - now apply IH.
  - destruct H as [-> | H]; [| contradiction].
    rewrite get_fold_setitem_other; [apply get_setitem_same |].
    intros j Hj E. injection E as ->. contradiction.
Qed.

Lemma projection_keys (items : list string) (v : pyobj) :
  Py.keys (Py.setitem
             (fold_left (fun data item => Py.setitem data (PyStr item) (PyBool true))
                        items [])
             (PyStr "_id") v)
  = map PyStr (first_occurrences (items ++ ["_id"])).
Proof.
  change (@nil (pyobj * pyobj)) with (str_keyed []).
  rewrite fold_setitem_str_keyed, setitem_str_keyed.
  rewrite keys_str_keyed, keys_assign, keys_fold_assign.
  unfold first_occurrences. rewrite fold_left_app. reflexivity.
Qed.

(** C4, as the claim states it, fails when "_id" is itself a listed path:
    the entry stands at its listed place and carries the flag, so for the
    field list "_id,a" and the flag false the builder returns
    _id->false, a->true, not the listed paths set to true with the "_id"
    entry after them. *)
Lemma C4_counterexample :
  MongoQuery.field_items "_id,a" = ["_id"; "a"]
  /\ MongoQuery.build_projection "_id,a" (PyBool false)
     = Return (PyDict [(PyStr "_id", PyBool false); (PyStr "a", PyBool true)])
  /\ Spec.projection ["_id"; "a"] false
     = [(PyStr "_id", PyBool true); (PyStr "a", PyBool true); (PyStr "_id", PyBool false)]
  /\ MongoQuery.build_projection "_id,a" (PyBool false)
     <> Return (PyDict (Spec.projection (MongoQuery.field_items "_id,a") false)).
Proof.
  repeat split; try reflexivity. vm_compute. discriminate.
Qed.

(** C4, amended. For every non-empty field list the builder returns a dict
    whose keys are the listed paths and "_id", each once, in the order of
    their first occurrence; every listed path other than "_id" is set to
    true; the "_id" entry carries the resolved flag. When the listed paths
    are distinct and do not include "_id", this is the listed paths set to
    true in the order listed with the "_id" entry after them, as for
    build_projection("address.city, firstName", true). For the empty field
    list the result is the empty projection, whatever the flag. *)
Theorem C4_projection_entries :
  (forall fields flag, fields <> EmptyString ->
     exists data,
       MongoQuery.build_projection fields flag = Return (PyDict data)
       /\ Py.keys data
          = map PyStr (first_occurrences (MongoQuery.field_items fields ++ ["_id"]))
       /\ Py.get data (PyStr "_id") = Some (PyBool (resolved_flag flag))
       /\ (forall p, In p (MongoQuery.field_items fields) -> p <> "_id" ->
                     Py.get data (PyStr p) = Some (PyBool true))
       /\ (NoDup (MongoQuery.field_items fields) ->
           ~ In "_id" (MongoQuery.field_items fields) ->
           data = Spec.projection (MongoQuery.field_items fields) (resolved_flag flag)))
  /\ MongoQuery.build_projection "address.city, firstName" (PyBool true)
     = Return (PyDict [(PyStr "address.city", PyBool true);
                       (PyStr "firstName", PyBool true);
                       (PyStr "_id", PyBool true)])
  /\ (forall flag, MongoQuery.build_projection EmptyString flag = Return (PyList [])).
Proof.
  split; [| split; [reflexivity |]].
  - intros fields flag H.
    eexists. split; [now apply build_projection_nonempty |].
    split; [apply projection_keys |].
    change (@nil (pyobj * pyobj)) with (str_keyed []).
    rewrite fold_setitem_str_keyed, setitem_str_keyed.
    split; [| split].
    + rewrite <- setitem_str_keyed. apply get_setitem_same.
    + intros p Hp Hne.
      rewrite <- setitem_str_keyed, <- fold_setitem_str_keyed.
      rewrite get_setitem_other by (intros E; injection E as ->; now elim Hne).
      now apply get_fold_setitem_listed.
    + intros Hnd Hid.
      rewrite fold_assign_new by (auto; intros k _ []).
      rewrite assign_new.
      * unfold Spec.projection, str_keyed. simpl app.
        rewrite map_app, map_map. reflexivity.
      * simpl app. rewrite map_map. simpl. now rewrite map_id.
  - intros flag. unfold MongoQuery.build_projection.
    destruct (convert_return__id_returns flag) as [r ->]. reflexivity.
Qed.

Lemma C4_projection_entries_witness :
  exists data,
    MongoQuery.build_projection "b, a ,b" (PyStr "0") = Return (PyDict data)
    /\ Py.keys data = [PyStr "b"; PyStr "a"; PyStr "_id"]
    /\ Py.get data (PyStr "_id") = Some (PyBool true)
    /\ Py.get data (PyStr "a") = Some (PyBool true).
Proof.
  destruct C4_projection_entries as (H & _ & _).
  destruct (H "b, a ,b" (PyStr "0")) as (data & Hb & Hk & Hid & Hp & _);
    [discriminate |].
  exists data. split; [exact Hb |]. split; [exact Hk |]. split; [exact Hid |].
  apply (Hp "a"); [right; now left | discriminate].
Defined.

(** ** Splitting and joining *)

Lemma split_not_nil (sep : ascii) (s : string) : Str.split sep s <> [].
Proof.
  destruct s as [| c s]; simpl; [discriminate |].
  destruct (Ascii.eqb c sep); [discriminate |].
  destruct (Str.split sep s); discriminate.
Qed.

Lemma join_cons (sep p : string) (ps : list string) :
  ps <> [] -> Str.join sep (p :: ps) = p ++ sep ++ Str.join sep ps.
Proof.
  destruct ps; [intros H; now elim H | reflexivity].
Qed.

Lemma join_split (sep : ascii) (s : string) :
  Str.join (String sep EmptyString) (Str.split sep s) = s.
Proof.
  induction s as [| c s IH]; [reflexivity |].
  cbn [Str.split].
  destruct (Ascii.eqb_spec c sep) as [-> | Hc].
  - rewrite join_cons by apply split_not_nil. simpl. now rewrite IH.
  - destruct (Str.split sep s) as [| w ws] eqn:E; [now elim (split_not_nil sep s) |].
    destruct ws as [| w' ws].
    + simpl in *. now rewrite IH.
    + rewrite join_cons by discriminate.
      rewrite join_cons in IH by discriminate.
      simpl. simpl in IH. now rewrite IH.
Qed.

Lemma split_without_sep (sep : ascii) (p : string) :
  Str.has_char sep p = false -> Str.split sep p = [p].
Proof.
  induction p as [| c p IH]; simpl; [reflexivity |].
  intros H. apply orb_false_elim in H. destruct H as [Hc Hp].
  rewrite Hc, IH by exact Hp. reflexivity.
Qed.

Lemma split_app_sep (sep : ascii) (p rest : string) :
  Str.has_char sep p = false ->
  Str.split sep (p ++ String sep rest) = p :: Str.split sep rest.
Proof.
  induction p as [| c p IH]; simpl.
  - now rewrite Ascii.eqb_refl.
  - intros H. apply orb_false_elim in H. destruct H as [Hc Hp].
    rewrite Hc, IH by exact Hp. reflexivity.
Qed.

Lemma split_join (sep : ascii) (ps : list string) :
  ps <> [] -> (forall p, In p ps -> Str.has_char sep p = false) ->
  Str.split sep (Str.join (String sep EmptyString) ps) = ps.
Proof.
  induction ps as [| p ps IH]; intros Hne H; [now elim Hne |].
  destruct ps as [| q ps].
  - simpl. apply split_without_sep. apply H. now left.
  - rewrite join_cons by discriminate.
    change (String sep EmptyString ++ Str.join (String sep EmptyString) (q :: ps))
      with (String sep (Str.join (String sep EmptyString) (q :: ps))).
    rewrite split_app_sep by (apply H; now left).
    rewrite IH; [reflexivity | discriminate |].
    intros r Hr. apply H. now right.
Qed.

Lemma split_items_chars (P : ascii -> bool) (sep : ascii) (s p : string) :
  Str.all_chars P s = true -> In p (Str.split sep s) -> Str.all_chars P p = true.
Proof.
  revert p. induction s as [| c s IH]; intros p Hs Hp.
  - destruct Hp as [<- | []]. reflexivity.
  - simpl in Hs. apply andb_prop in Hs. destruct Hs as [Hc Hs].
    cbn [Str.split] in Hp.
    destruct (Ascii.eqb c sep).
    + destruct Hp as [<- | Hp]; [reflexivity | now apply IH].
    + destruct (Str.split sep s) as [| w ws]; simpl in Hp.
      * destruct Hp as [<- | []]. simpl. now rewrite Hc.
      * destruct Hp as [<- | Hp].
        -- simpl. rewrite Hc. apply IH; [exact Hs | now left].
        -- apply IH; [exact Hs | now right].
Qed.

Lemma split_items_without_sep (sep : ascii) (s p : string) :
  In p (Str.split sep s) -> Str.has_char sep p = false.
Proof.
  revert p. induction s as [| c s IH]; intros p Hp.
  - destruct Hp as [<- | []]. reflexivity.
  - cbn [Str.split] in Hp.
    destruct (Ascii.eqb c sep) eqn:Hc.
    + destruct Hp as [<- | Hp]; [reflexivity | now apply IH].
    + destruct (Str.split sep s) as [| w ws]; simpl in Hp.
      * destruct Hp as [<- | []]. simpl. now rewrite Hc.
      * destruct Hp as [<- | Hp].
        -- simpl. rewrite Hc. apply IH. now left.
        -- apply IH. now right.
Qed.

Lemma has_char_all_chars (c : ascii) (s : string) :
  Str.has_char c s = negb (Str.all_chars (fun x => negb (Ascii.eqb x c)) s).
Proof.
  induction s as [| x s IH]; simpl; [reflexivity |].
  rewrite IH. now destruct (Ascii.eqb x c).
Qed.

Lemma remove_char_removes (old : ascii) (s : string) :
  Str.has_char old (Str.remove_char old s) = false.
Proof.
  induction s as [| c s IH]; simpl; [reflexivity |].
  destruct (Ascii.eqb c old) eqn:E; [exact IH |].
  simpl. now rewrite E.
Qed.

Lemma remove_char_keeps (old : ascii) (s : string) :
  Str.has_char old s = false -> Str.remove_char old s = s.
Proof.
  induction s as [| c s IH]; simpl; [reflexivity |].
  intros H. apply orb_false_elim in H. destruct H as [Hc Hs].
  now rewrite Hc, IH.
Qed.

Lemma remove_char_other (old c : ascii) (s : string) :
  Ascii.eqb old c = false ->
  Str.has_char c (Str.remove_char old s) = Str.has_char c s.
Proof.
  intros Hoc. induction s as [| x s IH]; simpl; [reflexivity |].
  destruct (Ascii.eqb_spec x old) as [-> | Hx].
  - now rewrite Hoc, IH.
  - simpl. now rewrite IH.
Qed.

Lemma remove_char_app (old : ascii) (a b : string) :
  Str.remove_char old (a ++ b) = Str.remove_char old a ++ Str.remove_char old b.
Proof.
  induction a as [| c a IH]; simpl; [reflexivity |].
  destruct (Ascii.eqb c old); simpl; now rewrite IH.
Qed.

Lemma remove_char_join (old sep : ascii) (ps : list string) :
  Ascii.eqb sep old = false ->
  Str.remove_char old (Str.join (String sep EmptyString) ps)
  = Str.join (String sep EmptyString) (map (Str.remove_char old) ps).
Proof.
  intros Hs. induction ps as [| p ps IH]; [reflexivity |].
  destruct ps as [| q ps]; [reflexivity |].
  rewrite join_cons by discriminate.
  cbn [map].
  rewrite (join_cons _ (Str.remove_char old p)
                     (Str.remove_char old q :: map (Str.remove_char old) ps))
    by discriminate.
  rewrite !remove_char_app. cbn [map] in IH. rewrite IH.
  simpl. now rewrite Hs.
Qed.

Lemma in_first_occurrences (l : list string) (k : string) :
  In k (first_occurrences l) <-> In k l.
Proof.
  unfold first_occurrences.
  assert (G : forall acc,
             In k (fold_left (fun acc k => if existsb (String.eqb k) acc then acc
                                           else (acc ++ [k])%list) l acc)
             <-> In k acc \/ In k l).
  { induction l as [| i l IH]; intros acc; simpl; [tauto |].
    rewrite IH.
    destruct (existsb (String.eqb i) acc) eqn:E.
    - apply existsb_exists in E. destruct E as (x & Hx & Hix).
      apply String.eqb_eq in Hix. subst x.
      split; [tauto |]. intros [H | [<- | H]]; tauto.
    - rewrite in_app_iff. simpl. tauto. }
  rewrite G. simpl. tauto.
Qed.

(** C8, as the claim states it, fails twice over: a space inside a path is
    removed with the spaces around it (the path "first name" is entered as
    "firstname"), and whitespace other than the space character is not
    stripped (a tab before "b" stays in the key). *)
Lemma C8_counterexample :
  Spec.field_paths "first name, b" = ["first name"; "b"]
  /\ MongoQuery.field_items "first name, b" = ["firstname"; "b"]
  /\ MongoQuery.build_projection "first name, b" (PyBool true)
     = Return (PyDict [(PyStr "firstname", PyBool true);
                       (PyStr "b", PyBool true);
                       (PyStr "_id", PyBool true)])
  /\ ~ In "first name" (MongoQuery.field_items "first name, b")
  /\ Spec.field_paths ("a," ++ String (ascii_of_nat 9) "b") = ["a"; "b"]
  /\ MongoQuery.field_items ("a," ++ String (ascii_of_nat 9) "b")
     = ["a"; String (ascii_of_nat 9) "b"].
Proof.
  repeat split; try reflexivity.
  vm_compute. intros [H | [H | []]]; discriminate.
Qed.

(** C8, amended. Before the field list is split at the commas, every space
    character in it is removed, around a path and inside it alike; nothing
    else is stripped or changed. So the keys entered, joined by commas, are
    the field list without its spaces; no key holds a space or a comma; a
    list of comma-free paths is entered as those paths without their
    spaces, and exactly as written when they hold no space; the keys of
    the projection are these items and "_id". *)
Theorem C8_field_paths :
  (forall fields,
      Str.join "," (MongoQuery.field_items fields) = Str.remove_char " " fields)
  /\ (forall fields p, In p (MongoQuery.field_items fields) ->
        Str.has_char " " p = false /\ Str.has_char "," p = false)
  /\ (forall paths, paths <> [] ->
        (forall p, In p paths -> Str.has_char "," p = false) ->
        MongoQuery.field_items (Str.join "," paths) = map (Str.remove_char " ") paths)
  /\ (forall paths, paths <> [] ->
        (forall p, In p paths -> Str.has_char "," p = false /\ Str.has_char " " p = false) ->
        MongoQuery.field_items (Str.join "," paths) = paths)
  /\ (forall fields flag, fields <> EmptyString ->
        exists data,
          MongoQuery.build_projection fields flag = Return (PyDict data)
          /\ forall k, In k (Py.keys data)
                       <-> (k = PyStr "_id"
                            \/ exists p, In p (MongoQuery.field_items fields) /\ k = PyStr p)).
Proof.
  assert (Hthird : forall paths, paths <> [] ->
            (forall p, In p paths -> Str.has_char "," p = false) ->
            MongoQuery.field_items (Str.join "," paths) = map (Str.remove_char " ") paths).
  { intros paths Hne H. unfold MongoQuery.field_items.
    rewrite (remove_char_join " " "," paths) by reflexivity.
    apply split_join.
    - destruct paths; [now elim Hne | discriminate].
    - intros p Hp. apply in_map_iff in Hp. destruct Hp as (q & <- & Hq).
      rewrite remove_char_other by reflexivity. now apply H. }
  split; [| split; [| split; [exact Hthird | split]]].
  - intros fields. apply join_split.
  - intros fields p Hp. unfold MongoQuery.field_items in Hp. split.
    + rewrite has_char_all_chars.
      rewrite (split_items_chars _ "," (Str.remove_char " " fields) p); [reflexivity | | exact Hp].
      pose proof (remove_char_removes " " fields) as H.
      rewrite has_char_all_chars in H. now apply negb_false_iff in H.
    + now apply (split_items_without_sep "," (Str.remove_char " " fields)).
  - intros paths Hne H. rewrite Hthird; [| exact Hne | intros p Hp; now apply H].
    rewrite <- (map_id paths) at 2. apply map_ext_in.
    intros p Hp. apply remove_char_keeps. now apply H.
  - intros fields flag H.
    eexists. split; [now apply build_projection_nonempty |].
    intros k. rewrite projection_keys, in_map_iff. split.
    + intros (p & <- & Hp). apply (proj1 (in_first_occurrences _ _)) in Hp.
      apply in_app_iff in Hp. destruct Hp as [Hp | [<- | []]].
      * right. now exists p.
      * now left.
    + intros [-> | (p & Hp & ->)].
      * exists "_id". split; [reflexivity |].
        apply in_first_occurrences, in_app_iff. right. now left.
      * exists p. split; [reflexivity |].
        apply in_first_occurrences, in_app_iff. now left.
Qed.

Lemma C8_field_paths_witness :
  MongoQuery.field_items (Str.join "," [" address.city "; "first name"])
  = map (Str.remove_char " ") [" address.city "; "first name"]
  /\ Str.has_char " " "firstname" = false.
Proof.
  destruct C8_field_paths as (_ & Hitems & Hpaths & _).
  split.
  - apply (Hpaths [" address.city "; "first name"]); [discriminate |].
    intros p [<- | [<- | []]]; reflexivity.
  - apply (Hitems "first name, b" "firstname"). now left.
Defined.

(** ** The identifier of a document *)

Lemma contains__id (d : Py.dict) :
  PyOps.contains (PyStr "_id") (PyDict d) = Return (Py.contains d (PyStr "_id")).
Proof. reflexivity. Qed.

Lemma normalize_identifier_absent (d : Py.dict) :
  Py.get d (PyStr "_id") = None ->
  MongoQuery.normalize_identifier (PyDict d) = Return (PyDict d).
Proof.
  intros H. unfold MongoQuery.normalize_identifier.
  rewrite contains__id. unfold Py.contains. now rewrite H.
Qed.

Lemma normalize_identifier_present (d : Py.dict) (v : pyobj) :
  Py.get d (PyStr "_id") = Some v ->
  MongoQuery.normalize_identifier (PyDict d)
  = (oid <- Bson.ObjectId v ;;
     Return (PyDict (Py.setitem d (PyStr "_id") (PyObjectId oid)))).
Proof.
  intros H. unfold MongoQuery.normalize_identifier.
  rewrite contains__id. unfold Py.contains. rewrite H.
  cbn [bind]. unfold PyOps.getitem. rewrite H. reflexivity.
Qed.

(** C5. A document with an "_id" whose value is a well-formed token of 24
    hexadecimal characters is returned with a DocumentId wrapping exactly
    that token under "_id", the same keys in the same order and every
    other field unchanged; with any other value under "_id" the
    normalization fails with the identifier error; without the key the
    document is returned unchanged. *)
Theorem C5_identifier_normalization (d : Py.dict) :
  (forall tok,
      Py.get d (PyStr "_id") = Some (PyStr tok) ->
      Bson.well_formed tok = true ->
      exists d',
        MongoQuery.normalize_identifier (PyDict d) = Return (PyDict d')
        /\ Py.get d' (PyStr "_id") = Some (PyObjectId (mkDocumentId tok))
        /\ Py.keys d' = Py.keys d
        /\ (forall k, k <> PyStr "_id" -> Py.get d' k = Py.get d k))
  /\ (forall v,
        Py.get d (PyStr "_id") = Some v ->
        (forall tok, v = PyStr tok -> Bson.well_formed tok = false) ->
        exists msg, MongoQuery.normalize_identifier (PyDict d) = Raise (InvalidId msg))
  /\ (Py.get d (PyStr "_id") = None ->
      MongoQuery.normalize_identifier (PyDict d) = Return (PyDict d)).
Proof.
  split; [| split].
  - intros tok Hget Hwf.
    exists (Py.setitem d (PyStr "_id") (PyObjectId (mkDocumentId tok))).
    split; [| split; [| split]].
    + rewrite (normalize_identifier_present d _ Hget).
      unfold Bson.ObjectId. rewrite Hwf. reflexivity.
    + apply get_setitem_same.
    + apply keys_setitem_present. unfold Py.contains. now rewrite Hget.
    + intros k Hk. now apply get_setitem_other.
  - intros v Hget Hbad.
    rewrite (normalize_identifier_present d _ Hget).
    unfold Bson.ObjectId.
    destruct v; try (eexists; reflexivity).
    rewrite (Hbad s eq_refl). eexists. reflexivity.
  - apply normalize_identifier_absent.
Qed.

Lemma C5_identifier_normalization_witness :
  (exists d',
      MongoQuery.normalize_identifier
        (PyDict [(PyStr "_id", PyStr "507f1f77bcf86cd799439011"); (PyStr "x", PyInt 1)])
      = Return (PyDict d')
      /\ Py.get d' (PyStr "_id")
         = Some (PyObjectId (mkDocumentId "507f1f77bcf86cd799439011"))
      /\ Py.keys d' = [PyStr "_id"; PyStr "x"]
      /\ (forall k, k <> PyStr "_id" ->
                    Py.get d' k = Py.get [(PyStr "_id", PyStr "507f1f77bcf86cd799439011");
                                          (PyStr "x", PyInt 1)] k))
  /\ (exists msg,
        MongoQuery.normalize_identifier
          (PyDict [(PyStr "_id", PyStr "not-hex"); (PyStr "x", PyInt 1)])
        = Raise (InvalidId msg))
  /\ MongoQuery.normalize_identifier (PyDict [(PyStr "x", PyInt 1)])
     = Return (PyDict [(PyStr "x", PyInt 1)]).
Proof.
  split; [| split].
  - apply (proj1 (C5_identifier_normalization
                    [(PyStr "_id", PyStr "507f1f77bcf86cd799439011"); (PyStr "x", PyInt 1)])
                 "507f1f77bcf86cd799439011"); reflexivity.
  - apply (proj1 (proj2 (C5_identifier_normalization
                           [(PyStr "_id", PyStr "not-hex"); (PyStr "x", PyInt 1)]))
                 (PyStr "not-hex")); [reflexivity |].
    intros tok E. injection E as <-. reflexivity.
  - apply (proj2 (proj2 (C5_identifier_normalization [(PyStr "x", PyInt 1)]))).
    reflexivity.
Defined.

(** ** The rendering of the results *)

Lemma append_assoc (a b c : string) : (a ++ b) ++ c = a ++ (b ++ c).
Proof.
  induction a as [| x a IH]; simpl; [reflexivity | now rewrite IH].
Qed.

Lemma append_empty_r (a : string) : a ++ EmptyString = a.
Proof.
  induction a as [| x a IH]; simpl; [reflexivity | now rewrite IH].
Qed.

Lemma join_empty_cons (p : string) (ps : list string) :
  Str.join EmptyString (p :: ps) = p ++ Str.join EmptyString ps.
Proof.
  destruct ps; simpl; [now rewrite append_empty_r | reflexivity].
Qed.

Lemma raw_response_from (results : list Py.dict) (response : string) :
  fold_left (fun response d => response ++ Py.items_str d) results response
  = response ++ Str.join EmptyString (map Py.items_str results).
Proof.
  revert response. induction results as [| d results IH]; intros response.
  - simpl. now rewrite append_empty_r.
  - cbn [fold_left map]. rewrite IH, join_empty_cons, append_assoc. reflexivity.
Qed.

(** C6. In raw mode an empty record sequence gives the empty string, and
    the records [doc1, doc2] give the rendered (key, value) pairs of doc1
    followed at once by those of doc2; in general the renderings of the
    documents, in order, with nothing between them. In structured mode the
    documents are returned unchanged, in their order. *)
Theorem C6_serialize :
  MongoQuery.serialize [] Spec.Raw = PyStr EmptyString
  /\ (forall doc1 doc2,
        MongoQuery.serialize [doc1; doc2] Spec.Raw
        = PyStr (Py.items_str doc1 ++ Py.items_str doc2))
  /\ (forall docs,
        MongoQuery.serialize docs Spec.Raw
        = PyStr (Str.join EmptyString (map Py.items_str docs)))
  /\ (forall docs, MongoQuery.serialize docs Spec.Structured = PyList (map PyDict docs))
  /\ MongoQuery.serialize
       [[(PyStr "a", PyInt 1)]; [(PyStr "b", PyStr "x"); (PyStr "c", PyNone)]] Spec.Raw
     = PyStr "dict_items([('a', 1)])dict_items([('b', 'x'), ('c', None)])".
Proof.
  split; [reflexivity |].
  split; [reflexivity |].
  split; [| split; reflexivity].
  intros docs. unfold MongoQuery.serialize, MongoQuery.raw_response. simpl.
  now rewrite raw_response_from.
Qed.

(** ** The literal parser *)

Lemma pythonish_to_json_dict_stages (text : string) :
  MongoQuery.pythonish_to_json_dict text
  = match MongoQuery.parse_and_revalidate (MongoQuery.normalize_literals text) with
    | Return v => Return v
    | Raise e => Raise (MongoQuery.parse_error e)
    | Unmodelled => Unmodelled
    end.
Proof. reflexivity. Qed.

(** C7. Whenever a stage of the parser fails on a text (the literal
    evaluation of the normalized text, the JSON encoding of its value or
    the decoding of the encoded text), the parser raises its parse error,
    which carries the message of that failure, and returns no value; it
    raises nothing else, and a value it returns has gone through all the
    stages. The text "{bad json" is such a failure. *)
Theorem C7_parse_all_or_nothing (text : string) (e : exn) :
  stage_fails text e ->
  MongoQuery.pythonish_to_json_dict text = Raise (MongoQuery.parse_error e)
  /\ exn_str (MongoQuery.parse_error e)
     = "Error parsing pythonish to json dict: " ++ exn_str e
  /\ (forall v, MongoQuery.pythonish_to_json_dict text <> Return v)
  /\ (forall t e', MongoQuery.pythonish_to_json_dict t = Raise e' ->
                   exists e0, stage_fails t e0 /\ e' = MongoQuery.parse_error e0)
  /\ (forall t v, MongoQuery.pythonish_to_json_dict t = Return v ->
                  exists obj encoded,
                    Ast.literal_eval (MongoQuery.normalize_literals t) = Return obj
                    /\ Json.dumps obj = Return encoded
                    /\ Json.loads encoded = Return v)
  /\ MongoQuery.pythonish_to_json_dict "{bad json"
     = Raise (Exception "Error parsing pythonish to json dict: '{' was never closed").
Proof.
  intros H.
  assert (Hraise : MongoQuery.pythonish_to_json_dict text
                   = Raise (MongoQuery.parse_error e)).
  { rewrite pythonish_to_json_dict_stages. unfold MongoQuery.parse_and_revalidate.
    destruct H as [H | obj H1 H2 | obj encoded H1 H2 H3].
    - now rewrite H.
    - rewrite H1. cbn [bind]. now rewrite H2.
    - rewrite H1. cbn [bind]. rewrite H2. cbn [bind]. now rewrite H3. }
  split; [exact Hraise |].
  split; [reflexivity |].
  split; [intros v; rewrite Hraise; discriminate |].
  split; [| split; [| reflexivity]].
  - intros t e'. rewrite pythonish_to_json_dict_stages.
    unfold MongoQuery.parse_and_revalidate.
    destruct (Ast.literal_eval (MongoQuery.normalize_literals t)) as [obj | e1 |] eqn:E1;
      cbn [bind]; [| | discriminate].
    + destruct (Json.dumps obj) as [encoded | e2 |] eqn:E2; cbn [bind]; [| | discriminate].
      * destruct (Json.loads encoded) as [v | e3 |] eqn:E3; [discriminate | | discriminate].
        intros E. injection E as <-. exists e3. split; [| reflexivity].
        now apply (decoding_fails t e3 obj encoded).
      * intros E. injection E as <-. exists e2. split; [| reflexivity].
        now apply (encoding_fails t e2 obj).
    + intros E. injection E as <-. exists e1. split; [| reflexivity].
      now apply literal_fails.
  - intros t v. rewrite pythonish_to_json_dict_stages.
    unfold MongoQuery.parse_and_revalidate.
    destruct (Ast.literal_eval (MongoQuery.normalize_literals t)) as [obj | e1 |] eqn:E1;
      cbn [bind]; [| discriminate | discriminate].
    destruct (Json.dumps obj) as [encoded | e2 |] eqn:E2; cbn [bind];
      [| discriminate | discriminate].
    destruct (Json.loads encoded) as [v' | e3 |] eqn:E3; [| discriminate | discriminate].
    intros E. injection E as <-. exists obj, encoded. now rewrite E2, E3.
Qed.

Lemma C7_parse_all_or_nothing_witness :
  MongoQuery.pythonish_to_json_dict "{bad json"
  = Raise (MongoQuery.parse_error (SyntaxError "'{' was never closed"))
  /\ MongoQuery.pythonish_to_json_dict "{'tags': {1, 2}}"
     = Raise (MongoQuery.parse_error
                (TypeError "Object of type set is not JSON serializable")).
Proof.
  split.
  - apply (C7_parse_all_or_nothing "{bad json" (SyntaxError "'{' was never closed")).
    apply literal_fails. reflexivity.
  - apply (C7_parse_all_or_nothing "{'tags': {1, 2}}"
             (TypeError "Object of type set is not JSON serializable")).
    apply (encoding_fails _ _ (PyDict [(PyStr "tags", PySet [PyInt 1; PyInt 2])]));
      reflexivity.
Defined.

(** C1. The code rewrites a reserved token inside a quoted string as well:
    the substitutions of lines 23-25 run over the whole text, so the value
    'null' and the key 'true' of a quoted literal come back as "None" and
    "True". The claim (tokens inside string literals are left unchanged)
    does not hold of the code at these inputs. *)
Theorem C1_token_inside_string_is_rewritten :
  MongoQuery.normalize_literals "{'status': 'null'}" = "{'status': 'None'}"
  /\ MongoQuery.pythonish_to_json_dict "{'status': 'null'}"
     = Return (PyDict [(PyStr "status", PyStr "None")])
  /\ MongoQuery.pythonish_to_json_dict "{'true': 'false alarm', 'nullable': 'is_null'}"
     = Return (PyDict [(PyStr "True", PyStr "False alarm");
                       (PyStr "nullable", PyStr "is_null")]).
Proof.
  repeat split; vm_compute; reflexivity.
Qed.

(** C2. On the strict JSON text {"status": "null"} a strict decoder gives
    the string "null" under "status", and the parser gives the string
    "None": the two values differ, so the round trip of the claim fails on
    the code at this input. *)
Theorem C2_json_text_parsed_differently :
  let text := Str.dq "{`status`: `null`}" in
  Json.loads text = Return (PyDict [(PyStr "status", PyStr "null")])
  /\ MongoQuery.pythonish_to_json_dict text
     = Return (PyDict [(PyStr "status", PyStr "None")])
  /\ Py.eq (PyDict [(PyStr "status", PyStr "None")])
           (PyDict [(PyStr "status", PyStr "null")]) = false.
Proof.
  repeat split; vm_compute; reflexivity.
Qed.

(** C9. The parser returns the value {"k": "null"} on the text
    {"k": "\u006eull"}; the JSON encoding of that value is {"k": "null"},
    and the parser returns {"k": "None"} on it: parsing the re-encoding
    does not give back the value, so the idempotence of the claim fails on
    the code at this input. *)
Theorem C9_reparse_changes_value :
  let text := Str.dq "{`k`: `\u006eull`}" in
  let value := PyDict [(PyStr "k", PyStr "null")] in
  let encoded := Str.dq "{`k`: `null`}" in
  MongoQuery.pythonish_to_json_dict text = Return value
  /\ Json.dumps value = Return encoded
  /\ MongoQuery.pythonish_to_json_dict encoded
     = Return (PyDict [(PyStr "k", PyStr "None")])
  /\ Py.eq (PyDict [(PyStr "k", PyStr "None")]) value = false.
Proof.
  repeat split; vm_compute; reflexivity.
Qed.

(** ** The substitution of the reserved tokens, in general *)

Lemma is_word_lower_char (c : ascii) : Str.is_word (Str.lower_char c) = Str.is_word c.
Proof.
  destruct c as [[] [] [] [] [] [] [] []]; vm_compute; reflexivity.
Qed.

Lemma char_eq_ci_word (p c : ascii) :
  Re.char_eq_ci p c = true -> Str.is_word c = Str.is_word p.
Proof.
  unfold Re.char_eq_ci. intros H. apply Ascii.eqb_eq in H.
  rewrite <- (is_word_lower_char c), <- (is_word_lower_char p). now rewrite H.
Qed.

Lemma ends_with_word_char_cons (c : ascii) (s : string) :
  s <> EmptyString -> ends_with_word_char (String c s) = ends_with_word_char s.
Proof.
  destruct s; [intros H; now elim H | reflexivity].
Qed.

Lemma boundary_after_app (word a b : string) :
  Str.all_chars Str.is_word word = true ->
  (a = EmptyString -> Re.starts_with_word_char b = false) ->
  (a <> EmptyString ->
   ends_with_word_char a = false \/ Re.starts_with_word_char b = false) ->
  boundary_after word (a ++ b) = boundary_after word a.
Proof.
  revert a. induction word as [| p word IH]; intros a Hw H1 H2.
  - unfold boundary_after. simpl.
    destruct a as [| c a]; [simpl; now rewrite H1 | reflexivity].
  - simpl in Hw. apply andb_prop in Hw. destruct Hw as [Hp Hw].
    unfold boundary_after. destruct a as [| c a].
    + simpl. destruct b as [| c b]; [reflexivity |].
      destruct (Re.char_eq_ci p c) eqn:E; [| reflexivity].
      apply char_eq_ci_word in E. specialize (H1 eq_refl). simpl in H1. congruence.
    + simpl. destruct (Re.char_eq_ci p c) eqn:E; [| reflexivity].
      apply char_eq_ci_word in E.
      apply (IH a Hw).
      * intros ->. destruct (H2 ltac:(discriminate)) as [H | H]; [| exact H].
        simpl in H. congruence.
      * intros Ha. rewrite <- (ends_with_word_char_cons c a Ha). apply H2. discriminate.
Qed.

Lemma matches_at_boundary (word : string) (prev : bool) (s : string) :
  Re.matches_at word prev s = negb prev && boundary_after word s.
Proof. reflexivity. Qed.

Lemma match_literal_length (word s rest : string) :
  Re.match_literal word s = Some rest ->
  String.length s = String.length word + String.length rest.
Proof.
  revert s. induction word as [| p word IH]; intros s H; simpl in *.
  - now injection H as ->.
  - destruct s as [| c s]; [discriminate |].
    destruct (Re.char_eq_ci p c); [| discriminate].
    simpl. now rewrite (IH s H).
Qed.

Lemma match_literal_word_run (word s rest : string) :
  Str.all_chars Str.is_word word = true ->
  Re.match_literal word s = Some rest ->
  word_run (String.length word) s = true.
Proof.
  revert s. induction word as [| p word IH]; intros s Hw H; simpl in *; [reflexivity |].
  apply andb_prop in Hw. destruct Hw as [Hp Hw].
  destruct s as [| c s]; [discriminate |].
  destruct (Re.char_eq_ci p c) eqn:E; [| discriminate].
  apply char_eq_ci_word in E. rewrite E, Hp. simpl. now apply IH.
Qed.

(** A first character that is not a word character starts no match,
    whatever came before it. *)
Lemma sub_from_prev_irrelevant (word repl : string) (prev : bool) (b : string) :
  word <> EmptyString ->
  Str.all_chars Str.is_word word = true ->
  prev = false \/ Re.starts_with_word_char b = false ->
  Re.sub_from word repl prev 0 b = Re.sub_from word repl false 0 b.
Proof.
  intros Hne Hw [-> | Hb]; [reflexivity |].
  destruct b as [| c b]; [reflexivity |].
  simpl in Hb. cbn [Re.sub_from].
  rewrite !matches_at_boundary.
  assert (E : boundary_after word (String c b) = false).
  { unfold boundary_after. destruct word as [| p word]; [now elim Hne |].
    simpl in Hw. apply andb_prop in Hw. destruct Hw as [Hp _].
    simpl. destruct (Re.char_eq_ci p c) eqn:E; [| reflexivity].
    apply char_eq_ci_word in E. congruence. }
  rewrite E, !andb_false_r. reflexivity.
Qed.

Lemma sub_from_app (word repl : string) (b : string) :
  word <> EmptyString ->
  Str.all_chars Str.is_word word = true ->
  forall (a : string) (prev : bool) (skip : nat),
    skip <= String.length a ->
    (a <> EmptyString ->
     ends_with_word_char a = false \/ Re.starts_with_word_char b = false) ->
    (a = EmptyString -> prev = false \/ Re.starts_with_word_char b = false) ->
    Re.sub_from word repl prev skip (a ++ b)
    = Re.sub_from word repl prev skip a ++ Re.sub_from word repl false 0 b.
Proof.
  intros Hne Hw.
  induction a as [| c a IH]; intros prev skip Hskip Hj He.
  - simpl in Hskip. assert (skip = 0) as -> by lia.
    simpl. apply sub_from_prev_irrelevant; auto.
  - assert (Hj' : a <> EmptyString ->
                  ends_with_word_char a = false \/ Re.starts_with_word_char b = false).
    { intros Ha. rewrite <- (ends_with_word_char_cons c a Ha). apply Hj. discriminate. }
    assert (He' : a = EmptyString ->
                  Str.is_word c = false \/ Re.starts_with_word_char b = false).
    { intros ->. apply (Hj ltac:(discriminate)). }
    change (String c a ++ b) with (String c (a ++ b)).
    cbn [Re.sub_from]. destruct skip as [| k].
    + change (String c (a ++ b)) with (String c a ++ b).
      rewrite !matches_at_boundary.
      rewrite (boundary_after_app word (String c a) b Hw) by (auto; discriminate).
      destruct (negb prev && boundary_after word (String c a)) eqn:M.
      * apply andb_prop in M. destruct M as [_ M].
        unfold boundary_after in M.
        destruct (Re.match_literal word (String c a)) as [rest |] eqn:ML; [| discriminate].
        apply match_literal_length in ML. simpl in ML.
        rewrite IH; [now rewrite append_assoc | lia | exact Hj' | exact He'].
      * rewrite IH; [reflexivity | lia | exact Hj' | exact He'].
    + simpl in Hskip. apply IH; [lia | exact Hj' | exact He'].
Qed.

(** The substitution works on either side of a place where a word character
    does not meet a word character. *)
Lemma sub_word_app (word repl a b : string) :
  word <> EmptyString ->
  Str.all_chars Str.is_word word = true ->
  ends_with_word_char a = false \/ Re.starts_with_word_char b = false ->
  Re.sub_word word repl (a ++ b) = Re.sub_word word repl a ++ Re.sub_word word repl b.
Proof.
  intros Hne Hw Hj. unfold Re.sub_word.
  apply sub_from_app; auto. lia.
Qed.

Lemma boundary_after_nonword (word s : string) :
  word <> EmptyString ->
  Str.all_chars Str.is_word word = true ->
  Re.starts_with_word_char s = false ->
  boundary_after word s = false.
Proof.
  intros Hne Hw Hs. unfold boundary_after.
  destruct word as [| p word]; [now elim Hne |].
  simpl in Hw. apply andb_prop in Hw. destruct Hw as [Hp _].
  destruct s as [| c s]; [reflexivity |].
  simpl in *. destruct (Re.char_eq_ci p c) eqn:E; [| reflexivity].
  apply char_eq_ci_word in E. congruence.
Qed.

Lemma sub_from_skip_all (word repl : string) (s : string) (prev : bool) :
  Re.sub_from word repl prev (String.length s) s = EmptyString.
Proof.
  revert prev. induction s as [| c s IH]; intros prev; [reflexivity |].
  simpl. apply IH.
Qed.

Lemma match_literal_same (word w : string) :
  Str.lower w = Str.lower word -> Re.match_literal word w = Some EmptyString.
Proof.
  revert w. induction word as [| p word IH]; intros w H.
  - destruct w; [reflexivity | discriminate].
  - destruct w as [| c w]; [discriminate |].
    unfold Str.lower in H. simpl in H. injection H as Hc Hw.
    simpl. unfold Re.char_eq_ci. rewrite Hc, Ascii.eqb_refl. now apply IH.
Qed.

Lemma match_literal_whole (word w : string) :
  Re.match_literal word w = Some EmptyString -> Str.lower w = Str.lower word.
Proof.
  revert w. induction word as [| p word IH]; intros w H.
  - simpl in H. now injection H as ->.
  - destruct w as [| c w]; [discriminate |].
    simpl in H. destruct (Re.char_eq_ci p c) eqn:E; [| discriminate].
    unfold Re.char_eq_ci in E. apply Ascii.eqb_eq in E.
    unfold Str.lower. simpl. f_equal; [now symmetry | exact (IH w H)].
Qed.

Lemma match_literal_rest_chars (P : ascii -> bool) (word s rest : string) :
  Re.match_literal word s = Some rest ->
  Str.all_chars P s = true -> Str.all_chars P rest = true.
Proof.
  revert s. induction word as [| p word IH]; intros s H Hs; simpl in H.
  - now injection H as <-.
  - destruct s as [| c s]; [discriminate |].
    destruct (Re.char_eq_ci p c); [| discriminate].
    simpl in Hs. apply andb_prop in Hs. destruct Hs as [_ Hs]. now apply (IH s).
Qed.

(** A whole word that reads as the pattern, in any case, becomes the
    replacement. *)
Lemma sub_word_whole (word repl w : string) :
  word <> EmptyString ->
  Str.lower w = Str.lower word ->
  Re.sub_word word repl w = repl.
Proof.
  intros Hne H. pose proof (match_literal_same word w H) as ML.
  pose proof (match_literal_length word w _ ML) as HL. simpl in HL.
  destruct w as [| c w]; [destruct word; [now elim Hne | discriminate] |].
  unfold Re.sub_word. cbn [Re.sub_from].
  unfold Re.matches_at. rewrite ML. cbn [negb andb Re.starts_with_word_char].
  simpl in HL.
  replace (String.length word - 1) with (String.length w) by lia.
  rewrite sub_from_skip_all. apply append_empty_r.
Qed.

Lemma sub_from_inside_word (word repl s : string) :
  Str.all_chars Str.is_word s = true ->
  Re.sub_from word repl true 0 s = s.
Proof.
  induction s as [| c s IH]; intros H; [reflexivity |].
  simpl in H. apply andb_prop in H. destruct H as [Hc Hs].
  cbn [Re.sub_from]. unfold Re.matches_at. cbn [negb andb].
  rewrite Hc. now rewrite IH.
Qed.

(** A whole word that does not read as the pattern stays. *)
Lemma sub_word_other (word repl w : string) :
  Str.all_chars Str.is_word w = true ->
  Str.lower w <> Str.lower word ->
  Re.sub_word word repl w = w.
Proof.
  intros Hw Hne. destruct w as [| c w]; [reflexivity |].
  unfold Re.sub_word. cbn [Re.sub_from].
  assert (M : Re.matches_at word false (String c w) = false).
  { unfold Re.matches_at. cbn [negb andb].
    destruct (Re.match_literal word (String c w)) as [rest |] eqn:ML; [| reflexivity].
    pose proof (match_literal_rest_chars _ _ _ _ ML Hw) as Hr.
    destruct rest as [| r rest].
    - elim Hne. now apply match_literal_whole.
    - simpl in Hr. apply andb_prop in Hr. destruct Hr as [Hr _].
      simpl. now rewrite Hr. }
  rewrite M.
  simpl in Hw. apply andb_prop in Hw. destruct Hw as [Hc Hw].
  rewrite Hc. now rewrite sub_from_inside_word.
Qed.

Lemma sub_word_keeps_start (word repl b : string) :
  word <> EmptyString ->
  Str.all_chars Str.is_word word = true ->
  Re.starts_with_word_char b = false ->
  Re.starts_with_word_char (Re.sub_word word repl b) = false.
Proof.
  intros Hne Hw Hb. destruct b as [| c b]; [reflexivity |].
  unfold Re.sub_word. cbn [Re.sub_from].
  rewrite matches_at_boundary, (boundary_after_nonword word _ Hne Hw Hb).
  exact Hb.
Qed.

Lemma ends_with_word_char_last (a : string) (c : ascii) :
  ends_with_word_char (a ++ String c EmptyString) = Str.is_word c.
Proof.
  induction a as [| x a IH]; [reflexivity |].
  change (String x a ++ String c EmptyString) with (String x (a ++ String c EmptyString)).
  rewrite ends_with_word_char_cons; [exact IH |].
  destruct a; discriminate.
Qed.

Lemma last_char (a : string) :
  a = EmptyString \/ exists a0 c, a = a0 ++ String c EmptyString.
Proof.
  induction a as [| x a IH]; [now left |].
  right. destruct IH as [-> | (a0 & c & ->)].
  - now exists EmptyString, x.
  - now exists (String x a0), c.
Qed.

Lemma sub_word_keeps_end (word repl a : string) :
  word <> EmptyString ->
  Str.all_chars Str.is_word word = true ->
  ends_with_word_char a = false ->
  ends_with_word_char (Re.sub_word word repl a) = false.
Proof.
  intros Hne Hw Ha.
  destruct (last_char a) as [-> | (a0 & c & ->)]; [reflexivity |].
  rewrite ends_with_word_char_last in Ha.
  rewrite sub_word_app by (auto; right; exact Ha).
  assert (E : Re.sub_word word repl (String c EmptyString) = String c EmptyString).
  { unfold Re.sub_word. cbn [Re.sub_from].
    rewrite matches_at_boundary, (boundary_after_nonword word _ Hne Hw) by exact Ha.
    reflexivity. }
  rewrite E, ends_with_word_char_last. exact Ha.
Qed.

Lemma all_chars_word_lower (w : string) :
  Str.all_chars Str.is_word (Str.lower w) = Str.all_chars Str.is_word w.
Proof.
  induction w as [| c w IH]; [reflexivity |].
  unfold Str.lower in *. simpl. now rewrite is_word_lower_char, IH.
Qed.

Lemma sub_word_between (word repl pre mid post : string) :
  word <> EmptyString ->
  Str.all_chars Str.is_word word = true ->
  ends_with_word_char pre = false ->
  Re.starts_with_word_char post = false ->
  Re.sub_word word repl (pre ++ mid ++ post)
  = Re.sub_word word repl pre ++ Re.sub_word word repl mid ++ Re.sub_word word repl post.
Proof.
  intros Hne Hw Hpre Hpost.
  rewrite sub_word_app by auto.
  now rewrite (sub_word_app word repl mid post) by auto.
Qed.

(** The three substitutions work separately on the parts of a text cut
    where no word character meets a word character. *)
Lemma normalize_literals_between (pre mid post : string) :
  ends_with_word_char pre = false ->
  Re.starts_with_word_char post = false ->
  MongoQuery.normalize_literals (pre ++ mid ++ post)
  = MongoQuery.normalize_literals pre ++ MongoQuery.normalize_literals mid
    ++ MongoQuery.normalize_literals post.
Proof.
  intros Hpre Hpost. unfold MongoQuery.normalize_literals.
  rewrite (sub_word_between "false") by (auto; discriminate).
  rewrite (sub_word_between "true");
    [| discriminate | reflexivity
     | apply sub_word_keeps_end; auto; discriminate
     | apply sub_word_keeps_start; auto; discriminate].
  rewrite (sub_word_between "null");
    [reflexivity | discriminate | reflexivity | |].
  - apply sub_word_keeps_end; [discriminate | reflexivity |].
    apply sub_word_keeps_end; auto. discriminate.
  - apply sub_word_keeps_start; [discriminate | reflexivity |].
    apply sub_word_keeps_start; auto. discriminate.
Qed.

Lemma normalize_literals_reserved (w token canon : string) :
  In (token, canon) reserved ->
  Str.lower w = token ->
  MongoQuery.normalize_literals w = canon.
Proof.
  intros Hin Hw.
  assert (Hword : Str.all_chars Str.is_word w = true).
  { rewrite <- all_chars_word_lower, Hw.
    destruct Hin as [E | [E | [E | []]]]; injection E as <- _; reflexivity. }
  unfold MongoQuery.normalize_literals.
  destruct Hin as [E | [E | [E | []]]]; injection E as <- <-.
  - rewrite (sub_word_whole "false") by (auto; discriminate). reflexivity.
  - rewrite (sub_word_other "false") by (auto; rewrite Hw; discriminate).
    rewrite (sub_word_whole "true") by (auto; discriminate). reflexivity.
  - rewrite (sub_word_other "false") by (auto; rewrite Hw; discriminate).
    rewrite (sub_word_other "true") by (auto; rewrite Hw; discriminate).
    rewrite (sub_word_whole "null") by (auto; discriminate). reflexivity.
Qed.

(** X1. On ASCII text, lines 22-25 rewrite every whole-word occurrence of a
    reserved token, in any letter case, to its Python spelling, whatever
    stands around it:
    the text before the word (not ending in a word character) and the text
    after it (not starting with one) are normalized on their own. Quotes
    are not word characters, so a reserved word that is the whole content
    of a quoted string is rewritten like any other. *)
Theorem normalize_literals_whole_word (pre w post token canon : string) :
  Str.all_chars Str.is_ascii (pre ++ post) = true ->
  In (token, canon) reserved ->
  Str.lower w = token ->
  ends_with_word_char pre = false ->
  Re.starts_with_word_char post = false ->
  MongoQuery.normalize_literals (pre ++ w ++ post)
  = MongoQuery.normalize_literals pre ++ canon ++ MongoQuery.normalize_literals post.
Proof.
  intros _ Hin Hw Hpre Hpost.
  rewrite normalize_literals_between by assumption.
  now rewrite (normalize_literals_reserved w token canon Hin Hw).
Qed.

Lemma normalize_literals_whole_word_witness :
  MongoQuery.normalize_literals ("{'status': '" ++ "NuLL" ++ "'}")
  = MongoQuery.normalize_literals "{'status': '" ++ "None"
    ++ MongoQuery.normalize_literals "'}".
Proof.
  apply (normalize_literals_whole_word "{'status': '" "NuLL" "'}" "null" "None");
    [reflexivity | right; right; now left | reflexivity | reflexivity | reflexivity].
Defined.

(** X2. On ASCII text, a word that is not a reserved token is left as it
    is, also when a reserved token is part of it: identifiers such as
    nullable or is_null are not touched by lines 22-25. *)
Theorem normalize_literals_other_word (pre w post : string) :
  Str.all_chars Str.is_ascii (pre ++ post) = true ->
  Str.all_chars Str.is_word w = true ->
  (forall token canon, In (token, canon) reserved -> Str.lower w <> token) ->
  ends_with_word_char pre = false ->
  Re.starts_with_word_char post = false ->
  MongoQuery.normalize_literals (pre ++ w ++ post)
  = MongoQuery.normalize_literals pre ++ w ++ MongoQuery.normalize_literals post.
Proof.
  intros _ Hw Hother Hpre Hpost.
  rewrite normalize_literals_between by assumption.
  replace (MongoQuery.normalize_literals w) with w; [reflexivity |].
  unfold MongoQuery.normalize_literals.
  rewrite (sub_word_other "false") by (auto; apply (Hother _ "False"); now left).
  rewrite (sub_word_other "true") by (auto; apply (Hother _ "True"); right; now left).
  rewrite (sub_word_other "null")
    by (auto; apply (Hother _ "None"); right; right; now left).
  reflexivity.
Qed.

Lemma normalize_literals_other_word_witness :
  MongoQuery.normalize_literals ("{" ++ "is_null" ++ ": 1}")
  = MongoQuery.normalize_literals "{" ++ "is_null" ++ MongoQuery.normalize_literals ": 1}".
Proof.
  apply (normalize_literals_other_word "{" "is_null" ": 1}");
    [reflexivity | reflexivity | | reflexivity | reflexivity].
  intros token canon [E | [E | [E | []]]]; injection E as <- _; discriminate.
Defined.

(** X4. With an empty field list the driver is asked for the criteria alone,
    without a projection, whatever the flag; with a non-empty one it is
    given the projection dict. *)
Theorem retrieve_with_desired_fields_projection
  (find : pyobj -> option pyobj -> outcome (list Py.dict))
  (recordJSON fields : string) (return__id returnDocuments criteria criteria' : pyobj) :
  MongoQuery.pythonish_to_json_dict recordJSON = Return criteria ->
  MongoQuery.normalize_identifier criteria = Return criteria' ->
  MongoQuery.retrieve_mongodb_records_with_desired_fields
    find recordJSON EmptyString return__id returnDocuments
  = (results <- find criteria' None ;;
     Return (MongoQuery.serialize results returnDocuments))
  /\ (fields <> EmptyString ->
      exists data,
        MongoQuery.build_projection fields return__id = Return (PyDict data)
        /\ MongoQuery.retrieve_mongodb_records_with_desired_fields
             find recordJSON fields return__id returnDocuments
           = (results <- find criteria' (Some (PyDict data)) ;;
              Return (MongoQuery.serialize results returnDocuments))).
Proof.
  intros Hc Hn.
  unfold MongoQuery.retrieve_mongodb_records_with_desired_fields,
    MongoQuery._retrieve_mongodb_records.
  split.
  - unfold MongoQuery.build_projection.
    destruct (convert_return__id_returns return__id) as [r ->].
    cbn [bind MongoQuery.projection_data Str.is_empty negb].
    rewrite Hc. cbn [bind]. rewrite Hn. reflexivity.
  - intros Hf. eexists. split; [now apply build_projection_nonempty |].
    rewrite (build_projection_nonempty fields return__id Hf).
    cbn [bind]. rewrite Hc. cbn [bind]. rewrite Hn. cbn [bind].
    remember (Py.setitem _ _ _) as data eqn:Hd.
    assert (Ht : Py.truthy (PyDict data) = true).
    { rewrite Hd. clear. generalize (fold_left
        (fun data item => Py.setitem data (PyStr item) (PyBool true))
        (MongoQuery.field_items fields) []).
      intros d. destruct d as [| [k v] d]; simpl; [reflexivity |].
      now destruct (Py.eq k (PyStr "_id")). }
    now rewrite Ht.
Qed.

Lemma retrieve_with_desired_fields_projection_witness :
  MongoQuery.retrieve_mongodb_records_with_desired_fields
    (fun _ _ => Return [[(PyStr "a", PyInt 1)]]) "{'a': 1}" EmptyString
    (PyStr "false") (PyBool false)
  = (results <- Return [[(PyStr "a", PyInt 1)]] ;;
     Return (MongoQuery.serialize results (PyBool false)))
  /\ (("a" : string) <> EmptyString ->
      exists data,
        MongoQuery.build_projection "a" (PyStr "false") = Return (PyDict data)
        /\ MongoQuery.retrieve_mongodb_records_with_desired_fields
             (fun _ _ => Return [[(PyStr "a", PyInt 1)]]) "{'a': 1}" "a"
             (PyStr "false") (PyBool false)
           = (results <- Return [[(PyStr "a", PyInt 1)]] ;;
              Return (MongoQuery.serialize results (PyBool false)))).
Proof.
  apply (retrieve_with_desired_fields_projection
           (fun _ _ => Return [[(PyStr "a", PyInt 1)]]) "{'a': 1}" "a"
           (PyStr "false") (PyBool false)
           (PyDict [(PyStr "a", PyInt 1)]) (PyDict [(PyStr "a", PyInt 1)]));
    reflexivity.
Defined.

(** ** The keywords that write *)

(** X5. update_many_mongodb_records cannot select by identifier: whenever
    the decoded query is an object with the key "_id", line 213 indexes the
    query text instead of the decoded query and the keyword raises a
    TypeError, whatever the update, the upsert flag and the driver; the
    driver is not reached. A query object without that key is handed to the
    driver unchanged, with the decoded update, and the modified count comes
    back. *)
Theorem update_many_by_identifier_raises
  (update_many : pyobj -> pyobj -> pyobj -> outcome (Z * Z))
  (queryJSON updateJSON : string) (upsert : pyobj) (query : Py.dict) (update : pyobj) :
  Json.loads queryJSON = Return (PyDict query) ->
  Json.loads updateJSON = Return update ->
  if Py.contains query (PyStr "_id")
  then exists msg,
         Keywords.update_many_mongodb_records update_many queryJSON updateJSON upsert
         = Raise (TypeError msg)
  else Keywords.update_many_mongodb_records update_many queryJSON updateJSON upsert
       = (counts <- update_many (PyDict query) update upsert ;;
          Return (PyInt (snd counts))).
Proof.
  intros Hq Hu. unfold Keywords.update_many_mongodb_records.
  rewrite Hq, Hu. cbn [bind]. rewrite contains__id. cbn [bind].
  destruct (Py.contains query (PyStr "_id")); cbn [bind PyOps.getitem];
    [eexists |]; reflexivity.
Qed.

Lemma update_many_by_identifier_raises_witness :
  (exists msg,
      Keywords.update_many_mongodb_records
        (fun _ _ _ => Return (1%Z, 1%Z))
        (Str.dq "{`_id`: `4dacab2d52dfbd26f1000000`}")
        (Str.dq "{`$set`: {`in_use`: true}}") (PyBool false)
      = Raise (TypeError msg))
  /\ Keywords.update_many_mongodb_records
       (fun _ _ _ => Return (3%Z, 2%Z))
       (Str.dq "{`type`: `basic_user`}")
       (Str.dq "{`$set`: {`in_use`: true}}") (PyBool false)
     = Return (PyInt 2).
Proof.
  split.
  - apply (update_many_by_identifier_raises
             (fun _ _ _ => Return (1%Z, 1%Z))
             (Str.dq "{`_id`: `4dacab2d52dfbd26f1000000`}")
             (Str.dq "{`$set`: {`in_use`: true}}") (PyBool false)
             [(PyStr "_id", PyStr "4dacab2d52dfbd26f1000000")]
             (PyDict [(PyStr "$set", PyDict [(PyStr "in_use", PyBool true)])]));
      vm_compute; reflexivity.
  - apply (update_many_by_identifier_raises
             (fun _ _ _ => Return (3%Z, 2%Z))
             (Str.dq "{`type`: `basic_user`}")
             (Str.dq "{`$set`: {`in_use`: true}}") (PyBool false)
             [(PyStr "type", PyStr "basic_user")]
             (PyDict [(PyStr "$set", PyDict [(PyStr "in_use", PyBool true)])]));
      vm_compute; reflexivity.
Defined.

(** X6. aggregate_mongodb_records needs its condition as text: with the
    default None, or with any other value that is false (the empty string
    among them) or is not text, json.loads is given a non-string and the
    keyword raises a TypeError before the driver is reached. *)
Theorem aggregate_without_text_raises
  (aggregate : pyobj -> outcome (list pyobj)) (aggregate_cond : pyobj) :
  is_text aggregate_cond && Py.truthy aggregate_cond = false ->
  exists msg,
    Keywords.aggregate_mongodb_records aggregate aggregate_cond = Raise (TypeError msg).
Proof.
  intros H. unfold Keywords.aggregate_mongodb_records.
  destruct aggregate_cond as [| b | n | s | s | l | l | l | d | o];
    try (destruct (Py.truthy _); eexists; reflexivity);
    destruct s; try discriminate; eexists; reflexivity.
Qed.

Lemma aggregate_without_text_raises_witness :
  (exists msg,
      Keywords.aggregate_mongodb_records (fun _ => Return []) PyNone
      = Raise (TypeError msg))
  /\ (exists msg,
        Keywords.aggregate_mongodb_records (fun _ => Return []) (PyStr EmptyString)
        = Raise (TypeError msg)).
Proof.
  split.
  - apply (aggregate_without_text_raises (fun _ => Return []) PyNone). reflexivity.
  - apply (aggregate_without_text_raises (fun _ => Return []) (PyStr EmptyString)).
    reflexivity.
Defined.

(** X7. get_mongodb_collection_count_with_condition needs its condition as
    text too: with the default, the empty dict, or any other value that is
    not text, json.loads raises a TypeError before the driver is reached. *)
Theorem count_with_condition_without_text_raises
  (count_documents : pyobj -> outcome Z) (conditionJSON : pyobj) :
  is_text conditionJSON = false ->
  exists msg,
    Keywords.get_mongodb_collection_count_with_condition count_documents conditionJSON
    = Raise (TypeError msg).
Proof.
  intros H. unfold Keywords.get_mongodb_collection_count_with_condition.
  destruct conditionJSON; try discriminate; eexists; reflexivity.
Qed.

Lemma count_with_condition_without_text_raises_witness :
  exists msg,
    Keywords.get_mongodb_collection_count_with_condition
      (fun _ => Return 0%Z) (PyDict [])
    = Raise (TypeError msg).
Proof.
  apply (count_with_condition_without_text_raises (fun _ => Return 0%Z) (PyDict [])).
  reflexivity.
Defined.

Lemma dict_returns_dict (o r : pyobj) :
  Keywords.dict_ o = Return r -> exists d, r = PyDict d.
Proof.
  destruct o; simpl; try discriminate.
  - destruct (Keywords.dict_update [] (Keywords.chars s)); simpl; try discriminate.
    intros H. injection H as <-. eauto.
  - destruct (Keywords.dict_update [] elts); simpl; try discriminate.
    intros H. injection H as <-. eauto.
  - destruct (Keywords.dict_update [] elts); simpl; try discriminate.
    intros H. injection H as <-. eauto.
  - destruct (Keywords.dict_update [] elts); simpl; try discriminate.
    intros H. injection H as <-. eauto.
  - intros H. injection H as <-. eauto.
Qed.

Lemma normalize_identifier_of_dict (d : Py.dict) (r : pyobj) :
  MongoQuery.normalize_identifier (PyDict d) = Return r ->
  exists d', r = PyDict d'
             /\ forall v, Py.get d' (PyStr "_id") = Some v -> exists oid, v = PyObjectId oid.
Proof.
  destruct (Py.get d (PyStr "_id")) as [v |] eqn:G.
  - rewrite (normalize_identifier_present d v G).
    destruct (Bson.ObjectId v) as [oid | e |]; simpl; try discriminate.
    intros H. injection H as <-. eexists. split; [reflexivity |].
    intros v'. rewrite get_setitem_same. intros E. injection E as <-. eauto.
  - rewrite (normalize_identifier_absent d G).
    intros H. injection H as <-. exists d. split; [reflexivity |].
    intros v. rewrite G. discriminate.
Qed.

Lemma bind_ext {A B : Type} (m : outcome A) (k1 k2 : A -> outcome B) :
  (forall x, k1 x = k2 x) -> bind m k1 = bind m k2.
Proof. intros H. destruct m; simpl; [apply H | reflexivity | reflexivity]. Qed.

Lemma bind_return {A : Type} (m : outcome A) : (x <- m ;; Return x) = m.
Proof. now destruct m. Qed.

(** X8. What insert_mongodb_record and save_mongodb_records hand to the
    driver is always a dict, and an "_id" in it is always an identifier
    object, never the text that was given; when the preparation of the
    record fails, the keywords raise that failure and the driver is not
    reached. *)
Theorem record_reaches_driver_as_dict
  (insert_one save : pyobj -> outcome pyobj) (recordJSON : string) :
  match Keywords.record_of_json recordJSON with
  | Return record =>
      (exists d,
          record = PyDict d
          /\ forall v, Py.get d (PyStr "_id") = Some v -> exists oid, v = PyObjectId oid)
      /\ Keywords.insert_mongodb_record insert_one recordJSON = insert_one record
      /\ Keywords.save_mongodb_records save recordJSON = save record
  | Raise e =>
      Keywords.insert_mongodb_record insert_one recordJSON = Raise e
      /\ Keywords.save_mongodb_records save recordJSON = Raise e
  | Unmodelled => True
  end.
Proof.
  unfold Keywords.insert_mongodb_record, Keywords.save_mongodb_records.
  destruct (Keywords.record_of_json recordJSON) as [record | e |] eqn:E;
    cbn [bind]; [| now split | exact I].
  rewrite !bind_return. split; [| now split].
  unfold Keywords.record_of_json in E.
  destruct (Json.loads recordJSON) as [decoded | |]; cbn [bind] in E; try discriminate.
  destruct (Keywords.dict_ decoded) as [r | |] eqn:D; cbn [bind] in E; try discriminate.
  destruct (dict_returns_dict _ _ D) as [d ->].
  exact (normalize_identifier_of_dict d record E).
Qed.

(** X9. A JSON text that decodes to a number, a boolean or null is refused
    with a TypeError by every keyword that builds its document with
    dict(json.loads(...)), before the driver is reached: insert, save,
    retrieve-and-update (as the query or as the update) and the conditional
    count. *)
Theorem scalar_json_is_refused (text : string) (v : pyobj) :
  Json.loads text = Return v ->
  is_scalar v = true ->
  (forall insert_one, exists msg,
      Keywords.insert_mongodb_record insert_one text = Raise (TypeError msg))
  /\ (forall save, exists msg,
        Keywords.save_mongodb_records save text = Raise (TypeError msg))
  /\ (forall find_one_and_update updateJSON flag, exists msg,
        Keywords.retrieve_and_update_one_mongodb_record
          find_one_and_update text updateJSON flag = Raise (TypeError msg))
  /\ (forall find_one_and_update queryJSON flag query,
        Json.loads queryJSON = Return (PyDict query) ->
        exists msg,
          Keywords.retrieve_and_update_one_mongodb_record
            find_one_and_update queryJSON text flag = Raise (TypeError msg))
  /\ (forall count_documents, exists msg,
        Keywords.get_mongodb_collection_count_with_condition count_documents (PyStr text)
        = Raise (TypeError msg)).
Proof.
  intros Hl Hs.
  assert (Hd : exists msg, Keywords.dict_ v = Raise (TypeError msg)).
  { destruct v; try discriminate; eexists; reflexivity. }
  destruct Hd as [msg Hd].
  repeat split; intros.
  - exists msg. unfold Keywords.insert_mongodb_record, Keywords.record_of_json.
    rewrite Hl. cbn [bind]. now rewrite Hd.
  - exists msg. unfold Keywords.save_mongodb_records, Keywords.record_of_json.
    rewrite Hl. cbn [bind]. now rewrite Hd.
  - exists msg. unfold Keywords.retrieve_and_update_one_mongodb_record.
    rewrite Hl. cbn [bind]. now rewrite Hd.
  - exists msg. unfold Keywords.retrieve_and_update_one_mongodb_record.
    rewrite H, Hl. cbn [bind Keywords.dict_]. now rewrite Hd.
  - exists msg. unfold Keywords.get_mongodb_collection_count_with_condition.
    cbn [Keywords.json_loads]. rewrite Hl. cbn [bind]. now rewrite Hd.
Qed.

Lemma scalar_json_is_refused_witness :
  exists msg,
    Keywords.insert_mongodb_record (fun _ => Return PyNone) "42" = Raise (TypeError msg).
Proof.
  apply (proj1 (scalar_json_is_refused "42" (PyInt 42) eq_refl eq_refl)).
Defined.

Lemma build_projection_returns (fields : string) (flag : pyobj) :
  exists data, MongoQuery.build_projection fields flag = Return data.
Proof.
  destruct fields as [| c fields].
  - unfold MongoQuery.build_projection.
    destruct (convert_return__id_returns flag) as [r ->]. eexists. reflexivity.
  - eexists. apply build_projection_nonempty. discriminate.
Qed.

(** X10. A criteria text that the literal parser refuses stops every
    retrieving keyword before the driver is reached: the keyword raises the
    parser's own exception, whose message starts with "Error parsing
    pythonish to json dict: ", whatever the fields, the flag, the rendering
    asked for and the driver are. *)
Theorem retrieval_stops_at_parse_error
  (find : pyobj -> option pyobj -> outcome (list Py.dict))
  (recordJSON fields : string) (return__id returnDocuments : pyobj) (e : exn) :
  MongoQuery.pythonish_to_json_dict recordJSON = Raise e ->
  Keywords.retrieve_some_mongodb_records find recordJSON returnDocuments = Raise e
  /\ MongoQuery.retrieve_mongodb_records_with_desired_fields
       find recordJSON fields return__id returnDocuments = Raise e
  /\ exists cause,
       e = Exception ("Error parsing pythonish to json dict: " ++ exn_str cause).
Proof.
  intros H. split; [| split].
  - unfold Keywords.retrieve_some_mongodb_records, MongoQuery._retrieve_mongodb_records.
    now rewrite H.
  - unfold MongoQuery.retrieve_mongodb_records_with_desired_fields,
      MongoQuery._retrieve_mongodb_records.
    destruct (build_projection_returns fields return__id) as [data ->].
    cbn [bind]. now rewrite H.
  - rewrite pythonish_to_json_dict_stages in H.
    destruct (MongoQuery.parse_and_revalidate _) as [v | cause |]; try discriminate.
    injection H as <-. now exists cause.
Qed.

Lemma retrieval_stops_at_parse_error_witness :
  Keywords.retrieve_some_mongodb_records
    (fun _ _ => Return [[(PyStr "a", PyInt 1)]]) "{bad json" (PyBool true)
  = Raise (Exception "Error parsing pythonish to json dict: '{' was never closed")
  /\ MongoQuery.retrieve_mongodb_records_with_desired_fields
       (fun _ _ => Return [[(PyStr "a", PyInt 1)]]) "{bad json" "a" (PyBool true)
       (PyBool true)
     = Raise (Exception "Error parsing pythonish to json dict: '{' was never closed")
  /\ exists cause,
       Exception "Error parsing pythonish to json dict: '{' was never closed"
       = Exception ("Error parsing pythonish to json dict: " ++ exn_str cause).
Proof.
  apply (retrieval_stops_at_parse_error
           (fun _ _ => Return [[(PyStr "a", PyInt 1)]]) "{bad json" "a"
           (PyBool true) (PyBool true)).
  vm_compute. reflexivity.
Defined.

Lemma scalar_has_no_members (v : pyobj) :
  is_scalar v = true ->
  exists msg, MongoQuery.normalize_identifier v = Raise (TypeError msg).
Proof.
  destruct v; try discriminate; intros _; eexists; reflexivity.
Qed.

(** X11. A criteria that is a number, a boolean or null is refused with a
    TypeError at the test for "_id", before the driver is reached: by the
    retrieving keywords when the criteria text parses to such a value, and
    by remove_mongodb_records and update_many_mongodb_records when the JSON
    text decodes to one. *)
Theorem scalar_criteria_is_refused (text : string) (v : pyobj) :
  is_scalar v = true ->
  (MongoQuery.pythonish_to_json_dict text = Return v ->
   forall find fields return__id returnDocuments,
     (exists msg,
         Keywords.retrieve_some_mongodb_records find text returnDocuments
         = Raise (TypeError msg))
     /\ (exists msg,
           MongoQuery.retrieve_mongodb_records_with_desired_fields
             find text fields return__id returnDocuments = Raise (TypeError msg)))
  /\ (Json.loads text = Return v ->
      (forall delete_many, exists msg,
          Keywords.remove_mongodb_records delete_many text = Raise (TypeError msg))
      /\ (forall update_many updateJSON upsert update,
             Json.loads updateJSON = Return update ->
             exists msg,
               Keywords.update_many_mongodb_records update_many text updateJSON upsert
               = Raise (TypeError msg))).
Proof.
  intros Hs. destruct (scalar_has_no_members v Hs) as [msg Hn].
  split.
  - intros Hp find fields return__id returnDocuments. split; exists msg.
    + unfold Keywords.retrieve_some_mongodb_records, MongoQuery._retrieve_mongodb_records.
      rewrite Hp. cbn [bind]. now rewrite Hn.
    + unfold MongoQuery.retrieve_mongodb_records_with_desired_fields,
        MongoQuery._retrieve_mongodb_records.
      destruct (build_projection_returns fields return__id) as [data ->].
      cbn [bind]. rewrite Hp. cbn [bind]. now rewrite Hn.
  - intros Hl. split.
    + intros delete_many. exists msg. unfold Keywords.remove_mongodb_records.
      rewrite Hl. cbn [bind]. now rewrite Hn.
    + intros update_many updateJSON upsert update Hu.
      unfold Keywords.update_many_mongodb_records. rewrite Hl, Hu. cbn [bind].
      destruct v; try discriminate; eexists; reflexivity.
Qed.

Lemma scalar_criteria_is_refused_witness :
  exists msg,
    Keywords.retrieve_some_mongodb_records (fun _ _ => Return []) "null" (PyBool false)
    = Raise (TypeError msg).
Proof.
  apply (proj1 (scalar_criteria_is_refused "null" PyNone eq_refl) eq_refl
           (fun _ _ => Return []) EmptyString (PyBool true) (PyBool false)).
Defined.

(** ** Text without a word *)

Lemma sub_from_nonword (word repl s : string) (prev : bool) :
  word <> EmptyString ->
  Str.all_chars Str.is_word word = true ->
  Str.all_chars (fun c => negb (Str.is_word c)) s = true ->
  Re.sub_from word repl prev 0 s = s.
Proof.
  intros Hne Hw. revert prev. induction s as [| c s IH]; intros prev H; [reflexivity |].
  simpl in H. apply andb_prop in H. destruct H as [Hc Hs].
  apply negb_true_iff in Hc.
  cbn [Re.sub_from]. rewrite matches_at_boundary.
  rewrite (boundary_after_nonword word (String c s) Hne Hw Hc).
  rewrite andb_false_r. now rewrite IH.
Qed.

Lemma normalize_literals_nonword (s : string) :
  Str.all_chars (fun c => negb (Str.is_word c)) s = true ->
  MongoQuery.normalize_literals s = s.
Proof.
  intros H. unfold MongoQuery.normalize_literals, Re.sub_word.
  rewrite (sub_from_nonword "false") by (auto; discriminate).
  rewrite (sub_from_nonword "true") by (auto; discriminate).
  now rewrite (sub_from_nonword "null") by (auto; discriminate).
Qed.

Lemma blank_is_not_word (c : ascii) :
  Ast.is_blank c = true -> negb (Str.is_word c) = true.
Proof.
  destruct c as [[] [] [] [] [] [] [] []]; vm_compute; congruence.
Qed.

Lemma all_chars_impl (P Q : ascii -> bool) (s : string) :
  (forall c, P c = true -> Q c = true) ->
  Str.all_chars P s = true -> Str.all_chars Q s = true.
Proof.
  intros HPQ. induction s as [| c s IH]; [reflexivity |].
  simpl. intros H. apply andb_prop in H. destruct H as [Hc Hs].
  now rewrite (HPQ c Hc), IH.
Qed.

Lemma lstrip_space_tab_blank (s : string) :
  Str.all_chars Ast.is_blank s = true -> Ast.lstrip_space_tab s = EmptyString.
Proof.
  induction s as [| c s IH]; [reflexivity |].
  simpl. intros H. apply andb_prop in H. destruct H as [Hc Hs].
  unfold Ast.is_blank in Hc. rewrite Hc. now apply IH.
Qed.

(** X12. A criteria text that is empty or made of spaces and tabs is not
    read as "no condition": the literal parser refuses it with its parse
    error (a syntax error), and so does retrieve_some_mongodb_records,
    without reaching the driver. *)
Theorem blank_criteria_is_a_parse_error (recordJSON : string) :
  Str.all_chars Ast.is_blank recordJSON = true ->
  MongoQuery.pythonish_to_json_dict recordJSON
  = Raise (MongoQuery.parse_error Ast.invalid_syntax)
  /\ forall find returnDocuments,
       Keywords.retrieve_some_mongodb_records find recordJSON returnDocuments
       = Raise (MongoQuery.parse_error Ast.invalid_syntax).
Proof.
  intros H.
  assert (Hp : MongoQuery.pythonish_to_json_dict recordJSON
               = Raise (MongoQuery.parse_error Ast.invalid_syntax)).
  { rewrite pythonish_to_json_dict_stages.
    rewrite normalize_literals_nonword
      by (revert H; apply all_chars_impl, blank_is_not_word).
    unfold MongoQuery.parse_and_revalidate, Ast.literal_eval.
    now rewrite (lstrip_space_tab_blank recordJSON H). }
  split; [exact Hp |].
  intros find returnDocuments.
  unfold Keywords.retrieve_some_mongodb_records, MongoQuery._retrieve_mongodb_records.
  now rewrite Hp.
Qed.

Lemma blank_criteria_is_a_parse_error_witness :
  MongoQuery.pythonish_to_json_dict "   "
  = Raise (MongoQuery.parse_error Ast.invalid_syntax)
  /\ forall find returnDocuments,
       Keywords.retrieve_some_mongodb_records find "   " returnDocuments
       = Raise (MongoQuery.parse_error Ast.invalid_syntax).
Proof.
  apply (blank_criteria_is_a_parse_error "   "). reflexivity.
Defined.

(** ** A field list of spaces *)

Lemma remove_char_all (old : ascii) (s : string) :
  Str.all_chars (Ascii.eqb old) s = true -> Str.remove_char old s = EmptyString.
Proof.
  induction s as [| c s IH]; [reflexivity |].
  simpl. intros H. apply andb_prop in H. destruct H as [Hc Hs].
  apply Ascii.eqb_eq in Hc. subst c. rewrite Ascii.eqb_refl. now apply IH.
Qed.

(** X13. A fields argument made of one or more spaces is not the empty
    field list: the spaces are removed, the one item left is the empty
    path, and the driver is given the projection with the empty path set
    to true and "_id" set to the resolved flag. *)
Theorem blank_fields_project_the_empty_path
  (find : pyobj -> option pyobj -> outcome (list Py.dict))
  (recordJSON fields : string) (return__id returnDocuments criteria criteria' : pyobj) :
  fields <> EmptyString ->
  Str.all_chars (Ascii.eqb " ") fields = true ->
  MongoQuery.pythonish_to_json_dict recordJSON = Return criteria ->
  MongoQuery.normalize_identifier criteria = Return criteria' ->
  MongoQuery.build_projection fields return__id
  = Return (PyDict [(PyStr EmptyString, PyBool true);
                    (PyStr "_id", PyBool (resolved_flag return__id))])
  /\ MongoQuery.retrieve_mongodb_records_with_desired_fields
       find recordJSON fields return__id returnDocuments
     = (results <-
          find criteria'
            (Some (PyDict [(PyStr EmptyString, PyBool true);
                           (PyStr "_id", PyBool (resolved_flag return__id))])) ;;
        Return (MongoQuery.serialize results returnDocuments)).
Proof.
  intros Hne Hsp Hc Hn.
  assert (Hb : MongoQuery.build_projection fields return__id
               = Return (PyDict [(PyStr EmptyString, PyBool true);
                                 (PyStr "_id", PyBool (resolved_flag return__id))])).
  { rewrite (build_projection_nonempty fields return__id Hne).
    unfold MongoQuery.field_items. now rewrite (remove_char_all " " fields Hsp). }
  split; [exact Hb |].
  unfold MongoQuery.retrieve_mongodb_records_with_desired_fields,
    MongoQuery._retrieve_mongodb_records.
  rewrite Hb. cbn [bind]. rewrite Hc. cbn [bind]. rewrite Hn. reflexivity.
Qed.

Lemma blank_fields_project_the_empty_path_witness :
  MongoQuery.build_projection "  " (PyStr "false")
  = Return (PyDict [(PyStr EmptyString, PyBool true);
                    (PyStr "_id", PyBool (resolved_flag (PyStr "false")))])
  /\ MongoQuery.retrieve_mongodb_records_with_desired_fields
       (fun _ _ => Return []) "{'a': 1}" "  " (PyStr "false") (PyBool true)
     = (results <-
          (fun _ _ => Return []) (PyDict [(PyStr "a", PyInt 1)])
            (Some (PyDict [(PyStr EmptyString, PyBool true);
                           (PyStr "_id", PyBool (resolved_flag (PyStr "false")))])) ;;
        Return (MongoQuery.serialize results (PyBool true))).
Proof.
  apply (blank_fields_project_the_empty_path
           (fun _ _ => Return []) "{'a': 1}" "  " (PyStr "false") (PyBool true)
           (PyDict [(PyStr "a", PyInt 1)]) (PyDict [(PyStr "a", PyInt 1)]));
    [discriminate | reflexivity | reflexivity | reflexivity].
Defined.

(** ** The raw text of a result *)

Lemma prefix_app (sub b : string) : String.prefix sub (sub ++ b) = true.
Proof.
  induction sub as [| c sub IH]; simpl; [now destruct b |].
  destruct (Ascii.ascii_dec c c) as [_ | N]; [exact IH | now elim N].
Qed.

Lemma contains_prefix (sub s : string) :
  String.prefix sub s = true -> Str.contains sub s = true.
Proof.
  intros H. destruct s; cbn [Str.contains]; now rewrite H.
Qed.

Lemma contains_app (sub a b : string) : Str.contains sub (a ++ sub ++ b) = true.
Proof.
  induction a as [| c a IH].
  - change (EmptyString ++ sub ++ b) with (sub ++ b).
    apply contains_prefix, prefix_app.
  - cbn [append Str.contains]. rewrite IH. apply orb_true_r.
Qed.

Lemma prefix_split (sub s : string) :
  String.prefix sub s = true -> exists y, s = sub ++ y.
Proof.
  revert s. induction sub as [| p sub IH]; intros s H.
  - now exists s.
  - destruct s as [| q s]; [discriminate |]. simpl in H.
    destruct (Ascii.ascii_dec p q) as [-> | _]; [| discriminate].
    destruct (IH s H) as [y ->]. now exists y.
Qed.

Lemma contains_split (sub s : string) :
  Str.contains sub s = true -> exists x y, s = x ++ sub ++ y.
Proof.
  induction s as [| c s IH]; intros H.
  - simpl in H. rewrite orb_false_r in H. destruct sub; [| discriminate].
    now exists EmptyString, EmptyString.
  - cbn [Str.contains] in H. apply orb_prop in H. destruct H as [H | H].
    + destruct (prefix_split _ _ H) as [y E]. now exists EmptyString, y.
    + destruct (IH H) as (x & y & ->). now exists (String c x), y.
Qed.

Lemma contains_inside (sub mid a b : string) :
  Str.contains sub mid = true -> Str.contains sub (a ++ mid ++ b) = true.
Proof.
  intros H. destruct (contains_split _ _ H) as (x & y & ->).
  replace (a ++ (x ++ sub ++ y) ++ b) with ((a ++ x) ++ sub ++ (y ++ b))
    by (now rewrite !append_assoc).
  apply contains_app.
Qed.

Lemma contains_trans (sub mid s : string) :
  Str.contains sub mid = true -> Str.contains mid s = true ->
  Str.contains sub s = true.
Proof.
  intros H1 H2. destruct (contains_split _ _ H2) as (x & y & ->).
  now apply contains_inside.
Qed.

Lemma join_holds_item (sep x : string) (l : list string) :
  In x l -> exists a b, Str.join sep l = a ++ x ++ b.
Proof.
  induction l as [| y l IH]; [intros [] |].
  intros [-> | H].
  - destruct l as [| z l].
    + exists EmptyString, EmptyString. simpl. now rewrite append_empty_r.
    + exists EmptyString, (sep ++ Str.join sep (z :: l)). reflexivity.
  - destruct (IH H) as (a & b & E).
    destruct l as [| z l]; [destruct H |].
    exists (y ++ sep ++ a), b.
    change (Str.join sep (y :: z :: l)) with (y ++ sep ++ Str.join sep (z :: l)).
    rewrite E. now rewrite !append_assoc.
Qed.

Lemma raw_response_join (docs : list Py.dict) :
  MongoQuery.raw_response docs = Str.join EmptyString (map Py.items_str docs).
Proof. unfold MongoQuery.raw_response. now rewrite raw_response_from. Qed.

Lemma join_empty_app (l1 l2 : list string) :
  Str.join EmptyString (l1 ++ l2)
  = Str.join EmptyString l1 ++ Str.join EmptyString l2.
Proof.
  induction l1 as [| x l1 IH]; [reflexivity |].
  change ((x :: l1) ++ l2)%list with (x :: (l1 ++ l2))%list.
  now rewrite !join_empty_cons, IH, append_assoc.
Qed.

(** X14. The raw text of a result holds, for every document of the cursor
    and every entry of that document, the rendering "(key, value)" of the
    entry, and so the rendering of the value: what a test then looks for
    with Should Contain is there. The raw text of two results one after
    the other is the raw text of the first followed by that of the second,
    and it is empty only when the cursor yields no document. *)
Theorem raw_response_holds_every_entry :
  (forall (docs : list Py.dict) (d : Py.dict) (k v : pyobj),
      In d docs -> In (k, v) d ->
      Str.contains ("(" ++ Py.repr k ++ ", " ++ Py.repr v ++ ")")
                   (MongoQuery.raw_response docs) = true
      /\ Str.contains (Py.repr v) (MongoQuery.raw_response docs) = true)
  /\ (forall docs1 docs2,
         MongoQuery.raw_response (docs1 ++ docs2)
         = MongoQuery.raw_response docs1 ++ MongoQuery.raw_response docs2)
  /\ (forall docs, MongoQuery.raw_response docs = EmptyString <-> docs = []).
Proof.
  split; [| split].
  - intros docs d k v Hd Hkv.
    assert (Hentry :
              Str.contains ("(" ++ Py.repr k ++ ", " ++ Py.repr v ++ ")")
                           (MongoQuery.raw_response docs) = true).
    { rewrite raw_response_join.
      destruct (join_holds_item EmptyString (Py.items_str d) (map Py.items_str docs))
        as (a & b & ->); [now apply in_map |].
      apply contains_inside. unfold Py.items_str.
      destruct (join_holds_item ", " ("(" ++ Py.repr k ++ ", " ++ Py.repr v ++ ")")
                  (map (fun kv => "(" ++ Py.repr (fst kv) ++ ", "
                                  ++ Py.repr (snd kv) ++ ")") d))
        as (x & y & ->).
      { apply (in_map (fun kv => "(" ++ Py.repr (fst kv) ++ ", "
                                 ++ Py.repr (snd kv) ++ ")") d (k, v) Hkv). }
      replace ("dict_items([" ++ (x ++ ("(" ++ Py.repr k ++ ", " ++ Py.repr v ++ ")") ++ y)
               ++ "])")
        with (("dict_items([" ++ x) ++ ("(" ++ Py.repr k ++ ", " ++ Py.repr v ++ ")")
              ++ (y ++ "])"))
        by (now rewrite !append_assoc).
      apply contains_app. }
    split; [exact Hentry |].
    apply (contains_trans _ _ _ (contains_app (Py.repr v) ("(" ++ Py.repr k ++ ", ") ")")).
    rewrite !append_assoc. exact Hentry.
  - intros docs1 docs2. rewrite !raw_response_join, map_app. apply join_empty_app.
  - intros docs. split; [| now intros ->].
    destruct docs as [| d docs]; [reflexivity |].
    rewrite raw_response_join. cbn [map]. rewrite join_empty_cons.
    unfold Py.items_str. discriminate.
Qed.

(** ** The identifier, in every keyword that takes a document *)

Lemma normalize_identifier_with_identifier (d : Py.dict) :
  MongoQuery.normalize_identifier (PyDict d) = with_identifier d.
Proof.
  unfold with_identifier. destruct (Py.get d (PyStr "_id")) as [v |] eqn:G.
  - rewrite (normalize_identifier_present d v G). now destruct (Bson.ObjectId v).
  - apply (normalize_identifier_absent d G).
Qed.

(** X15. When the JSON text decodes to an object, insert, save, remove and
    retrieve-and-update hand the driver that object with one change at
    most: an "_id" entry is replaced, in place, by the identifier built
    from it. When the identifier cannot be built, each of them raises the
    constructor's exception and the driver is not reached; without an
    "_id" the object goes to the driver as it was decoded. *)
Theorem identifier_is_normalized_before_the_driver (text : string) (d : Py.dict) :
  Json.loads text = Return (PyDict d) ->
  (forall insert_one,
      Keywords.insert_mongodb_record insert_one text
      = (document <- with_identifier d ;; insert_one document))
  /\ (forall save,
         Keywords.save_mongodb_records save text
         = (document <- with_identifier d ;; save document))
  /\ (forall delete_many,
         Keywords.remove_mongodb_records delete_many text
         = (document <- with_identifier d ;; delete_many document))
  /\ (forall find_one_and_update updateJSON update flag,
         Json.loads updateJSON = Return (PyDict update) ->
         Keywords.retrieve_and_update_one_mongodb_record
           find_one_and_update text updateJSON flag
         = (document <- with_identifier d ;;
            find_one_and_update document (PyDict update)
              (Keywords.document_to_return flag))).
Proof.
  intros Hl.
  unfold Keywords.insert_mongodb_record, Keywords.save_mongodb_records,
    Keywords.remove_mongodb_records, Keywords.retrieve_and_update_one_mongodb_record,
    Keywords.record_of_json.
  rewrite Hl. cbn [bind Keywords.dict_].
  rewrite normalize_identifier_with_identifier.
  repeat split; intros.
  - apply bind_ext. intros document. apply bind_return.
  - apply bind_ext. intros document. apply bind_return.
  - rewrite H. reflexivity.
Qed.

Lemma identifier_is_normalized_before_the_driver_witness :
  Keywords.remove_mongodb_records (fun criteria => Return criteria)
    (Str.dq "{`_id`: `4dacab2d52dfbd26f1000000`}")
  = Return (PyDict [(PyStr "_id",
                     PyObjectId (mkDocumentId "4dacab2d52dfbd26f1000000"))])
  /\ exists msg,
       Keywords.remove_mongodb_records (fun criteria => Return criteria)
         (Str.dq "{`_id`: `7`}")
       = Raise (InvalidId msg).
Proof.
  split; [| eexists].
  - apply (proj1 (proj2 (proj2
      (identifier_is_normalized_before_the_driver
         (Str.dq "{`_id`: `4dacab2d52dfbd26f1000000`}")
         [(PyStr "_id", PyStr "4dacab2d52dfbd26f1000000")] eq_refl)))).
  - apply (proj1 (proj2 (proj2
      (identifier_is_normalized_before_the_driver
         (Str.dq "{`_id`: `7`}") [(PyStr "_id", PyStr "7")] eq_refl)))).
Defined.

(** ** The flags *)

(** X16. Two flags are read as Python objects, not as text.
    returnBeforeDocument selects the document before the update only when
    it is the boolean True: any other value, the text "True" included,
    gives what False gives. returnDocuments is read by its truth value: any
    non-empty text, "False" included, gives what True gives. *)
Theorem flags_are_not_read_as_text :
  (forall find_one_and_update queryJSON updateJSON flag,
      flag <> PyBool true ->
      Keywords.retrieve_and_update_one_mongodb_record
        find_one_and_update queryJSON updateJSON flag
      = Keywords.retrieve_and_update_one_mongodb_record
          find_one_and_update queryJSON updateJSON (PyBool false))
  /\ (forall find recordJSON fields return__id s,
         s <> EmptyString ->
         Keywords.retrieve_all_mongodb_records find (PyStr s)
         = Keywords.retrieve_all_mongodb_records find (PyBool true)
         /\ Keywords.retrieve_some_mongodb_records find recordJSON (PyStr s)
            = Keywords.retrieve_some_mongodb_records find recordJSON (PyBool true)
         /\ MongoQuery.retrieve_mongodb_records_with_desired_fields
              find recordJSON fields return__id (PyStr s)
            = MongoQuery.retrieve_mongodb_records_with_desired_fields
                find recordJSON fields return__id (PyBool true)).
Proof.
  split.
  - intros f q u flag H. unfold Keywords.retrieve_and_update_one_mongodb_record.
    replace (Keywords.document_to_return flag) with Keywords.AFTER; [reflexivity |].
    destruct flag as [| [] | | | | | | | |]; try reflexivity. now elim H.
  - intros find recordJSON fields return__id s H.
    assert (Hs : forall results,
               MongoQuery.serialize results (PyStr s)
               = MongoQuery.serialize results (PyBool true)).
    { intros results. unfold MongoQuery.serialize.
      destruct s; [now elim H | reflexivity]. }
    unfold Keywords.retrieve_all_mongodb_records, Keywords.retrieve_some_mongodb_records,
      MongoQuery.retrieve_mongodb_records_with_desired_fields,
      MongoQuery._retrieve_mongodb_records.
    repeat split; repeat (apply bind_ext; intros ?); now rewrite Hs.
Qed.

(** ** Everything, and the spelling of a literal *)

(** X17. retrieve_all_mongodb_records never fails before the driver: its
    fixed criteria text parses to the empty dict, which has no "_id", and
    the driver is asked for it without a projection; the result is what
    retrieve_some_mongodb_records gives for the text of an empty dict in
    either quoting-free spelling. *)
Theorem retrieve_all_asks_for_everything
  (find : pyobj -> option pyobj -> outcome (list Py.dict)) (returnDocuments : pyobj) :
  Keywords.retrieve_all_mongodb_records find returnDocuments
  = (results <- find (PyDict []) None ;;
     Return (MongoQuery.serialize results returnDocuments))
  /\ Keywords.retrieve_all_mongodb_records find returnDocuments
     = Keywords.retrieve_some_mongodb_records find " { } " returnDocuments
  /\ Keywords.retrieve_all_mongodb_records find returnDocuments
     = MongoQuery.retrieve_mongodb_records_with_desired_fields
         find "{}" EmptyString (PyBool true) returnDocuments.
Proof.
  repeat split.
Qed.

(** X3. The letter case of a reserved token does not matter to the parser:
    two ASCII texts that differ only in the spelling of one whole-word
    true, false or null (TRUE, True, tRuE ...) have the same outcome, a
    value or an error, which is also the outcome for the text with the
    Python spelling (True, False, None) in its place. *)
Theorem literal_case_is_free (pre w w' post token canon : string) :
  Str.all_chars Str.is_ascii (pre ++ post) = true ->
  In (token, canon) reserved ->
  Str.lower w = token ->
  Str.lower w' = token ->
  ends_with_word_char pre = false ->
  Re.starts_with_word_char post = false ->
  MongoQuery.pythonish_to_json_dict (pre ++ w ++ post)
  = MongoQuery.pythonish_to_json_dict (pre ++ w' ++ post)
  /\ MongoQuery.pythonish_to_json_dict (pre ++ w ++ post)
     = MongoQuery.pythonish_to_json_dict (pre ++ canon ++ post).
Proof.
  intros _ Hin Hw Hw' Hpre Hpost.
  assert (Hc : MongoQuery.normalize_literals canon = canon).
  { destruct Hin as [E | [E | [E | []]]]; injection E as _ <-; reflexivity. }
  rewrite !pythonish_to_json_dict_stages.
  rewrite !normalize_literals_between by assumption.
  rewrite (normalize_literals_reserved w token canon Hin Hw).
  rewrite (normalize_literals_reserved w' token canon Hin Hw').
  rewrite Hc.
  split; reflexivity.
Qed.

Lemma literal_case_is_free_witness :
  MongoQuery.pythonish_to_json_dict ("{'in_use': " ++ "FALSE" ++ "}")
  = MongoQuery.pythonish_to_json_dict ("{'in_use': " ++ "false" ++ "}")
  /\ MongoQuery.pythonish_to_json_dict ("{'in_use': " ++ "FALSE" ++ "}")
     = MongoQuery.pythonish_to_json_dict ("{'in_use': " ++ "False" ++ "}").
Proof.
  apply (literal_case_is_free "{'in_use': " "FALSE" "false" "}" "false" "False");
    [reflexivity | now left | reflexivity | reflexivity | reflexivity | reflexivity].
Defined.

(** ** The values the JSON decoder builds *)

Lemma json_safe_list (l : list pyobj) :
  json_safe (PyList l) = forallb json_safe l.
Proof.
  induction l as [| x l IH]; [reflexivity |].
  change (json_safe (PyList (x :: l))) with (json_safe x && json_safe (PyList l)).
  now rewrite IH.
Qed.

Lemma json_safe_dict_cons (k v : pyobj) (r : Py.dict) :
  json_safe (PyDict ((k, v) :: r))
  = match k with
    | PyStr s => Str.all_chars Str.is_ascii s
    | _ => false
    end
    && negb (Py.contains r k) && json_safe v && json_safe (PyDict r).
Proof. reflexivity. Qed.

Lemma json_safe_setitem (d : Py.dict) (s : string) (v : pyobj) :
  json_safe (PyDict d) = true ->
  Str.all_chars Str.is_ascii s = true ->
  json_safe v = true ->
  json_safe (PyDict (Py.setitem d (PyStr s) v)) = true.
Proof.
  intros Hd Hs Hv. induction d as [| [k' v'] d IH].
  - cbn [Py.setitem]. rewrite json_safe_dict_cons, Hs, Hv. reflexivity.
  - rewrite json_safe_dict_cons in Hd.
    apply andb_prop in Hd. destruct Hd as [Hd Hrest].
    apply andb_prop in Hd. destruct Hd as [Hd Hv'].
    apply andb_prop in Hd. destruct Hd as [Hk Hnew].
    cbn [Py.setitem]. destruct (Py.eq k' (PyStr s)) eqn:E.
    + rewrite json_safe_dict_cons, Hk, Hnew, Hv, Hrest. reflexivity.
    + rewrite json_safe_dict_cons, Hk, Hv', (IH Hrest).
      unfold Py.contains in *. rewrite get_setitem_other; [now rewrite Hnew |].
      intros ->. simpl in E. now rewrite String.eqb_refl in E.
Qed.

Lemma is_ascii_of_nat (n : nat) :
  (127 <? n)%nat = false -> Str.is_ascii (ascii_of_nat n) = true.
Proof.
  intros H. apply Nat.ltb_ge in H. unfold Str.is_ascii, Str.code.
  rewrite nat_ascii_embedding by lia. apply Nat.ltb_lt. lia.
Qed.

Lemma emit_returns (n : nat) (r : outcome (string * string)) (t rest : string) :
  Json.emit n r = Return (t, rest) ->
  exists t', r = Return (t', rest)
             /\ t = String (ascii_of_nat n) t' /\ (127 <? n)%nat = false.
Proof.
  unfold Json.emit. destruct (127 <? n)%nat; [discriminate |].
  destruct r as [[t' rest'] | |]; simpl; try discriminate.
  intros H. injection H as <- <-. now exists t'.
Qed.

Ltac break_if H :=
  match type of H with
  | context [if ?b then _ else _] => destruct b eqn:?
  end.

Lemma scan_string_ascii (s : string) :
  forall st t rest,
    Json.scan_string st s = Return (t, rest) -> Str.all_chars Str.is_ascii t = true.
Proof.
  induction s as [| c s IH]; intros st t rest H; [discriminate |].
  assert (Hemit : forall n, Json.emit n (Json.scan_string Json.InText s) = Return (t, rest) ->
                            Str.all_chars Str.is_ascii t = true).
  { intros n He. destruct (emit_returns _ _ _ _ He) as (t' & Hr & -> & Hn).
    simpl. now rewrite (is_ascii_of_nat n Hn), (IH _ _ _ Hr). }
  cbn [Json.scan_string] in H. destruct st as [| | need acc].
  - repeat (break_if H; try discriminate); eauto.
    now injection H as <- _.
  - repeat (break_if H; try discriminate); eauto.
  - destruct (Ast.hex_value c) as [v |].
    + destruct need as [| [| need]]; eauto.
    + break_if H; discriminate.
Qed.

Lemma forallb_reversed {A : Type} (f : A -> bool) (l : list A) :
  forallb f (List.rev l) = forallb f l.
Proof.
  induction l as [| x l IH]; [reflexivity |].
  cbn [List.rev]. rewrite forallb_app, IH. simpl. rewrite andb_true_r. apply andb_comm.
Qed.

Lemma forallb_rev_cons (x : pyobj) (acc : list pyobj) :
  json_safe x = true -> forallb json_safe acc = true ->
  json_safe (PyList (List.rev (x :: acc))) = true.
Proof.
  intros Hx Hacc. rewrite json_safe_list. cbn [List.rev].
  rewrite forallb_app, forallb_reversed, Hacc. simpl. now rewrite Hx.
Qed.

Lemma scan_once_json_safe (fuel : nat) :
  (forall s v rest, Json.scan_once fuel s = Return (v, rest) -> json_safe v = true)
  /\ (forall acc first s v rest,
         forallb json_safe acc = true ->
         Json.parse_array fuel acc first s = Return (v, rest) -> json_safe v = true)
  /\ (forall acc first s v rest,
         json_safe (PyDict acc) = true ->
         Json.parse_object fuel acc first s = Return (v, rest) -> json_safe v = true).
Proof.
  induction fuel as [| fuel (IHonce & IHarray & IHobject)];
    [repeat split; intros; discriminate |].
  split; [| split].
  - intros s v rest H. cbn [Json.scan_once] in H.
    destruct s as [| c s']; [discriminate |].
    destruct (Ascii.eqb c Str.dquote).
    { destruct (Json.scan_string Json.InText s') as [[t r] | |] eqn:E;
        cbn [bind fst snd] in H; try discriminate.
      injection H as <- _. simpl. exact (scan_string_ascii _ _ _ _ E). }
    destruct (Ascii.eqb c "{"); [exact (IHobject [] _ _ _ _ eq_refl H) |].
    destruct (Ascii.eqb c "["); [exact (IHarray [] _ _ _ _ eq_refl H) |].
    destruct (String.prefix "null" (String c s')); [now injection H as <- _ |].
    destruct (String.prefix "true" (String c s')); [now injection H as <- _ |].
    destruct (String.prefix "false" (String c s')); [now injection H as <- _ |].
    destruct (Json.scan_int (String c s')) as [[n r] |].
    + break_if H; [discriminate |]. now injection H as <- _.
    + break_if H; discriminate.
  - intros acc first s v rest Hacc H. cbn [Json.parse_array] in H.
    assert (Hstep :
              (v0 <- Json.scan_once fuel s ;;
               match Json.skip_ws (snd v0) with
               | String "," rest0 =>
                   Json.parse_array fuel (fst v0 :: acc) false (Json.skip_ws rest0)
               | String "]" rest0 => Return (PyList (List.rev (fst v0 :: acc)), rest0)
               | _ => Raise (Json.decode_error "Expecting ',' delimiter")
               end) = Return (v, rest) -> json_safe v = true).
    { clear H. intros H.
      destruct (Json.scan_once fuel s) as [[x r] | |] eqn:E;
        cbn [bind fst snd] in H; try discriminate.
      pose proof (IHonce _ _ _ E) as Hx.
      destruct (Json.skip_ws r) as [| q r']; [discriminate |].
      destruct (Ascii.eqb q ",") eqn:Eq1.
      - apply Ascii.eqb_eq in Eq1. subst q.
        refine (IHarray (x :: acc) false _ _ _ _ H). simpl. now rewrite Hx.
      - destruct (Ascii.eqb q "]") eqn:Eq2.
        + apply Ascii.eqb_eq in Eq2. subst q. injection H as <- _.
          now apply forallb_rev_cons.
        + destruct q as [[] [] [] [] [] [] [] []]; try discriminate. }
    destruct s as [| c s']; [exact (Hstep H) |].
    destruct (Ascii.eqb c "]") eqn:Ec.
    + apply Ascii.eqb_eq in Ec. subst c.
      destruct first; [| discriminate]. injection H as <- _.
      rewrite json_safe_list, forallb_reversed. exact Hacc.
    + apply Hstep. destruct c as [[] [] [] [] [] [] [] []]; try exact H; discriminate.
  - intros acc first s v rest Hacc H. cbn [Json.parse_object] in H.
    destruct s as [| c s']; [discriminate |].
    destruct (Ascii.eqb c "}") eqn:Ec.
    + apply Ascii.eqb_eq in Ec. subst c.
      destruct first; [| discriminate]. now injection H as <- _.
    + assert (H' :
                (if Ascii.eqb c Str.dquote then
                   k <- Json.scan_string Json.InText s' ;;
                   match Json.skip_ws (snd k) with
                   | String ":" r1 =>
                       v0 <- Json.scan_once fuel (Json.skip_ws r1) ;;
                       let acc' := Py.setitem acc (PyStr (fst k)) (fst v0) in
                       match Json.skip_ws (snd v0) with
                       | String "," r2 => Json.parse_object fuel acc' false (Json.skip_ws r2)
                       | String "}" r2 => Return (PyDict acc', r2)
                       | _ => Raise (Json.decode_error "Expecting ',' delimiter")
                       end
                   | _ => Raise (Json.decode_error "Expecting ':' delimiter")
                   end
                 else Raise (Json.decode_error
                               "Expecting property name enclosed in double quotes"))
                = Return (v, rest)).
      { destruct c as [[] [] [] [] [] [] [] []]; try exact H; discriminate. }
      clear H. destruct (Ascii.eqb c Str.dquote); [| discriminate].
      destruct (Json.scan_string Json.InText s') as [[k r] | |] eqn:Ek;
        cbn [bind fst snd] in H'; try discriminate.
      pose proof (scan_string_ascii _ _ _ _ Ek) as Hk.
      destruct (Json.skip_ws r) as [| q r1]; [discriminate |].
      destruct (Ascii.eqb q ":") eqn:Eq.
      2:{ destruct q as [[] [] [] [] [] [] [] []]; discriminate. }
      apply Ascii.eqb_eq in Eq. subst q.
      destruct (Json.scan_once fuel (Json.skip_ws r1)) as [[x r2] | |] eqn:Ex;
        cbn [bind fst snd] in H'; try discriminate.
      pose proof (IHonce _ _ _ Ex) as Hx.
      pose proof (json_safe_setitem acc k x Hacc Hk Hx) as Hacc'.
      cbv zeta in H'.
      destruct (Json.skip_ws r2) as [| q r3]; [discriminate |].
      destruct (Ascii.eqb q ",") eqn:Eq1.
      * apply Ascii.eqb_eq in Eq1. subst q. exact (IHobject _ _ _ _ _ Hacc' H').
      * destruct (Ascii.eqb q "}") eqn:Eq2.
        -- apply Ascii.eqb_eq in Eq2. subst q. now injection H' as <- _.
        -- destruct q as [[] [] [] [] [] [] [] []]; discriminate.
Qed.

Lemma loads_json_safe (s : string) (v : pyobj) :
  Json.loads s = Return v -> json_safe v = true.
Proof.
  unfold Json.loads. intros H.
  destruct (Json.scan_once _ _) as [[x r] | |] eqn:E; cbn [bind fst snd] in H;
    try discriminate.
  destruct (Json.skip_ws r); [| discriminate]. injection H as <-.
  exact (proj1 (scan_once_json_safe _) _ _ _ E).
Qed.

(** ** Decoding what the encoder wrote *)

Lemma scan_encoded_char (c : ascii) (s tail : string) :
  Str.is_ascii c = true ->
  Json.scan_string Json.InText (Json.encode_chars (String c s) ++ tail)
  = Json.emit (Str.code c) (Json.scan_string Json.InText (Json.encode_chars s ++ tail)).
Proof.
  destruct c as [[] [] [] [] [] [] [] []]; intros H; try discriminate H; reflexivity.
Qed.

Lemma scan_encoded_chars (s rest : string) :
  Str.all_chars Str.is_ascii s = true ->
  Json.scan_string Json.InText (Json.encode_chars s ++ String Str.dquote rest)
  = Return (s, rest).
Proof.
  induction s as [| c s IH]; intros H; [reflexivity |].
  simpl in H. apply andb_prop in H. destruct H as [Hc Hs].
  rewrite (scan_encoded_char c s _ Hc), (IH Hs).
  unfold Json.emit. unfold Str.is_ascii in Hc. apply Nat.ltb_lt in Hc.
  replace (127 <? Str.code c)%nat with false by (symmetry; apply Nat.ltb_ge; lia).
  cbn [bind fst snd]. unfold Str.code. now rewrite ascii_nat_embedding.
Qed.

(** *** Integers *)

Lemma int_of_digits_acc (d : Decimal.uint) (acc : positive) :
  Ast.int_of_digits (Z.pos acc) (NilEmpty.string_of_uint d)
  = Z.pos (Pos.of_uint_acc d acc).
Proof.
  revert acc. induction d; intros acc; cbn [NilEmpty.string_of_uint Pos.of_uint_acc];
    [reflexivity | ..]; cbn [Ast.int_of_digits]; rewrite <- IHd; f_equal;
    vm_compute Str.code; lia.
Qed.

Lemma int_of_digits_uint (d : Decimal.uint) :
  Ast.int_of_digits 0 (NilEmpty.string_of_uint d) = Z.of_N (Pos.of_uint d).
Proof.
  induction d; cbn [NilEmpty.string_of_uint Pos.of_uint Ast.int_of_digits];
    [reflexivity | exact IHd | ..]; apply (int_of_digits_acc d).
Qed.

Lemma span_digits (d : Decimal.uint) (rest : string) :
  Ast.starts_with Str.is_digit rest = false ->
  Ast.span Str.is_digit (NilEmpty.string_of_uint d ++ rest)
  = (NilEmpty.string_of_uint d, rest).
Proof.
  intros H. induction d; cbn [NilEmpty.string_of_uint append Ast.span];
    [| change (Str.is_digit _) with true; cbv iota; now rewrite IHd ..].
  destruct rest as [| c rest]; [reflexivity |]. simpl in *. now rewrite H.
Qed.

Lemma to_uint_head (p : positive) :
  match Pos.to_uint p with
  | Decimal.Nil | Decimal.D0 _ => False
  | _ => True
  end.
Proof.
  pose proof (DecimalPos.Unsigned.to_of (Pos.to_uint p)) as H.
  rewrite DecimalPos.Unsigned.of_to in H. simpl in H.
  pose proof (DecimalPos.Unsigned.to_uint_nonzero p) as Hz.
  pose proof (DecimalFacts.nzhead_nonzero (Pos.to_uint p)) as Hn.
  unfold Decimal.unorm in H.
  destruct (Decimal.nzhead (Pos.to_uint p)) eqn:E;
    try (rewrite H; exact I).
  - now elim Hz.
  - now elim (Hn u).
Qed.

Lemma int_of_digits_pos (p : positive) :
  Ast.int_of_digits 0 (NilEmpty.string_of_uint (Pos.to_uint p)) = Z.pos p.
Proof.
  now rewrite int_of_digits_uint, DecimalPos.Unsigned.of_to.
Qed.

(** The digits of a positive number, as [scan_int] reads them. *)
Lemma scan_digits (p : positive) (rest : string) :
  Ast.starts_with Str.is_digit rest = false ->
  exists c t,
    NilEmpty.string_of_uint (Pos.to_uint p) = String c t
    /\ Str.is_digit c = true /\ Ascii.eqb c "0" = false
    /\ Ast.span Str.is_digit (String c t ++ rest) = (String c t, rest)
    /\ Ast.int_of_digits 0 (String c t) = Z.pos p.
Proof.
  intros H. pose proof (to_uint_head p) as Hh.
  pose proof (span_digits (Pos.to_uint p) rest H) as Hs.
  pose proof (int_of_digits_pos p) as Hv.
  destruct (Pos.to_uint p); try contradiction;
    cbn [NilEmpty.string_of_uint] in *; eexists; eexists;
    (split; [reflexivity |]); (split; [reflexivity |]); (split; [reflexivity |]);
    (split; [exact Hs | exact Hv]).
Qed.

Lemma int_str_pos (p : positive) :
  Py.int_str (Z.pos p) = NilEmpty.string_of_uint (Pos.to_uint p).
Proof.
  unfold Py.int_str. cbn [Z.to_int NilZero.string_of_int NilZero.string_of_uint].
  pose proof (DecimalPos.Unsigned.to_uint_nonnil p) as H.
  destruct (Pos.to_uint p); [now elim H | reflexivity ..].
Qed.

Lemma int_str_neg (p : positive) :
  Py.int_str (Z.neg p) = String "-" (NilEmpty.string_of_uint (Pos.to_uint p)).
Proof.
  unfold Py.int_str. cbn [Z.to_int NilZero.string_of_int NilZero.string_of_uint].
  pose proof (DecimalPos.Unsigned.to_uint_nonnil p) as H.
  destruct (Pos.to_uint p); [now elim H | reflexivity ..].
Qed.

Lemma scan_int_digits (c : ascii) (t rest : string) (neg : bool) :
  Str.is_digit c = true -> Ascii.eqb c "0" = false ->
  Ast.span Str.is_digit (String c t ++ rest) = (String c t, rest) ->
  Json.scan_int (if neg then String "-" (String c t ++ rest) else String c t ++ rest)
  = Some (if neg then (- Ast.int_of_digits 0 (String c t))%Z
          else Ast.int_of_digits 0 (String c t), rest).
Proof.
  intros Hd Hz Hs.
  assert (Hbody :
            forall body, body = String c t ++ rest ->
              match body with
              | String "0" rest0 => Some (0%Z, rest0)
              | String c0 _ =>
                  if Str.is_digit c0 then
                    let (ds, rest0) := Ast.span Str.is_digit body in
                    let n := Ast.int_of_digits 0 ds in
                    Some (if neg then (- n)%Z else n, rest0)
                  else None
              | EmptyString => None
              end
              = Some (if neg then (- Ast.int_of_digits 0 (String c t))%Z
                      else Ast.int_of_digits 0 (String c t), rest)).
  { intros body ->. rewrite Hs. cbn [append].
    destruct c as [[] [] [] [] [] [] [] []]; try discriminate Hd; try discriminate Hz;
      reflexivity. }
  unfold Json.scan_int. destruct neg.
  - apply Hbody. reflexivity.
  - cbn [append].
    destruct c as [[] [] [] [] [] [] [] []]; try discriminate Hd; try discriminate Hz;
      apply (Hbody _ eq_refl).
Qed.

Lemma ends_value_not_digit (rest : string) :
  ends_value rest = true -> Ast.starts_with Str.is_digit rest = false.
Proof.
  destruct rest as [| c rest]; [reflexivity |]. simpl.
  destruct c as [[] [] [] [] [] [] [] []]; vm_compute; congruence.
Qed.

Lemma ends_value_not_fraction (rest : string) :
  ends_value rest = true ->
  Ast.starts_with (fun x => Ascii.eqb x "." || Ascii.eqb x "e" || Ascii.eqb x "E") rest
  = false.
Proof.
  destruct rest as [| c rest]; [reflexivity |]. simpl.
  destruct c as [[] [] [] [] [] [] [] []]; vm_compute; congruence.
Qed.

Lemma scan_once_number (fuel : nat) (c : ascii) (s rest : string) (n : Z) :
  Str.is_digit c || Ascii.eqb c "-" = true ->
  Json.scan_int (String c s) = Some (n, rest) ->
  ends_value rest = true ->
  Json.scan_once (S fuel) (String c s) = Return (PyInt n, rest).
Proof.
  intros Hc Hs Hr. pose proof (ends_value_not_fraction rest Hr) as Hf.
  cbn [Json.scan_once].
  destruct c as [[] [] [] [] [] [] [] []]; try discriminate Hc;
    cbn [Ascii.eqb Bool.eqb Str.dquote ascii_of_nat ascii_of_pos andb];
    simpl String.prefix; cbv iota; rewrite Hs, Hf; reflexivity.
Qed.

Lemma json_size_list (l : list pyobj) : json_size (PyList l) = 2 + sizes l.
Proof. reflexivity. Qed.

Lemma json_size_dict (d : Py.dict) : json_size (PyDict d) = 2 + sizes (map snd d).
Proof.
  cbn [json_size]. f_equal.
  unfold sizes. induction d as [| [k v] d IH]; [reflexivity |].
  cbn [fold_right map snd]. now rewrite <- IH.
Qed.

Lemma dumps_list (l : list pyobj) :
  Json.dumps (PyList l)
  = (parts <- dumps_all l ;; Return ("[" ++ Str.join ", " parts ++ "]")).
Proof. reflexivity. Qed.

Lemma dumps_dict (d : Py.dict) :
  Json.dumps (PyDict d)
  = (parts <- dumps_entries d ;; Return ("{" ++ Str.join ", " parts ++ "}")).
Proof. reflexivity. Qed.

Lemma substring_all (s : string) : String.substring 0 (String.length s) s = s.
Proof. induction s as [| c s IH]; [reflexivity |]. simpl. now rewrite IH. Qed.

Lemma prefix_empty (s : string) : String.prefix EmptyString s = true.
Proof. now destruct s. Qed.

Ltac decodes_back_with t :=
  exists t; split; [reflexivity |]; split; [reflexivity |]; split; [simpl; lia |].

Lemma decodes_back_none : decodes_back PyNone.
Proof.
  decodes_back_with "null".
  intros [| fuel] rest Hf _; [simpl in Hf; lia |].
  simpl. now rewrite prefix_empty, Nat.sub_0_r, substring_all.
Qed.

Lemma decodes_back_bool (b : bool) : decodes_back (PyBool b).
Proof.
  destruct b; [decodes_back_with "true" | decodes_back_with "false"];
    intros [| fuel] rest Hf _; try (simpl in Hf; lia);
    simpl; now rewrite prefix_empty, Nat.sub_0_r, substring_all.
Qed.

Lemma int_str_shape (n : Z) :
  exists c t,
    Py.int_str n = String c t
    /\ Str.is_digit c || Ascii.eqb c "-" = true
    /\ forall rest, ends_value rest = true ->
                    Json.scan_int (String c t ++ rest) = Some (n, rest).
Proof.
  destruct n as [| p | p].
  - exists "0"%char, EmptyString. repeat split.
  - rewrite int_str_pos.
    destruct (scan_digits p EmptyString eq_refl) as (c & t & E & Hd & Hz & _ & Hv).
    exists c, t. rewrite E. split; [reflexivity |]. split; [now rewrite Hd |].
    intros rest Hr.
    destruct (scan_digits p rest (ends_value_not_digit rest Hr))
      as (c' & t' & E' & _ & _ & Hs & _).
    rewrite E in E'. injection E' as <- <-.
    rewrite (scan_int_digits c t rest false Hd Hz Hs). now rewrite Hv.
  - rewrite int_str_neg.
    destruct (scan_digits p EmptyString eq_refl) as (c & t & E & Hd & Hz & _ & Hv).
    exists "-"%char, (String c t). rewrite E. split; [reflexivity |].
    split; [reflexivity |]. intros rest Hr.
    destruct (scan_digits p rest (ends_value_not_digit rest Hr))
      as (c' & t' & E' & _ & _ & Hs & _).
    rewrite E in E'. injection E' as <- <-.
    change (String "-" (String c t) ++ rest) with (String "-" (String c t ++ rest)).
    rewrite (scan_int_digits c t rest true Hd Hz Hs). now rewrite Hv.
Qed.

Lemma decodes_back_int (n : Z) : decodes_back (PyInt n).
Proof.
  destruct (int_str_shape n) as (c & t & E & Hc & Hscan).
  exists (Py.int_str n). split; [reflexivity |]. rewrite E.
  split; [| split].
  - destruct c as [[] [] [] [] [] [] [] []]; try discriminate Hc; reflexivity.
  - simpl. lia.
  - intros [| fuel] rest Hf Hr; [simpl in Hf; lia |].
    exact (scan_once_number fuel c (t ++ rest) rest n Hc (Hscan rest Hr) Hr).
Qed.

Lemma decodes_back_str (s : string) :
  Str.all_chars Str.is_ascii s = true -> decodes_back (PyStr s).
Proof.
  intros Hs. exists (Json.encode_str s).
  split; [reflexivity |]. split; [reflexivity |]. split; [simpl; lia |].
  intros [| fuel] rest Hf _; [simpl in Hf; lia |].
  unfold Json.encode_str. cbn [append Json.scan_once].
  change (Ascii.eqb Str.dquote Str.dquote) with true. cbv iota.
  rewrite append_assoc. cbn [append].
  now rewrite (scan_encoded_chars s rest Hs).
Qed.

(** *** Arrays *)

Lemma skip_ws_value (t rest : string) :
  starts_value t = true -> Json.skip_ws (t ++ rest) = t ++ rest.
Proof.
  destruct t as [| c t]; [discriminate |]. simpl.
  intros H. apply andb_prop in H. destruct H as [H _].
  apply negb_true_iff in H. now rewrite H.
Qed.

Lemma starts_value_app (t rest : string) :
  starts_value t = true -> starts_value (t ++ rest) = true.
Proof. destruct t; [discriminate | exact id]. Qed.

Lemma parse_array_element (fuel : nat) (acc : list pyobj) (first : bool)
  (c : ascii) (s : string) :
  Ascii.eqb c "]" = false ->
  Json.parse_array (S fuel) acc first (String c s)
  = (v <- Json.scan_once fuel (String c s) ;;
     match Json.skip_ws (snd v) with
     | String "," rest => Json.parse_array fuel (fst v :: acc) false (Json.skip_ws rest)
     | String "]" rest => Return (PyList (List.rev (fst v :: acc)), rest)
     | _ => Raise (Json.decode_error "Expecting ',' delimiter")
     end).
Proof.
  destruct c as [[] [] [] [] [] [] [] []]; intros H; try discriminate H; reflexivity.
Qed.

Lemma parse_array_comma (fuel : nat) (acc : list pyobj) (first : bool)
  (t r : string) (x : pyobj) :
  starts_value t = true ->
  Json.scan_once fuel (t ++ String "," r) = Return (x, String "," r) ->
  Json.parse_array (S fuel) acc first (t ++ String "," r)
  = Json.parse_array fuel (x :: acc) false (Json.skip_ws r).
Proof.
  intros Ht Hs. destruct t as [| c t]; [discriminate |].
  simpl in Ht. apply andb_prop in Ht. destruct Ht as [_ Hc].
  apply negb_true_iff in Hc.
  cbn [append] in *. rewrite (parse_array_element fuel acc first c _ Hc), Hs.
  reflexivity.
Qed.

Lemma parse_array_close (fuel : nat) (acc : list pyobj) (first : bool)
  (t r : string) (x : pyobj) :
  starts_value t = true ->
  Json.scan_once fuel (t ++ String "]" r) = Return (x, String "]" r) ->
  Json.parse_array (S fuel) acc first (t ++ String "]" r)
  = Return (PyList (List.rev (x :: acc)), r).
Proof.
  intros Ht Hs. destruct t as [| c t]; [discriminate |].
  simpl in Ht. apply andb_prop in Ht. destruct Ht as [_ Hc].
  apply negb_true_iff in Hc.
  cbn [append] in *. rewrite (parse_array_element fuel acc first c _ Hc), Hs.
  reflexivity.
Qed.

Lemma length_append (a b : string) :
  String.length (a ++ b) = String.length a + String.length b.
Proof. induction a as [| c a IH]; simpl; [reflexivity | now rewrite IH]. Qed.

Lemma dumps_all_cons (x : pyobj) (l : list pyobj) :
  dumps_all (x :: l) = (t <- Json.dumps x ;; ts <- dumps_all l ;; Return (t :: ts)).
Proof. reflexivity. Qed.

Lemma parse_array_elements (l : list pyobj) :
  Forall decodes_back l -> l <> [] ->
  exists ts,
    dumps_all l = Return ts
    /\ ts <> []
    /\ starts_value (Str.join ", " ts) = true
    /\ sizes l <= 2 * String.length (Str.join ", " ts) + 1
    /\ forall fuel acc first rest,
         sizes l <= fuel ->
         Json.parse_array fuel acc first (Str.join ", " ts ++ String "]" rest)
         = Return (PyList (List.rev acc ++ l), rest).
Proof.
  induction l as [| x l IH]; intros Hall Hne; [now elim Hne |].
  inversion Hall as [| ? ? (t & Hd & Hst & Hlen & Hscan) Hall']. subst.
  destruct l as [| y l].
  - exists [t]. cbn [dumps_all]. rewrite Hd. cbn [bind Str.join].
    split; [reflexivity |]. split; [discriminate |]. split; [exact Hst |].
    split; [cbn [sizes fold_right]; lia |].
    intros [| fuel] acc first rest Hf; [cbn [sizes fold_right] in Hf; lia |].
    cbn [sizes fold_right] in Hf.
    rewrite (parse_array_close fuel acc first t rest x Hst);
      [reflexivity | apply Hscan; [lia | reflexivity]].
  - destruct (IH Hall' ltac:(discriminate)) as (ts & Hts & Hnil & Hsts & Hsz & Hparse).
    exists (t :: ts). rewrite dumps_all_cons, Hd. cbn [bind]. rewrite Hts. cbn [bind].
    rewrite (join_cons ", " t ts Hnil).
    split; [reflexivity |]. split; [discriminate |].
    split; [now apply starts_value_app |].
    split.
    { change (sizes (x :: y :: l)) with (S (json_size x + sizes (y :: l))).
      rewrite !length_append. simpl String.length. lia. }
    intros [| fuel] acc first rest Hf;
      [change (sizes (x :: y :: l)) with (S (json_size x + sizes (y :: l))) in Hf; lia |].
    change (sizes (x :: y :: l)) with (S (json_size x + sizes (y :: l))) in Hf.
    rewrite !append_assoc.
    change (", " ++ Str.join ", " ts ++ String "]" rest)
      with (String "," (String " " (Str.join ", " ts ++ String "]" rest))).
    rewrite (parse_array_comma fuel acc first t _ x Hst);
      [| apply Hscan; [lia | reflexivity]].
    change (Json.skip_ws (String " " (Str.join ", " ts ++ String "]" rest)))
      with (Json.skip_ws (Str.join ", " ts ++ String "]" rest)).
    rewrite (skip_ws_value _ _ Hsts), Hparse by lia.
    cbn [List.rev]. now rewrite <- app_assoc.
Qed.

Lemma decodes_back_list (l : list pyobj) :
  Forall decodes_back l -> decodes_back (PyList l).
Proof.
  intros Hall. destruct l as [| x l].
  - decodes_back_with "[]".
    intros [| [| fuel]] rest Hf _; try (simpl in Hf; lia). reflexivity.
  - destruct (parse_array_elements (x :: l) Hall ltac:(discriminate))
      as (ts & Hts & _ & Hsts & Hsz & Hparse).
    exists ("[" ++ Str.join ", " ts ++ "]").
    split; [rewrite dumps_list, Hts; reflexivity |].
    split; [reflexivity |].
    rewrite json_size_list.
    split; [cbn [append String.length]; rewrite length_append; simpl String.length; lia |].
    intros [| fuel] rest Hf Hr; [lia |].
    cbn [append Json.scan_once].
    change (Ascii.eqb "[" Str.dquote) with false.
    change (Ascii.eqb "[" "{") with false.
    change (Ascii.eqb "[" "[") with true. cbv iota.
    rewrite append_assoc. cbn [append].
    rewrite (skip_ws_value _ _ Hsts).
    rewrite Hparse by lia. reflexivity.
Qed.


(** *** Objects *)

Lemma parse_object_key (fuel : nat) (acc : Py.dict) (first : bool) (s' : string) :
  Json.parse_object (S fuel) acc first (String Str.dquote s')
  = (k <- Json.scan_string Json.InText s' ;;
     match Json.skip_ws (snd k) with
     | String ":" r1 =>
         v <- Json.scan_once fuel (Json.skip_ws r1) ;;
         let acc' := Py.setitem acc (PyStr (fst k)) (fst v) in
         match Json.skip_ws (snd v) with
         | String "," r2 => Json.parse_object fuel acc' false (Json.skip_ws r2)
         | String "}" r2 => Return (PyDict acc', r2)
         | _ => Raise (Json.decode_error "Expecting ',' delimiter")
         end
     | _ => Raise (Json.decode_error "Expecting ':' delimiter")
     end).
Proof. reflexivity. Qed.

Lemma entry_text (k vt tail : string) :
  (Json.encode_str k ++ ": " ++ vt) ++ tail
  = String Str.dquote
      (Json.encode_chars k ++ String Str.dquote (String ":" (String " " (vt ++ tail)))).
Proof.
  unfold Json.encode_str. cbn [append]. f_equal.
  rewrite !append_assoc. reflexivity.
Qed.

Lemma parse_object_comma (fuel : nat) (acc : Py.dict) (first : bool)
  (k vt r : string) (x : pyobj) :
  Str.all_chars Str.is_ascii k = true ->
  starts_value vt = true ->
  Json.scan_once fuel (vt ++ String "," r) = Return (x, String "," r) ->
  Json.parse_object (S fuel) acc first ((Json.encode_str k ++ ": " ++ vt) ++ String "," r)
  = Json.parse_object fuel (Py.setitem acc (PyStr k) x) false (Json.skip_ws r).
Proof.
  intros Hk Hv Hs. rewrite entry_text, parse_object_key.
  rewrite (scan_encoded_chars k _ Hk). cbn [bind fst snd].
  change (Json.skip_ws (String ":" (String " " (vt ++ String "," r))))
    with (String ":" (String " " (vt ++ String "," r))).
  cbv beta iota.
  change (Json.skip_ws (String " " (vt ++ String "," r)))
    with (Json.skip_ws (vt ++ String "," r)).
  rewrite (skip_ws_value vt _ Hv), Hs. reflexivity.
Qed.

Lemma parse_object_close (fuel : nat) (acc : Py.dict) (first : bool)
  (k vt r : string) (x : pyobj) :
  Str.all_chars Str.is_ascii k = true ->
  starts_value vt = true ->
  Json.scan_once fuel (vt ++ String "}" r) = Return (x, String "}" r) ->
  Json.parse_object (S fuel) acc first ((Json.encode_str k ++ ": " ++ vt) ++ String "}" r)
  = Return (PyDict (Py.setitem acc (PyStr k) x), r).
Proof.
  intros Hk Hv Hs. rewrite entry_text, parse_object_key.
  rewrite (scan_encoded_chars k _ Hk). cbn [bind fst snd].
  change (Json.skip_ws (String ":" (String " " (vt ++ String "}" r))))
    with (String ":" (String " " (vt ++ String "}" r))).
  cbv beta iota.
  change (Json.skip_ws (String " " (vt ++ String "}" r)))
    with (Json.skip_ws (vt ++ String "}" r)).
  rewrite (skip_ws_value vt _ Hv), Hs. reflexivity.
Qed.

Lemma dumps_entries_cons (k : string) (v : pyobj) (d : Py.dict) :
  dumps_entries ((PyStr k, v) :: d)
  = (vt <- Json.dumps v ;;
     ts <- dumps_entries d ;;
     Return ((Json.encode_str k ++ ": " ++ vt) :: ts)).
Proof. reflexivity. Qed.

Lemma parse_object_entries (d : Py.dict) :
  Forall json_entry d -> d <> [] ->
  exists ts,
    dumps_entries d = Return ts
    /\ ts <> []
    /\ (exists body, Str.join ", " ts = String Str.dquote body)
    /\ sizes (map snd d) <= 2 * String.length (Str.join ", " ts) + 1
    /\ forall fuel acc first rest,
         sizes (map snd d) <= fuel ->
         Json.parse_object fuel acc first (Str.join ", " ts ++ String "}" rest)
         = Return (PyDict (assign_all d acc), rest).
Proof.
  induction d as [| [key x] d IH]; intros Hall Hne; [now elim Hne |].
  inversion Hall as [| ? ? [(k & Hkey & Hk) (t & Hd & Hst & Hlen & Hscan)] Hall']. subst.
  cbn [fst snd] in *. subst key.
  destruct d as [| y d].
  - exists [Json.encode_str k ++ ": " ++ t].
    rewrite dumps_entries_cons, Hd. cbn [bind dumps_entries Str.join].
    split; [reflexivity |]. split; [discriminate |].
    split; [eexists; reflexivity |].
    split.
    { cbn [map snd sizes fold_right]. rewrite !length_append. lia. }
    intros [| fuel] acc first rest Hf; [cbn [map snd sizes fold_right] in Hf; lia |].
    cbn [map snd sizes fold_right] in Hf.
    rewrite (parse_object_close fuel acc first k t rest x Hk Hst);
      [reflexivity | apply Hscan; [lia | reflexivity]].
  - destruct (IH Hall' ltac:(discriminate))
      as (ts & Hts & Hnil & (body & Hbody) & Hsz & Hparse).
    exists ((Json.encode_str k ++ ": " ++ t) :: ts).
    rewrite dumps_entries_cons, Hd. cbn [bind]. rewrite Hts. cbn [bind].
    rewrite (join_cons ", " _ ts Hnil).
    split; [reflexivity |]. split; [discriminate |].
    split; [eexists; reflexivity |].
    split.
    { change (sizes (map snd ((PyStr k, x) :: y :: d)))
        with (S (json_size x + sizes (map snd (y :: d)))).
      rewrite !length_append. simpl String.length. lia. }
    intros [| fuel] acc first rest Hf;
      [change (sizes (map snd ((PyStr k, x) :: y :: d)))
         with (S (json_size x + sizes (map snd (y :: d)))) in Hf; lia |].
    change (sizes (map snd ((PyStr k, x) :: y :: d)))
      with (S (json_size x + sizes (map snd (y :: d)))) in Hf.
    rewrite (append_assoc (Json.encode_str k ++ ": " ++ t)), (append_assoc ", ").
    change (", " ++ Str.join ", " ts ++ String "}" rest)
      with (String "," (String " " (Str.join ", " ts ++ String "}" rest))).
    rewrite (parse_object_comma fuel acc first k t _ x Hk Hst);
      [| apply Hscan; [lia | reflexivity]].
    rewrite Hbody.
    change (Json.skip_ws (String " " (String Str.dquote body ++ String "}" rest)))
      with (String Str.dquote body ++ String "}" rest).
    rewrite <- Hbody, Hparse by lia. reflexivity.
Qed.

(** Assigning the entries of a dict with distinct keys builds that dict. *)

Lemma setitem_fresh (acc : Py.dict) (k v : pyobj) :
  Py.get acc k = None -> Py.setitem acc k v = (acc ++ [(k, v)])%list.
Proof.
  induction acc as [| [k' v'] acc IH]; [reflexivity |].
  cbn [Py.get Py.setitem app]. destruct (Py.eq k' k); [discriminate |].
  intros H. now rewrite (IH H).
Qed.

Lemma get_app_fresh (acc : Py.dict) (k v k' : pyobj) :
  Py.get acc k' = None -> Py.eq k k' = false ->
  Py.get (acc ++ [(k, v)])%list k' = None.
Proof.
  intros Ha He. induction acc as [| [a b] acc IH].
  - cbn [app Py.get]. now rewrite He.
  - cbn [app Py.get] in *. destruct (Py.eq a k'); [discriminate |]. now apply IH.
Qed.

Lemma get_none_eq (d : Py.dict) (k k' v' : pyobj) :
  Py.get d k = None -> In (k', v') d -> Py.eq k' k = false.
Proof.
  induction d as [| [a b] d IH]; [intros _ [] |].
  cbn [Py.get]. destruct (Py.eq a k) eqn:E; [discriminate |].
  intros H [Hin | Hin]; [injection Hin as <- <-; exact E | now apply IH].
Qed.

Lemma json_safe_dict_keys (d : Py.dict) (k v : pyobj) :
  json_safe (PyDict d) = true -> In (k, v) d ->
  (exists s, k = PyStr s /\ Str.all_chars Str.is_ascii s = true)
  /\ json_safe v = true.
Proof.
  induction d as [| [a b] d IH]; [intros _ [] |].
  rewrite json_safe_dict_cons. intros H.
  apply andb_prop in H. destruct H as [H Hrest].
  apply andb_prop in H. destruct H as [H Hb].
  apply andb_prop in H. destruct H as [Ha Hnew].
  intros [Hin | Hin]; [| now apply IH].
  injection Hin as <- <-. split; [| exact Hb].
  destruct a; try discriminate. now exists s.
Qed.

Lemma assign_all_fresh (d acc : Py.dict) :
  json_safe (PyDict d) = true ->
  (forall k v, In (k, v) d -> Py.get acc k = None) ->
  assign_all d acc = (acc ++ d)%list.
Proof.
  revert acc. induction d as [| [k v] d IH]; intros acc Hd Hacc.
  - unfold assign_all. simpl. now rewrite app_nil_r.
  - pose proof Hd as Hd'. rewrite json_safe_dict_cons in Hd'.
    apply andb_prop in Hd'. destruct Hd' as [H Hrest].
    apply andb_prop in H. destruct H as [H Hv].
    apply andb_prop in H. destruct H as [Hk Hnew].
    unfold assign_all. cbn [fold_left fst snd].
    rewrite (setitem_fresh acc k v) by (apply (Hacc k v); now left).
    change (fold_left _ d ?a) with (assign_all d a).
    rewrite IH; [now rewrite <- app_assoc | exact Hrest |].
    intros k' v' Hin. apply get_app_fresh; [apply (Hacc k' v'); now right |].
    apply negb_true_iff in Hnew. unfold Py.contains in Hnew.
    destruct (Py.get d k) eqn:G; [discriminate |].
    pose proof (get_none_eq d k k' v' G Hin) as E.
    destruct (json_safe_dict_keys d k' v' Hrest Hin) as [(s' & -> & _) _].
    destruct k; try discriminate. simpl in *. now rewrite String.eqb_sym.
Qed.

Lemma decodes_back_dict (d : Py.dict) :
  json_safe (PyDict d) = true ->
  Forall (fun kv => decodes_back (snd kv)) d ->
  decodes_back (PyDict d).
Proof.
  intros Hsafe Hall. destruct d as [| kv d].
  - decodes_back_with "{}".
    intros [| [| fuel]] rest Hf _; try (simpl in Hf; lia). reflexivity.
  - assert (Hentries : Forall json_entry (kv :: d)).
    { apply Forall_forall. intros [k v] Hin. split.
      - exact (proj1 (json_safe_dict_keys _ k v Hsafe Hin)).
      - exact (proj1 (Forall_forall _ _) Hall (k, v) Hin). }
    destruct (parse_object_entries (kv :: d) Hentries ltac:(discriminate))
      as (ts & Hts & _ & (body & Hbody) & Hsz & Hparse).
    exists ("{" ++ Str.join ", " ts ++ "}").
    split; [rewrite dumps_dict, Hts; reflexivity |].
    split; [reflexivity |].
    rewrite json_size_dict.
    split; [cbn [append String.length]; rewrite length_append; simpl String.length; lia |].
    intros [| fuel] rest Hf Hr; [lia |].
    cbn [append Json.scan_once].
    change (Ascii.eqb "{" Str.dquote) with false.
    change (Ascii.eqb "{" "{") with true. cbv iota.
    rewrite append_assoc. cbn [append]. rewrite Hbody.
    change (Json.skip_ws (String Str.dquote body ++ String "}" rest))
      with (String Str.dquote body ++ String "}" rest).
    rewrite <- Hbody, Hparse by lia.
    rewrite (assign_all_fresh (kv :: d) [] Hsafe) by reflexivity. reflexivity.
Qed.

(** *** Every JSON value *)

Lemma json_size_member (l : list pyobj) (x : pyobj) :
  In x l -> json_size x < sizes l.
Proof.
  induction l as [| y l IH]; [intros [] |].
  change (sizes (y :: l)) with (S (json_size y + sizes l)).
  intros [-> | H]; [lia |]. specialize (IH H). lia.
Qed.

Lemma json_values_decode_back (n : nat) :
  forall v, json_size v <= n -> json_safe v = true -> decodes_back v.
Proof.
  induction n as [| n IH]; intros v Hn Hv.
  - destruct v; simpl in Hn; lia.
  - destruct v as [| b | z | s | s | elts | elts | elts | entries | oid];
      try discriminate Hv.
    + apply decodes_back_none.
    + apply decodes_back_bool.
    + apply decodes_back_int.
    + now apply decodes_back_str.
    + apply decodes_back_list. apply Forall_forall. intros x Hin.
      rewrite json_size_list in Hn. pose proof (json_size_member elts x Hin).
      apply IH; [lia |].
      rewrite json_safe_list in Hv.
      exact (proj1 (forallb_forall _ _) Hv x Hin).
    + apply decodes_back_dict; [exact Hv |].
      apply Forall_forall. intros [k x] Hin.
      rewrite json_size_dict in Hn.
      pose proof (json_size_member (map snd entries) x (in_map snd _ _ Hin)).
      apply IH; [cbn [snd]; lia |].
      exact (proj2 (json_safe_dict_keys entries k x Hv Hin)).
Qed.

Lemma loads_dumps (v : pyobj) :
  json_safe v = true ->
  exists t, Json.dumps v = Return t /\ Json.loads t = Return v.
Proof.
  intros Hv.
  destruct (json_values_decode_back (json_size v) v (le_n _) Hv)
    as (t & Hd & Hst & Hlen & Hscan).
  exists t. split; [exact Hd |].
  unfold Json.loads.
  pose proof (skip_ws_value t EmptyString Hst) as Hws.
  rewrite append_empty_r in Hws. rewrite Hws.
  rewrite <- (append_empty_r t) at 2.
  rewrite Hscan by (reflexivity || lia). reflexivity.
Qed.


(** X18. Every value the literal parser returns is a JSON value: None, a
    boolean, an integer, an ASCII string, a list of such values, or a dict
    from distinct string keys to such values; no tuple, set or bytes
    object survives, and no key that is not a string. Such a value is
    stable under the re-validation of line 31: encoding it again and
    decoding the text gives the value back. The same holds for every value
    json.loads returns, which is what the other keywords decode. *)
Theorem parser_returns_json_values (text : string) (v : pyobj) :
  MongoQuery.pythonish_to_json_dict text = Return v
  \/ Json.loads text = Return v ->
  json_safe v = true
  /\ exists encoded, Json.dumps v = Return encoded /\ Json.loads encoded = Return v.
Proof.
  intros H.
  assert (Hv : json_safe v = true).
  { destruct H as [H | H]; [| exact (loads_json_safe text v H)].
    rewrite pythonish_to_json_dict_stages in H.
    unfold MongoQuery.parse_and_revalidate in H.
    destruct (Ast.literal_eval _) as [obj | |]; cbn [bind] in H; try discriminate.
    destruct (Json.dumps obj) as [encoded | |]; cbn [bind] in H; try discriminate.
    destruct (Json.loads encoded) as [v' | |] eqn:E; try discriminate.
    injection H as <-. exact (loads_json_safe encoded v' E). }
  split; [exact Hv | exact (loads_dumps v Hv)].
Qed.

Lemma parser_returns_json_values_witness :
  json_safe (PyDict [(PyStr "1", PyList [PyInt 2; PyStr "x"]); (PyStr "None", PyNone)])
  = true
  /\ exists encoded,
       Json.dumps (PyDict [(PyStr "1", PyList [PyInt 2; PyStr "x"]);
                           (PyStr "None", PyNone)]) = Return encoded
       /\ Json.loads encoded
          = Return (PyDict [(PyStr "1", PyList [PyInt 2; PyStr "x"]);
                            (PyStr "None", PyNone)]).
Proof.
  apply (parser_returns_json_values "{1: (2, 'x'), 'None': null}"). left.
  vm_compute. reflexivity.
Defined.

(** X19. The re-validation of lines 30-31 is the identity exactly on JSON
    values: when the normalized text evaluates to a literal value, the
    parser returns that very value if and only if it is a JSON value. For
    a literal with a tuple, a set, bytes or a key that is not a string the
    parser returns another value or raises. *)
Theorem revalidation_is_identity_on_json_values (text : string) (obj : pyobj) :
  Ast.literal_eval (MongoQuery.normalize_literals text) = Return obj ->
  (MongoQuery.pythonish_to_json_dict text = Return obj <-> json_safe obj = true).
Proof.
  intros Hl. split.
  - intros H. rewrite pythonish_to_json_dict_stages in H.
    unfold MongoQuery.parse_and_revalidate in H. rewrite Hl in H. cbn [bind] in H.
    destruct (Json.dumps obj) as [encoded | |]; cbn [bind] in H; try discriminate.
    destruct (Json.loads encoded) as [v' | |] eqn:E; try discriminate.
    injection H as ->. exact (loads_json_safe encoded obj E).
  - intros Hs. destruct (loads_dumps obj Hs) as (encoded & Hd & Hb).
    rewrite pythonish_to_json_dict_stages. unfold MongoQuery.parse_and_revalidate.
    rewrite Hl. cbn [bind]. rewrite Hd. cbn [bind]. now rewrite Hb.
Qed.

Lemma revalidation_is_identity_on_json_values_witness :
  MongoQuery.pythonish_to_json_dict "{'a': [1, -2, 'x'], 'b': {'c': null}}"
  = Return (PyDict [(PyStr "a", PyList [PyInt 1; PyInt (-2); PyStr "x"]);
                    (PyStr "b", PyDict [(PyStr "c", PyNone)])]).
Proof.
  apply (proj2 (revalidation_is_identity_on_json_values
                  "{'a': [1, -2, 'x'], 'b': {'c': null}}"
                  (PyDict [(PyStr "a", PyList [PyInt 1; PyInt (-2); PyStr "x"]);
                           (PyStr "b", PyDict [(PyStr "c", PyNone)])])
                  eq_refl)).
  reflexivity.
Defined.
